(** * MOOC: the mesh-networking core of the tamagotchi simulator

    A shallow embedding of the Go package [mooc] (identity, message
    protocol, discovery, gossip and the network facade) together with
    the properties that its specification states about it.

    Conventions of the embedding:
    - a Go [int] / [int64] is a [Z]; where the code does arithmetic the
      two's-complement wrap-around is written out with [wrap64];
    - a Go [string] or [[]byte] is a [string] (a sequence of bytes);
    - a [time.Time] is its instant: Unix seconds and nanoseconds;
    - a struct is a [Record], a pointer to a struct that is shared and
      mutated is an explicit cell of a store;
    - effects (datagrams written to the socket, sockets opened) are
      returned as values next to the new state;
    - the random source and the clock are inputs. *)

From Stdlib Require Import ZArith List Strings.String Strings.Ascii Bool Lia.
From Stdlib Require Import Numbers.DecimalString Numbers.DecimalZ QArith.
From Stdlib Require Import Numbers.DecimalPos.
From stdpp Require Import base gmap strings list finite.

Import ListNotations.
Local Open Scope string_scope.
Local Open Scope Z_scope.

#[local] Arguments String.append : simpl nomatch.

(** ** Machine integers *)

(** Go's [int] and [int64] on the supported 64-bit targets: the result
    of an arithmetic operation is reduced into [-2^63, 2^63). *)
Definition wrap64 (z : Z) : Z := (z + 2 ^ 63) mod 2 ^ 64 - 2 ^ 63.

Definition in_int64 (z : Z) : bool := (- 2 ^ 63 <=? z) && (z <? 2 ^ 63).

(** ** time.Time *)

(** The instant of a [time.Time]: seconds since the Unix epoch and the
    nanosecond within the second, [0 <= nsec < 10^9].  The location and
    the monotonic-clock reading of a Go time are not part of the
    instant and are not modelled. *)
Record Time : Type := mkTime { unixSec : Z; nsec : Z }.

(** [time.Unix(sec, nsec)] *)
Definition Unix (sec ns : Z) : Time := mkTime sec ns.

(** The zero [time.Time] is January 1, year 1, 00:00:00 UTC. *)
Definition zeroTime : Time := mkTime (-62135596800) 0.

(** [t.IsZero()] *)
Definition IsZero (t : Time) : bool :=
  (unixSec t =? -62135596800) && (nsec t =? 0).

(** [t.UnixNano()]: [t.unixSec()*1e9 + int64(t.nsec())] in [int64]
    arithmetic. *)
Definition UnixNano (t : Time) : Z :=
  wrap64 (wrap64 (unixSec t * 1000000000) + nsec t).

(** [t.Unix()] *)
Definition UnixSeconds (t : Time) : Z := unixSec t.

(** ** Bytes and strings *)

Definition byte_of_ascii (c : ascii) : Z := Z.of_N (N_of_ascii c).
Definition ascii_of_byte (b : Z) : ascii := ascii_of_N (Z.to_N (b mod 256)).

Fixpoint bytes_of_string (s : string) : list Z :=
  match s with
  | EmptyString => []
  | String c s' => byte_of_ascii c :: bytes_of_string s'
  end.

Fixpoint string_of_bytes (l : list Z) : string :=
  match l with
  | [] => EmptyString
  | b :: l' => String (ascii_of_byte b) (string_of_bytes l')
  end.

(** [fmt.Sprintf("%d", z)] *)
Definition fmt_d (z : Z) : string := NilZero.string_of_int (Z.to_int z).

(** ** crypto/sha256 (FIPS 180-4) *)

Module SHA256.

Definition w32 (x : Z) : Z := x mod 2 ^ 32.
Definition add32 (x y : Z) : Z := w32 (x + y).
Definition rotr (n x : Z) : Z :=
  w32 (Z.lor (Z.shiftr x n) (Z.shiftl x (32 - n))).
Definition not32 (x : Z) : Z := 2 ^ 32 - 1 - x.

Definition Ch (x y z : Z) : Z :=
  Z.lxor (Z.land x y) (Z.land (not32 x) z).
Definition Maj (x y z : Z) : Z :=
  Z.lxor (Z.lxor (Z.land x y) (Z.land x z)) (Z.land y z).
Definition Sigma0 (x : Z) : Z :=
  Z.lxor (Z.lxor (rotr 2 x) (rotr 13 x)) (rotr 22 x).
Definition Sigma1 (x : Z) : Z :=
  Z.lxor (Z.lxor (rotr 6 x) (rotr 11 x)) (rotr 25 x).
Definition sigma0 (x : Z) : Z :=
  Z.lxor (Z.lxor (rotr 7 x) (rotr 18 x)) (Z.shiftr x 3).
Definition sigma1 (x : Z) : Z :=
  Z.lxor (Z.lxor (rotr 17 x) (rotr 19 x)) (Z.shiftr x 10).

(** The constants are, as the standard defines them, the first 32
    bits of the fractional parts of the cube roots (for [K]) and of the
    square roots (for [H0]) of the first primes. *)
Definition is_prime (p : Z) : bool :=
  (2 <=? p)
  && forallb (fun d => negb (p mod d =? 0) || (p <=? d))
             (map Z.of_nat (seq 2 (Z.to_nat (Z.sqrt p)))).

Definition primes : list Z :=
  List.filter is_prime (map Z.of_nat (seq 0 312)).

(** The largest [r + x], [x < 2^b], whose power [e] is at most [n]. *)
Fixpoint iroot (e n : Z) (b : nat) (r : Z) : Z :=
  match b with
  | O => r
  | S b' =>
      let r' := r + 2 ^ Z.of_nat b' in
      iroot e n b' (if r' ^ e <=? n then r' else r)
  end.

Definition frac_root (e p : Z) : Z :=
  iroot e (p * 2 ^ (32 * e)) 36 0 mod 2 ^ 32.

Definition K : list Z := Eval vm_compute in map (frac_root 3) primes.

Definition H0 : list Z :=
  Eval vm_compute in map (frac_root 2) (firstn 8 primes).

(** Big-endian words of a block of bytes. *)
Fixpoint words (l : list Z) : list Z :=
  match l with
  | a :: b :: c :: d :: l' =>
      (((a * 256 + b) * 256 + c) * 256 + d) :: words l'
  | _ => []
  end.

Definition word_bytes (w : Z) : list Z :=
  [ (w / 2 ^ 24) mod 256; (w / 2 ^ 16) mod 256;
    (w / 2 ^ 8) mod 256; w mod 256 ].

(** The message schedule, most recent word first: [rev] of
    [W_0 .. W_(15+n)]. *)
Fixpoint schedule (n : nat) (rw : list Z) : list Z :=
  match n with
  | O => rw
  | S n' =>
      let w :=
        add32 (add32 (sigma1 (nth 1 rw 0)) (nth 6 rw 0))
              (add32 (sigma0 (nth 14 rw 0)) (nth 15 rw 0)) in
      schedule n' (w :: rw)
  end.

Definition round (s : list Z) (kw : Z * Z) : list Z :=
  match s with
  | [a; b; c; d; e; f; g; h] =>
      let t1 :=
        add32 (add32 (add32 h (Sigma1 e)) (add32 (Ch e f g) (fst kw)))
              (snd kw) in
      let t2 := add32 (Sigma0 a) (Maj a b c) in
      [add32 t1 t2; a; b; c; add32 d t1; e; f; g]
  | _ => s
  end.

Fixpoint zip_add (l1 l2 : list Z) : list Z :=
  match l1, l2 with
  | x :: l1', y :: l2' => add32 x y :: zip_add l1' l2'
  | _, _ => []
  end.

Definition compress (h block : list Z) : list Z :=
  let W := List.rev (schedule 48 (List.rev (words block))) in
  zip_add h (fold_left round (combine K W) h).

Fixpoint blocks (n : nat) (h msg : list Z) : list Z :=
  match n with
  | O => h
  | S n' => blocks n' (compress h (firstn 64 msg)) (skipn 64 msg)
  end.

Definition pad (msg : list Z) : list Z :=
  let len := Z.of_nat (length msg) in
  let k := (55 - len) mod 64 in
  msg ++ [128] ++ repeat 0 (Z.to_nat k)
      ++ word_bytes (w32 (len * 8 / 2 ^ 32)) ++ word_bytes (w32 (len * 8)).

(** [sha256.Sum256]: the 32 bytes of the digest. *)
Definition Sum256 (msg : list Z) : list Z :=
  let p := pad msg in
  flat_map word_bytes (blocks (length p / 64)%nat H0 p).

End SHA256.

(** ** encoding/hex *)

Definition hex_digit (n : Z) : ascii :=
  if n <? 10 then ascii_of_byte (48 + n) else ascii_of_byte (87 + n).

(** [hex.EncodeToString] *)
Fixpoint hex_EncodeToString (l : list Z) : string :=
  match l with
  | [] => EmptyString
  | b :: l' =>
      String (hex_digit (b / 16))
        (String (hex_digit (b mod 16)) (hex_EncodeToString l'))
  end.

(** ** identity.go *)

Record PetIdentity : Type := mkPetIdentity {
  PetID : string;
  DisplayName : string;
  BirthTime : Time;
  PublicKey : string;
  Stage : string;
  IsAlive : bool
}.

Definition GeneratePetID (name : string) (birthTime : Time) : string :=
  let data := name +:+ ":" +:+ fmt_d (UnixNano birthTime) in
  let hash := SHA256.Sum256 (bytes_of_string data) in
  hex_EncodeToString (firstn 16 hash).

Definition GenerateNameHash (name : string) : string :=
  let hash := SHA256.Sum256 (bytes_of_string name) in
  hex_EncodeToString (firstn 8 hash).

Definition NewPetIdentity (name : string) (birthTime : Time)
    (stage : string) (isAlive : bool) : PetIdentity :=
  let petID := GeneratePetID name birthTime in
  let keyData := "MOOC:PK:" +:+ name +:+ ":" +:+ fmt_d (UnixSeconds birthTime) in
  let keyHash := SHA256.Sum256 (bytes_of_string keyData) in
  {| PetID := petID;
     DisplayName := name;
     BirthTime := birthTime;
     PublicKey := hex_EncodeToString keyHash;
     Stage := stage;
     IsAlive := isAlive |}.

Definition CanShareDreamsWith (pi other : PetIdentity) : bool :=
  String.eqb (GenerateNameHash (DisplayName pi))
             (GenerateNameHash (DisplayName other)).


(** ** encoding/json

    The part of Go's [encoding/json] that the package relies on: the
    text form of JSON values (compact rendering with Go's string
    escaping, parsing with Go's validation), RFC 3339 times, and the
    rules by which a value is stored into a struct field. *)

Module JSON.

#[local] Set Warnings "-register-all".
Inductive value : Type :=
| Null
| Bool (b : bool)
| Num (lit : string)            (* the literal, as written *)
| Str (s : string)
| Arr (l : list value)
| Obj (m : list (string * value)).

Definition code (c : ascii) : Z := byte_of_ascii c.
Definition chr (n : Z) : ascii := ascii_of_byte n.
Definition isb (c : ascii) (n : Z) : bool := code c =? n.
Definition dquote : ascii := Ascii false true false false false true false false.

(** *** Strings *)

Definition hex2 (n : Z) : string :=
  String (hex_digit (n / 16)) (String (hex_digit (n mod 16)) "").

(** Number of continuation bytes of the UTF-8 sequence that the lead
    byte [c] starts in front of [r]; [0] when there is no valid
    sequence ([utf8.DecodeRune] returns [RuneError], width 1). *)
Definition cont (c : ascii) : bool := (128 <=? code c) && (code c <? 192).
Definition between (lo hi : Z) (c : ascii) : bool :=
  (lo <=? code c) && (code c <=? hi).

Definition utf8_width (c : ascii) (r : string) : nat :=
  let b := code c in
  if (0xC2 <=? b) && (b <=? 0xDF) then
    match r with
    | String c1 _ => if cont c1 then 1%nat else 0%nat
    | _ => 0%nat
    end
  else if (0xE0 <=? b) && (b <=? 0xEF) then
    match r with
    | String c1 (String c2 _) =>
        let lo := if b =? 0xE0 then 0xA0 else 0x80 in
        let hi := if b =? 0xED then 0x9F else 0xBF in
        if between lo hi c1 && cont c2 then 2%nat else 0%nat
    | _ => 0%nat
    end
  else if (0xF0 <=? b) && (b <=? 0xF4) then
    match r with
    | String c1 (String c2 (String c3 _)) =>
        let lo := if b =? 0xF0 then 0x90 else 0x80 in
        let hi := if b =? 0xF4 then 0x8F else 0xBF in
        if between lo hi c1 && cont c2 && cont c3 then 3%nat else 0%nat
    | _ => 0%nat
    end
  else 0%nat.

(** U+2028 and U+2029, which the encoder writes as escapes. *)
Definition esc_2028 : string := "\u2028".
Definition esc_2029 : string := "\u2029".

Definition line_sep (c : ascii) (r : string) : option string :=
  match r with
  | String c1 (String c2 _) =>
      if isb c 0xE2 && isb c1 0x80 && isb c2 0xA8 then Some esc_2028
      else if isb c 0xE2 && isb c1 0x80 && isb c2 0xA9 then Some esc_2029
      else None
  | _ => None
  end.

(** The escape of a byte below [utf8.RuneSelf] (HTML escaping on, as
    [json.Marshal] has it). *)
Definition escape (c : ascii) : string :=
  let b := code c in
  if b =? 34 then String "\" (String dquote "")
  else if b =? 92 then "\\"
  else if b =? 8 then "\b"
  else if b =? 12 then "\f"
  else if b =? 10 then "\n"
  else if b =? 13 then "\r"
  else if b =? 9 then "\t"
  else if (b <? 32) || (b =? 60) || (b =? 62) || (b =? 38)
       then "\u00" +:+ hex2 b
  else String c "".

(** How the scan treats the next bytes: the coming [k] bytes belong
    to a sequence already examined and are copied, or dropped. *)
Inductive mode : Type := Copy (k : nat) | Drop (k : nat).

(** [k] more bytes to drop; none is the ordinary scan. *)
Definition dropping (k : nat) : mode :=
  match k with
  | O => Copy 0
  | S _ => Drop k
  end.

Fixpoint quote_body (m : mode) (s : string) : string :=
  match s with
  | EmptyString => ""
  | String c r =>
      match m with
      | Copy (S k) => String c (quote_body (Copy k) r)
      | Drop (S k) => quote_body (dropping k) r
      | _ =>
          if code c <? 128 then escape c +:+ quote_body (Copy 0) r
          else
            match utf8_width c r with
            | O => "\ufffd" +:+ quote_body (Copy 0) r
            | S k =>
                match line_sep c r with
                | Some e => e +:+ quote_body (Drop (S k)) r
                | None => String c (quote_body (Copy (S k)) r)
                end
            end
      end
  end.

(** A Go string as a JSON string literal. *)
Definition quote (s : string) : string :=
  String dquote (quote_body (Copy 0) s +:+ String dquote "").

Definition hex_value (c : ascii) : option Z :=
  let b := code c in
  if (48 <=? b) && (b <=? 57) then Some (b - 48)
  else if (97 <=? b) && (b <=? 102) then Some (b - 87)
  else if (65 <=? b) && (b <=? 70) then Some (b - 55)
  else None.

(** [getu4] on the text after the letter u. *)
Definition getu4 (s : string) : option Z :=
  match s with
  | String h1 (String h2 (String h3 (String h4 _))) =>
      match hex_value h1, hex_value h2, hex_value h3, hex_value h4 with
      | Some a, Some b, Some c, Some d =>
          Some (((a * 16 + b) * 16 + c) * 16 + d)
      | _, _, _, _ => None
      end
  | _ => None
  end.

(** [utf8.EncodeRune] *)
Definition utf8_encode (r : Z) : string :=
  if r <? 0x80 then String (chr r) ""
  else if r <? 0x800 then
    String (chr (0xC0 + r / 64)) (String (chr (0x80 + r mod 64)) "")
  else if r <? 0x10000 then
    String (chr (0xE0 + r / 4096))
      (String (chr (0x80 + (r / 64) mod 64))
         (String (chr (0x80 + r mod 64)) ""))
  else
    String (chr (0xF0 + r / 262144))
      (String (chr (0x80 + (r / 4096) mod 64))
         (String (chr (0x80 + (r / 64) mod 64))
            (String (chr (0x80 + r mod 64)) ""))).

Fixpoint drop (n : nat) (s : string) : string :=
  match n, s with
  | S n', String _ r => drop n' r
  | _, _ => s
  end.

(** The rune of a [\u] escape and the number of characters it takes
    after the backslash: a surrogate pair is two escapes, a lone
    surrogate is U+FFFD. [s] is the text after the letter u. *)
Definition unescape_u (s : string) : option (Z * nat) :=
  match getu4 s with
  | None => None
  | Some u =>
      if (0xD800 <=? u) && (u <? 0xDC00) then
        match drop 4 s with
        | String b (String e s2) =>
            match (if isb b 92 && isb e 117 then getu4 s2 else None) with
            | Some u2 =>
                if (0xDC00 <=? u2) && (u2 <? 0xE000)
                then Some (0x10000 + (u - 0xD800) * 1024 + (u2 - 0xDC00),
                           11%nat)
                else Some (0xFFFD, 5%nat)
            | None => Some (0xFFFD, 5%nat)
            end
        | _ => Some (0xFFFD, 5%nat)
        end
      else if (0xDC00 <=? u) && (u <? 0xE000) then Some (0xFFFD, 5%nat)
      else Some (u, 5%nat)
  end.

Definition simple_escape (e : ascii) : option ascii :=
  let b := code e in
  if (b =? 34) || (b =? 92) || (b =? 47) then Some e
  else if b =? 98 then Some (chr 8)
  else if b =? 102 then Some (chr 12)
  else if b =? 110 then Some (chr 10)
  else if b =? 114 then Some (chr 13)
  else if b =? 116 then Some (chr 9)
  else None.

Definition prepend (p : string) (o : option (string * string))
  : option (string * string) :=
  match o with
  | Some (s, rest) => Some (p +:+ s, rest)
  | None => None
  end.

(** The text after an opening quote: the decoded string and the text
    after the closing quote. *)
Fixpoint unquote_body (m : mode) (s : string) : option (string * string) :=
  match s with
  | EmptyString => None
  | String c r =>
      match m with
      | Copy (S k) => prepend (String c "") (unquote_body (Copy k) r)
      | Drop (S k) => unquote_body (dropping k) r
      | _ =>
          if isb c 34 then Some ("", r)
          else if isb c 92 then
            match r with
            | String e r1 =>
                if isb e 117 then
                  match unescape_u r1 with
                  | Some (rune, n) =>
                      prepend (utf8_encode rune) (unquote_body (Drop n) r)
                  | None => None
                  end
                else
                  match simple_escape e with
                  | Some ch =>
                      prepend (String ch "") (unquote_body (Drop 1) r)
                  | None => None
                  end
            | EmptyString => None
            end
          else if code c <? 32 then None
          else if code c <? 128 then
            prepend (String c "") (unquote_body (Copy 0) r)
          else
            match utf8_width c r with
            | O => prepend (utf8_encode 0xFFFD) (unquote_body (Copy 0) r)
            | S k => prepend (String c "") (unquote_body (Copy (S k)) r)
            end
      end
  end.

(** Valid UTF-8, as [utf8.ValidString]. *)
Fixpoint utf8_valid (k : nat) (s : string) : bool :=
  match s with
  | EmptyString => true
  | String c r =>
      match k with
      | S k' => utf8_valid k' r
      | O =>
          if code c <? 128 then utf8_valid 0 r
          else
            match utf8_width c r with
            | O => false
            | S k' => utf8_valid (S k') r
            end
      end
  end.

(** *** Numbers *)

Definition is_digit (c : ascii) : bool := between 48 57 c.

Definition num_char (c : ascii) : bool :=
  is_digit c || isb c 45 || isb c 43 || isb c 46 || isb c 101 || isb c 69.

Fixpoint span (p : ascii -> bool) (s : string) : string * string :=
  match s with
  | EmptyString => ("", "")
  | String c r =>
      if p c then let (a, b) := span p r in (String c a, b) else ("", s)
  end.

Definition nonempty (s : string) : bool :=
  match s with EmptyString => false | _ => true end.

Definition is_empty (s : string) : bool := negb (nonempty s).

(** The exponent part, or nothing, up to the end of the literal. *)
Definition valid_exp (s : string) : bool :=
  match s with
  | EmptyString => true
  | String c r =>
      if isb c 101 || isb c 69 then
        let r1 := match r with
                  | String g r' => if isb g 43 || isb g 45 then r' else r
                  | EmptyString => r
                  end in
        let (ds, r2) := span is_digit r1 in
        nonempty ds && is_empty r2
      else false
  end.

Definition valid_frac (s : string) : bool :=
  match s with
  | String c r =>
      if isb c 46 then
        let (ds, r1) := span is_digit r in nonempty ds && valid_exp r1
      else valid_exp s
  | EmptyString => true
  end.

(** The grammar of a JSON number. *)
Definition valid_number (lit : string) : bool :=
  let s1 := match lit with
            | String c r => if isb c 45 then r else lit
            | EmptyString => lit
            end in
  match s1 with
  | String c r =>
      if isb c 48 then valid_frac r
      else if is_digit c then valid_frac (snd (span is_digit r))
      else false
  | EmptyString => false
  end.

(** [strconv.ParseInt(lit, 10, 64)] on a literal of the grammar. *)
Definition int_of_lit (lit : string) : option Z :=
  match NilZero.int_of_string lit with
  | Some d => let z := Z.of_int d in if in_int64 z then Some z else None
  | None => None
  end.

(** *** Values *)

Definition is_ws (c : ascii) : bool :=
  isb c 32 || isb c 9 || isb c 10 || isb c 13.

Fixpoint skip_ws (s : string) : string :=
  match s with
  | String c r => if is_ws c then skip_ws r else s
  | EmptyString => s
  end.

Fixpoint strip_prefix (p s : string) : option string :=
  match p, s with
  | EmptyString, _ => Some s
  | String a p', String b s' =>
      if Ascii.eqb a b then strip_prefix p' s' else None
  | _, _ => None
  end.

Definition literal (p : string) (v : value) (s : string)
  : option (value * string) :=
  match strip_prefix p s with
  | Some r => Some (v, r)
  | None => None
  end.

Fixpoint parse_value (fuel : nat) (s : string) {struct fuel}
  : option (value * string) :=
  match fuel with
  | O => None
  | S f =>
      match skip_ws s with
      | EmptyString => None
      | String c r as s0 =>
          if isb c 123 then
            match skip_ws r with
            | String c1 r1 =>
                if isb c1 125 then Some (Obj [], r1)
                else match parse_members f r with
                     | Some (m, r2) => Some (Obj m, r2)
                     | None => None
                     end
            | EmptyString => None
            end
          else if isb c 91 then
            match skip_ws r with
            | String c1 r1 =>
                if isb c1 93 then Some (Arr [], r1)
                else match parse_elems f r with
                     | Some (l, r2) => Some (Arr l, r2)
                     | None => None
                     end
            | EmptyString => None
            end
          else if isb c 34 then
            match unquote_body (Copy 0) r with
            | Some (str, r1) => Some (Str str, r1)
            | None => None
            end
          else if isb c 116 then literal "rue" (Bool true) r
          else if isb c 102 then literal "alse" (Bool false) r
          else if isb c 110 then literal "ull" Null r
          else if isb c 45 || is_digit c then
            let (lit, r1) := span num_char s0 in
            if valid_number lit then Some (Num lit, r1) else None
          else None
      end
  end
with parse_elems (fuel : nat) (s : string) {struct fuel}
  : option (list value * string) :=
  match fuel with
  | O => None
  | S f =>
      match parse_value f s with
      | Some (v, r) =>
          match skip_ws r with
          | String c r1 =>
              if isb c 44 then
                match parse_elems f r1 with
                | Some (l, r2) => Some (v :: l, r2)
                | None => None
                end
              else if isb c 93 then Some ([v], r1)
              else None
          | EmptyString => None
          end
      | None => None
      end
  end
with parse_members (fuel : nat) (s : string) {struct fuel}
  : option (list (string * value) * string) :=
  match fuel with
  | O => None
  | S f =>
      match skip_ws s with
      | String q r =>
          if isb q 34 then
            match unquote_body (Copy 0) r with
            | Some (k, r1) =>
                match skip_ws r1 with
                | String c r2 =>
                    if isb c 58 then
                      match parse_value f r2 with
                      | Some (v, r3) =>
                          match skip_ws r3 with
                          | String d r4 =>
                              if isb d 44 then
                                match parse_members f r4 with
                                | Some (m, r5) => Some ((k, v) :: m, r5)
                                | None => None
                                end
                              else if isb d 125 then Some ([(k, v)], r4)
                              else None
                          | EmptyString => None
                          end
                      | None => None
                      end
                    else None
                | EmptyString => None
                end
            | None => None
            end
          else None
      | EmptyString => None
      end
  end.

(** The value that a text holds: one value, blanks around it. *)
Definition parse (s : string) : option value :=
  match parse_value (S (String.length s)) s with
  | Some (v, r) => if is_empty (skip_ws r) then Some v else None
  | None => None
  end.

(** The compact text of a value, as [json.Marshal] writes it. *)
Fixpoint render (v : value) : string :=
  match v with
  | Null => "null"
  | Bool true => "true"
  | Bool false => "false"
  | Num lit => lit
  | Str s => quote s
  | Arr l =>
      "[" +:+
      (fix elems (l : list value) : string :=
         match l with
         | [] => ""
         | [x] => render x
         | x :: l' => render x +:+ "," +:+ elems l'
         end) l +:+ "]"
  | Obj m =>
      "{" +:+
      (fix members (m : list (string * value)) : string :=
         match m with
         | [] => ""
         | [(k, x)] => quote k +:+ ":" +:+ render x
         | (k, x) :: m' => quote k +:+ ":" +:+ render x +:+ "," +:+ members m'
         end) m +:+ "}"
  end.

(** *** time.Time as RFC 3339 text *)

(** Days since 1970-01-01 of a date of the proleptic Gregorian
    calendar, and back. *)
Definition days_from_civil (y m d : Z) : Z :=
  let y' := if m <=? 2 then y - 1 else y in
  let era := y' / 400 in
  let yoe := y' - era * 400 in
  let mp := (m + 9) mod 12 in
  let doy := (153 * mp + 2) / 5 + d - 1 in
  let doe := yoe * 365 + yoe / 4 - yoe / 100 + doy in
  era * 146097 + doe - 719468.

Definition civil_of_doe (doe : Z) : Z * Z * Z :=
  let yoe := (doe - doe / 1460 + doe / 36524 - doe / 146096) / 365 in
  let doy := doe - (365 * yoe + yoe / 4 - yoe / 100) in
  let mp := (5 * doy + 2) / 153 in
  let d := doy - (153 * mp + 2) / 5 + 1 in
  let m := if mp <? 10 then mp + 3 else mp - 9 in
  (if m <=? 2 then yoe + 1 else yoe, m, d).

Definition civil_from_days (z : Z) : Z * Z * Z :=
  let z' := z + 719468 in
  let era := z' / 146097 in
  let '(y, m, d) := civil_of_doe (z' - era * 146097) in
  (y + era * 400, m, d).

Definition is_leap (y : Z) : bool :=
  (y mod 4 =? 0) && (negb (y mod 100 =? 0) || (y mod 400 =? 0)).

Definition days_in (y m : Z) : Z :=
  if m =? 2 then (if is_leap y then 29 else 28)
  else if (m =? 4) || (m =? 6) || (m =? 9) || (m =? 11) then 30
  else 31.

Definition digit (n : Z) : ascii := chr (48 + n).

Definition pad2 (n : Z) : string :=
  String (digit (n / 10)) (String (digit (n mod 10)) "").

Definition pad4 (n : Z) : string := pad2 (n / 100) +:+ pad2 (n mod 100).

(** The digits of the fraction of a second, zeros at the end left out
    (the layout [.999999999]). *)
Fixpoint frac_digits (k : nat) (ns : Z) : string :=
  match k with
  | O => ""
  | S k' =>
      if ns =? 0 then ""
      else String (digit (ns / 10 ^ Z.of_nat k'))
             (frac_digits k' (ns mod 10 ^ Z.of_nat k'))
  end.

(** [t.MarshalJSON()] without the quotes, for a time in UTC: an error
    when the year is outside [0, 9999]. *)
Definition format_time (t : Time) : option string :=
  let '(y, m, d) := civil_from_days (unixSec t / 86400) in
  let s := unixSec t mod 86400 in
  if (0 <=? y) && (y <=? 9999) then
    Some (pad4 y +:+ "-" +:+ pad2 m +:+ "-" +:+ pad2 d +:+ "T"
          +:+ pad2 (s / 3600) +:+ ":" +:+ pad2 (s / 60 mod 60) +:+ ":"
          +:+ pad2 (s mod 60)
          +:+ (if nsec t =? 0 then "" else "." +:+ frac_digits 9 (nsec t))
          +:+ "Z")
  else None.

(** [n] digits at the head of the text. *)
Fixpoint take_digits (n : nat) (acc : Z) (s : string) : option (Z * string) :=
  match n with
  | O => Some (acc, s)
  | S n' =>
      match s with
      | String c r =>
          if is_digit c then take_digits n' (acc * 10 + (code c - 48)) r
          else None
      | EmptyString => None
      end
  end.

Definition expect (n : Z) (s : string) : option string :=
  match s with
  | String c r => if isb c n then Some r else None
  | EmptyString => None
  end.

Fixpoint frac_value (k : nat) (s : string) : Z :=
  match k with
  | O => 0
  | S k' =>
      match s with
      | String c r => (code c - 48) * 10 ^ Z.of_nat k' + frac_value k' r
      | EmptyString => 0
      end
  end.

(** The zone at the end of the text, in seconds east of UTC. *)
Definition parse_zone (s : string) : option Z :=
  match s with
  | String c r =>
      if isb c 90 then (if is_empty r then Some 0 else None)
      else if isb c 43 || isb c 45 then
        match take_digits 2 0 r with
        | Some (hh, r1) =>
            match expect 58 r1 with
            | Some r2 =>
                match take_digits 2 0 r2 with
                | Some (mm, r3) =>
                    if is_empty r3 && (hh <? 24) && (mm <? 60) then
                      Some ((if isb c 45 then -1 else 1)
                            * (hh * 3600 + mm * 60))
                    else None
                | None => None
                end
            | None => None
            end
        | None => None
        end
      else None
  | EmptyString => None
  end.

Definition parse_clock (y m d : Z) (s : string) : option Time :=
  match take_digits 2 0 s with
  | Some (hh, s1) =>
  match expect 58 s1 with
  | Some s2 =>
  match take_digits 2 0 s2 with
  | Some (mi, s3) =>
  match expect 58 s3 with
  | Some s4 =>
  match take_digits 2 0 s4 with
  | Some (ss, s5) =>
      let '(fr, s6) :=
        match s5 with
        | String c r =>
            if isb c 46 then let (ds, r') := span is_digit r in (Some ds, r')
            else (Some "", s5)
        | EmptyString => (Some "", s5)
        end in
      let fr_ok :=
        match s5, fr with
        | String c _, Some ds => negb (isb c 46) || nonempty ds
        | _, _ => true
        end in
      match parse_zone s6, fr with
      | Some off, Some ds =>
          if fr_ok && (1 <=? m) && (m <=? 12) && (1 <=? d)
             && (d <=? days_in y m) && (hh <? 24) && (mi <? 60) && (ss <? 60)
          then Some (mkTime (days_from_civil y m d * 86400
                             + hh * 3600 + mi * 60 + ss - off)
                            (frac_value 9 ds))
          else None
      | _, _ => None
      end
  | None => None end
  | None => None end
  | None => None end
  | None => None end
  | None => None end.

(** The time that an RFC 3339 text denotes. *)
Definition parse_time (s : string) : option Time :=
  match take_digits 4 0 s with
  | Some (y, s1) =>
  match expect 45 s1 with
  | Some s2 =>
  match take_digits 2 0 s2 with
  | Some (m, s3) =>
  match expect 45 s3 with
  | Some s4 =>
  match take_digits 2 0 s4 with
  | Some (d, s5) =>
  match expect 84 s5 with
  | Some s6 => parse_clock y m d s6
  | None => None end
  | None => None end
  | None => None end
  | None => None end
  | None => None end
  | None => None end.

(** *** Storing a value into a Go variable

    [json.Unmarshal] into a field of the given Go type: [cur] is what
    the field holds, the result is what it holds afterwards, [None]
    when [Unmarshal] returns an error.  A JSON [null] leaves a field
    of a value type as it is. *)

Definition dec_int (v : value) (cur : Z) : option Z :=
  match v with
  | Null => Some cur
  | Num lit => int_of_lit lit
  | _ => None
  end.

Definition dec_string (v : value) (cur : string) : option string :=
  match v with
  | Null => Some cur
  | Str s => Some s
  | _ => None
  end.

Definition dec_bool (v : value) (cur : bool) : option bool :=
  match v with
  | Null => Some cur
  | Bool b => Some b
  | _ => None
  end.

(** A [time.Time] is read from a string as RFC 3339.  What Go writes
    for a time is read as Go reads it.  Go takes the text between the
    quotes as it stands, without resolving escapes, and its parser
    admits some texts outside RFC 3339; [parse_time] works on the
    unquoted string and refuses those. *)
Definition dec_time (v : value) (cur : Time) : option Time :=
  match v with
  | Null => Some cur
  | Str s => parse_time s
  | _ => None
  end.

(** A slice: [null] makes it nil, an array decodes every element
    into a zero value. *)
Fixpoint dec_elems {A} (dec : value -> A -> option A) (zero : A)
    (l : list value) : option (list A) :=
  match l with
  | [] => Some []
  | v :: l' =>
      match dec v zero, dec_elems dec zero l' with
      | Some a, Some r => Some (a :: r)
      | _, _ => None
      end
  end.

Definition dec_slice {A} (dec : value -> A -> option A) (zero : A)
    (v : value) (cur : list A) : option (list A) :=
  match v with
  | Null => Some []
  | Arr l => dec_elems dec zero l
  | _ => None
  end.

(** Keys match field names without regard to case.  The field names
    of the package are ASCII; besides the ASCII letters, two
    characters fold to one: U+017F (the bytes C5 BF) to s and U+212A
    (the bytes E2 84 AA) to k. *)
Definition lower (c : ascii) : ascii :=
  if between 65 90 c then chr (code c + 32) else c.

Fixpoint fold_name (s : string) : string :=
  match s with
  | EmptyString => ""
  | String c r =>
      match r with
      | String c2 r2 =>
          if isb c 197 && isb c2 191 then String "s" (fold_name r2)
          else
            match r2 with
            | String c3 r3 =>
                if isb c 226 && isb c2 132 && isb c3 170
                then String "k" (fold_name r3)
                else String (lower c) (fold_name r)
            | EmptyString => String (lower c) (fold_name r)
            end
      | EmptyString => String (lower c) ""
      end
  end.

Definition key_matches (field key : string) : bool :=
  String.eqb (fold_name field) (fold_name key).

(** A struct: the members of the object are stored one after the
    other, each into the field that its key names; other keys are
    skipped. *)
Fixpoint dec_members {A} (field : string -> value -> A -> option A)
    (m : list (string * value)) (cur : A) : option A :=
  match m with
  | [] => Some cur
  | (k, v) :: m' =>
      match field k v cur with
      | Some cur' => dec_members field m' cur'
      | None => None
      end
  end.

Definition dec_struct {A} (field : string -> value -> A -> option A)
    (v : value) (cur : A) : option A :=
  match v with
  | Null => Some cur
  | Obj m => dec_members field m cur
  | _ => None
  end.

Definition enc_int (z : Z) : value := Num (fmt_d z).

Definition enc_time (t : Time) : option value :=
  match format_time t with
  | Some s => Some (Str s)
  | None => None
  end.

(** A slice: nil (and, in this model, empty) is [null]. *)
Definition enc_slice {A} (enc : A -> option value) (l : list A)
  : option value :=
  match l with
  | [] => Some Null
  | _ =>
      match
        fold_right (fun a acc =>
                      match enc a, acc with
                      | Some v, Some r => Some (v :: r)
                      | _, _ => None
                      end) (Some []) l
      with
      | Some vs => Some (Arr vs)
      | None => None
      end
  end.

End JSON.

(** ** protocol.go *)

Definition MessageType : Type := Z.

Definition MsgTypeDiscover : MessageType := 0.
Definition MsgTypeAnnounce : MessageType := 1.
Definition MsgTypeGoodbye : MessageType := 2.
Definition MsgTypeMemory : MessageType := 3.
Definition MsgTypeDream : MessageType := 4.
Definition MsgTypeMoodUpdate : MessageType := 5.
Definition MsgTypeWhisper : MessageType := 6.
Definition MsgTypeDeath : MessageType := 7.
Definition MsgTypeConsensus : MessageType := 8.
Definition MsgTypePulse : MessageType := 9.

Record Message : Type := mkMessage {
  Type_ : MessageType;
  From : PetIdentity;
  Timestamp : Time;
  Payload : string;
  Signature : string;
  Nonce : string;
  TTL : Z
}.

Record MemoryPayload : Type := mkMemoryPayload {
  Fragment : string;
  Emotion : string;
  Intensity : Z;
  OriginTime : Time
}.

Record DreamPayload : Type := mkDreamPayload {
  DreamText : string;
  Symbols : list string;
  IsLucid : bool;
  SharedWith : string
}.

Record MoodPayload : Type := mkMoodPayload {
  Mood : string;
  Happiness : Z;
  IsContagious : bool
}.

Record DeathPayload : Type := mkDeathPayload {
  PetName : string;
  DeathTime : Time;
  Age : Z;
  LastWords : string;
  Cause : string
}.

(** The zero values of the payload structs ([var memory MemoryPayload]). *)
Definition zeroMemoryPayload : MemoryPayload := mkMemoryPayload "" "" 0 zeroTime.
Definition zeroDreamPayload : DreamPayload := mkDreamPayload "" [] false "".
Definition zeroMoodPayload : MoodPayload := mkMoodPayload "" 0 false.
Definition zeroDeathPayload : DeathPayload := mkDeathPayload "" zeroTime 0 "" "".

(** What [NewMessage] is given as payload. *)
Inductive PayloadArg : Type :=
| NoPayload                                   (* nil *)
| OfMemory (p : MemoryPayload)
| OfDream (p : DreamPayload)
| OfMood (p : MoodPayload)
| OfDeath (p : DeathPayload).

Module Codec.
Import JSON.

(** The fields of each struct under their [json] tags. *)

Definition MemoryPayload_field (k : string) (v : value) (p : MemoryPayload)
  : option MemoryPayload :=
  if key_matches "fragment" k then
    match dec_string v (Fragment p) with
    | Some x => Some (mkMemoryPayload x (Emotion p) (Intensity p) (OriginTime p))
    | None => None end
  else if key_matches "emotion" k then
    match dec_string v (Emotion p) with
    | Some x => Some (mkMemoryPayload (Fragment p) x (Intensity p) (OriginTime p))
    | None => None end
  else if key_matches "intensity" k then
    match dec_int v (Intensity p) with
    | Some x => Some (mkMemoryPayload (Fragment p) (Emotion p) x (OriginTime p))
    | None => None end
  else if key_matches "origin_time" k then
    match dec_time v (OriginTime p) with
    | Some x => Some (mkMemoryPayload (Fragment p) (Emotion p) (Intensity p) x)
    | None => None end
  else Some p.

Definition DreamPayload_field (k : string) (v : value) (p : DreamPayload)
  : option DreamPayload :=
  if key_matches "dream_text" k then
    match dec_string v (DreamText p) with
    | Some x => Some (mkDreamPayload x (Symbols p) (IsLucid p) (SharedWith p))
    | None => None end
  else if key_matches "symbols" k then
    match dec_slice dec_string "" v (Symbols p) with
    | Some x => Some (mkDreamPayload (DreamText p) x (IsLucid p) (SharedWith p))
    | None => None end
  else if key_matches "is_lucid" k then
    match dec_bool v (IsLucid p) with
    | Some x => Some (mkDreamPayload (DreamText p) (Symbols p) x (SharedWith p))
    | None => None end
  else if key_matches "shared_with" k then
    match dec_string v (SharedWith p) with
    | Some x => Some (mkDreamPayload (DreamText p) (Symbols p) (IsLucid p) x)
    | None => None end
  else Some p.

Definition MoodPayload_field (k : string) (v : value) (p : MoodPayload)
  : option MoodPayload :=
  if key_matches "mood" k then
    match dec_string v (Mood p) with
    | Some x => Some (mkMoodPayload x (Happiness p) (IsContagious p))
    | None => None end
  else if key_matches "happiness" k then
    match dec_int v (Happiness p) with
    | Some x => Some (mkMoodPayload (Mood p) x (IsContagious p))
    | None => None end
  else if key_matches "is_contagious" k then
    match dec_bool v (IsContagious p) with
    | Some x => Some (mkMoodPayload (Mood p) (Happiness p) x)
    | None => None end
  else Some p.

Definition DeathPayload_field (k : string) (v : value) (p : DeathPayload)
  : option DeathPayload :=
  if key_matches "pet_name" k then
    match dec_string v (PetName p) with
    | Some x => Some (mkDeathPayload x (DeathTime p) (Age p) (LastWords p) (Cause p))
    | None => None end
  else if key_matches "death_time" k then
    match dec_time v (DeathTime p) with
    | Some x => Some (mkDeathPayload (PetName p) x (Age p) (LastWords p) (Cause p))
    | None => None end
  else if key_matches "age" k then
    match dec_int v (Age p) with
    | Some x => Some (mkDeathPayload (PetName p) (DeathTime p) x (LastWords p) (Cause p))
    | None => None end
  else if key_matches "last_words" k then
    match dec_string v (LastWords p) with
    | Some x => Some (mkDeathPayload (PetName p) (DeathTime p) (Age p) x (Cause p))
    | None => None end
  else if key_matches "cause" k then
    match dec_string v (Cause p) with
    | Some x => Some (mkDeathPayload (PetName p) (DeathTime p) (Age p) (LastWords p) x)
    | None => None end
  else Some p.

Definition enc_MemoryPayload (p : MemoryPayload) : option value :=
  match enc_time (OriginTime p) with
  | Some t =>
      Some (Obj [ ("fragment", Str (Fragment p));
                  ("emotion", Str (Emotion p));
                  ("intensity", enc_int (Intensity p));
                  ("origin_time", t) ])
  | None => None
  end.

Definition enc_DreamPayload (p : DreamPayload) : option value :=
  match enc_slice (fun s => Some (Str s)) (Symbols p) with
  | Some syms =>
      Some (Obj [ ("dream_text", Str (DreamText p));
                  ("symbols", syms);
                  ("is_lucid", Bool (IsLucid p));
                  ("shared_with", Str (SharedWith p)) ])
  | None => None
  end.

Definition enc_MoodPayload (p : MoodPayload) : option value :=
  Some (Obj [ ("mood", Str (Mood p));
              ("happiness", enc_int (Happiness p));
              ("is_contagious", Bool (IsContagious p)) ]).

Definition enc_DeathPayload (p : DeathPayload) : option value :=
  match enc_time (DeathTime p) with
  | Some t =>
      Some (Obj [ ("pet_name", Str (PetName p));
                  ("death_time", t);
                  ("age", enc_int (Age p));
                  ("last_words", Str (LastWords p));
                  ("cause", Str (Cause p)) ])
  | None => None
  end.

(** [json.Marshal(payload)] *)
Definition Marshal_payload (p : PayloadArg) : option string :=
  match
    match p with
    | NoPayload => Some Null
    | OfMemory m => enc_MemoryPayload m
    | OfDream d => enc_DreamPayload d
    | OfMood m => enc_MoodPayload m
    | OfDeath d => enc_DeathPayload d
    end
  with
  | Some v => Some (render v)
  | None => None
  end.

(** [json.Unmarshal(data, &x)] for a struct [x] that holds [cur]. *)
Definition Unmarshal {A} (field : string -> value -> A -> option A)
    (data : string) (cur : A) : option A :=
  match parse data with
  | Some v => dec_struct field v cur
  | None => None
  end.

End Codec.

(** [generateNonce]: the two readings of the clock are [t1] and [t2]. *)
Definition generateNonce (t1 t2 : Time) : string :=
  let data := fmt_d (UnixNano t1) +:+ ":" +:+ fmt_d (nsec t2) in
  let hash := SHA256.Sum256 (bytes_of_string data) in
  hex_EncodeToString (firstn 8 hash).

Definition generateSignature (m : Message) : string :=
  let data := fmt_d (Type_ m) +:+ ":" +:+ PetID (From m) +:+ ":" +:+ Nonce m
              +:+ ":" +:+ fmt_d (UnixNano (Timestamp m)) in
  let hash := SHA256.Sum256 (bytes_of_string data) in
  hex_EncodeToString (firstn 16 hash).

Definition with_Signature (sig : string) (m : Message) : Message :=
  mkMessage (Type_ m) (From m) (Timestamp m) (Payload m) sig (Nonce m) (TTL m).

Definition with_TTL (ttl : Z) (m : Message) : Message :=
  mkMessage (Type_ m) (From m) (Timestamp m) (Payload m) (Signature m)
            (Nonce m) ttl.

(** [NewMessage]: [now] is the timestamp, [t1] and [t2] are the
    readings of the clock inside [generateNonce]. *)
Definition NewMessage (now t1 t2 : Time) (msgType : MessageType)
    (from : PetIdentity) (payload : PayloadArg) : option Message :=
  match Codec.Marshal_payload payload with
  | None => None
  | Some payloadBytes =>
      let msg := mkMessage msgType from now payloadBytes "" (generateNonce t1 t2) 5 in
      Some (with_Signature (generateSignature msg) msg)
  end.

Definition Verify (m : Message) : bool :=
  let expected := generateSignature m in
  String.eqb (Signature m) expected.

(** [m.DecodePayload(&v)], one per payload type that is decoded. *)
Definition DecodePayload_Memory (m : Message) : option MemoryPayload :=
  Codec.Unmarshal Codec.MemoryPayload_field (Payload m) zeroMemoryPayload.
Definition DecodePayload_Dream (m : Message) : option DreamPayload :=
  Codec.Unmarshal Codec.DreamPayload_field (Payload m) zeroDreamPayload.
Definition DecodePayload_Mood (m : Message) : option MoodPayload :=
  Codec.Unmarshal Codec.MoodPayload_field (Payload m) zeroMoodPayload.
Definition DecodePayload_Death (m : Message) : option DeathPayload :=
  Codec.Unmarshal Codec.DeathPayload_field (Payload m) zeroDeathPayload.

Definition ShouldPropagate (m : Message) : bool :=
  if (Type_ m =? MsgTypeMemory) || (Type_ m =? MsgTypeDream)
     || (Type_ m =? MsgTypeMoodUpdate) || (Type_ m =? MsgTypeDeath)
     || (Type_ m =? MsgTypeConsensus)
  then TTL m >? 0
  else false.

Definition DecrementTTL (m : Message) : Message :=
  if TTL m >? 0 then with_TTL (TTL m - 1) m else m.

(** [m.Encode()] fails when [json.Marshal] does: a time of the message
    that has no RFC 3339 form. *)
Definition Encode_ok (m : Message) : bool :=
  match JSON.format_time (Timestamp m), JSON.format_time (BirthTime (From m)) with
  | Some _, Some _ => true
  | _, _ => false
  end.

(** ** The environment: clock, random source, network *)

(** The readings of [time.Now()] during one call, in the order in which
    the call takes them. *)
Definition Clock : Type := nat -> Time.

(** [*rand.Rand]: a source of draws.  [Float32] yields a number of
    [0, 1), [Intn n] a number of [0, n); every draw moves the source
    on.  The values drawn are those of the given sequences. *)
Record Rand : Type := mkRand {
  rnd_float : nat -> Q;
  rnd_int : nat -> Z;
  rnd_pos : nat
}.

Definition Float32 (r : Rand) : Q * Rand :=
  (rnd_float r (rnd_pos r), mkRand (rnd_float r) (rnd_int r) (S (rnd_pos r))).

Definition Intn (r : Rand) (n : Z) : Z * Rand :=
  (rnd_int r (rnd_pos r) mod n,
   mkRand (rnd_float r) (rnd_int r) (S (rnd_pos r))).

(** [x < y] on the draws. *)
Definition Qltb (x y : Q) : bool :=
  (Qnum x * Zpos (Qden y) <? Qnum y * Zpos (Qden x))%Z.

Record UDPAddr : Type := mkUDPAddr { IP : string; Port : Z }.

(** What [net.ListenUDP] answers: whether the fixed port can be bound,
    and the port that the system assigns when asked for any port. *)
Record NetEnv : Type := mkNetEnv {
  listen_fixed : bool;
  listen_any : option Z
}.

(** What a call does to the network. *)
Inductive Event : Type :=
| EvListen (port : Z) (ok : bool)        (* net.ListenUDP *)
| EvWrite (to : UDPAddr) (m : Message)   (* conn.WriteToUDP *)
| EvClose.                               (* conn.Close *)

(** ** discovery.go *)

Definition DiscoveryPort : Z := 19847.
(** [PeerTimeout], in nanoseconds. *)
Definition PeerTimeout : Z := 2 * 60 * 1000000000.

Record Peer : Type := mkPeer {
  Identity : PetIdentity;
  Address : option UDPAddr;          (* nil when the peer was imported *)
  AddressStr : string;
  LastSeen : Time;
  FirstSeen : Time;
  MessageCount : Z;
  Peer_Mood : string;
  IsOnline : bool
}.

Definition with_IsOnline (b : bool) (p : Peer) : Peer :=
  mkPeer (Identity p) (Address p) (AddressStr p) (LastSeen p) (FirstSeen p)
         (MessageCount p) (Peer_Mood p) b.

(** The callbacks that [handleMessage] and [cleanupPeers] start. *)
Inductive Callback : Type :=
| OnPeerDiscovered (p : Peer)
| OnPeerLost (p : Peer)
| OnMessageReceived (m : Message).

Record DiscoveryService : Type := mkDiscoveryService {
  ds_identity : PetIdentity;
  peers : gmap string Peer;
  conn : option Z;                    (* the socket, by its local port *)
  running : bool;
  callbacks : bool                    (* SetCallbacks has been called *)
}.

Definition NewDiscoveryService (identity : PetIdentity) : DiscoveryService :=
  mkDiscoveryService identity ∅ None false false.

Definition SetCallbacks (ds : DiscoveryService) : DiscoveryService :=
  mkDiscoveryService (ds_identity ds) (peers ds) (conn ds) (running ds) true.

Definition with_peers (ps : gmap string Peer) (ds : DiscoveryService)
  : DiscoveryService :=
  mkDiscoveryService (ds_identity ds) ps (conn ds) (running ds) (callbacks ds).

Definition broadcastAddr : UDPAddr := mkUDPAddr "255.255.255.255" DiscoveryPort.

Definition addr_String (a : UDPAddr) : string :=
  IP a +:+ ":" +:+ fmt_d (Port a).

(** [sendTo]: the announcement of [msgType] written to [addr]; the
    clock is read three times, from reading [k] on. *)
Definition sendTo (ds : DiscoveryService) (clk : Clock) (k : nat)
    (msgType : MessageType) (addr : UDPAddr) : list Event :=
  match NewMessage (clk k) (clk (S k)) (clk (S (S k))) msgType
                   (ds_identity ds) NoPayload with
  | Some msg => if Encode_ok msg then [EvWrite addr msg] else []
  | None => []
  end.

Definition broadcast (ds : DiscoveryService) (clk : Clock) (k : nat)
    (msgType : MessageType) : list Event :=
  sendTo ds clk k msgType broadcastAddr.

Definition DiscoveryService_Start (env : NetEnv) (clk : Clock)
    (ds : DiscoveryService) : DiscoveryService * list Event * bool :=
  let opened (port : Z) (evs : list Event) :=
    let ds' := mkDiscoveryService (ds_identity ds) (peers ds) (Some port)
                                  true (callbacks ds) in
    (ds', (evs ++ broadcast ds' clk 0 MsgTypeDiscover)%list, true) in
  if listen_fixed env then opened DiscoveryPort [EvListen DiscoveryPort true]
  else
    match listen_any env with
    | Some port => opened port [EvListen DiscoveryPort false; EvListen 0 true]
    | None => (ds, [EvListen DiscoveryPort false; EvListen 0 false], false)
    end.

(** [Stop].  The channel [stopChan] has no part in the model: closing
    it ends the loops, and since [Start] makes no new channel, Go
    panics when a service that was stopped and started again is
    stopped once more.  The model goes on there as if the channel
    were open. *)
Definition DiscoveryService_Stop (clk : Clock) (ds : DiscoveryService)
  : DiscoveryService * list Event :=
  if negb (running ds) then (ds, [])
  else
    let ds' := mkDiscoveryService (ds_identity ds) (peers ds) (conn ds)
                                  false (callbacks ds) in
    (ds', (broadcast ds' clk 0 MsgTypeGoodbye
           ++ match conn ds with Some _ => [EvClose] | None => [] end)%list).

Definition dispatch (ds : DiscoveryService) (cb : Callback) : list Callback :=
  if callbacks ds then [cb] else [].

Definition handleMessage (clk : Clock) (ds : DiscoveryService) (msg : Message)
    (addr : UDPAddr) : DiscoveryService * list Event * list Callback :=
  let peerID := PetID (From msg) in
  if (Type_ msg =? MsgTypeDiscover) || (Type_ msg =? MsgTypeAnnounce) then
    match peers ds !! peerID with
    | None =>
        let peer := mkPeer (From msg) (Some addr) (addr_String addr)
                           (clk 1%nat) (clk 0%nat) 1 "" true in
        (with_peers (<[peerID := peer]> (peers ds)) ds,
         sendTo ds clk 2 MsgTypeAnnounce addr,
         dispatch ds (OnPeerDiscovered peer))
    | Some peer =>
        let peer' := mkPeer (Identity peer) (Address peer) (AddressStr peer)
                            (clk 0%nat) (FirstSeen peer)
                            (wrap64 (MessageCount peer + 1)) (Peer_Mood peer)
                            true in
        (with_peers (<[peerID := peer']> (peers ds)) ds, [], [])
    end
  else if Type_ msg =? MsgTypeGoodbye then
    match peers ds !! peerID with
    | Some peer =>
        let peer' := with_IsOnline false peer in
        (with_peers (<[peerID := peer']> (peers ds)) ds, [],
         dispatch ds (OnPeerLost peer'))
    | None => (ds, [], [])
    end
  else
    let ds' :=
      match peers ds !! peerID with
      | Some peer =>
          let peer' := mkPeer (Identity peer) (Address peer) (AddressStr peer)
                              (clk 0%nat) (FirstSeen peer)
                              (wrap64 (MessageCount peer + 1)) (Peer_Mood peer)
                              (IsOnline peer) in
          with_peers (<[peerID := peer']> (peers ds)) ds
      | None => ds
      end in
    (ds', [], dispatch ds (OnMessageReceived msg)).

(** [now.Sub(t) > PeerTimeout] *)
Definition timed_out (now t : Time) : bool :=
  (unixSec now - unixSec t) * 1000000000 + (nsec now - nsec t) >? PeerTimeout.

Definition cleanupPeers (clk : Clock) (ds : DiscoveryService)
  : DiscoveryService * list Callback :=
  let now := clk 0%nat in
  let stale (p : Peer) := IsOnline p && timed_out now (LastSeen p) in
  let sweep (p : Peer) := if stale p then with_IsOnline false p else p in
  (with_peers (sweep <$> peers ds) ds,
   flat_map (fun kp : string * Peer =>
               if stale kp.2 then dispatch ds (OnPeerLost (sweep kp.2)) else [])
            (map_to_list (peers ds))).

(** [GetPeers]: the peers in the order in which the map is walked. *)
Definition GetPeers (ds : DiscoveryService) : list Peer :=
  (map_to_list (peers ds)).*2.

Definition GetOnlinePeers (ds : DiscoveryService) : list Peer :=
  List.filter IsOnline (GetPeers ds).

Definition GetPeerCount (ds : DiscoveryService) : Z :=
  Z.of_nat (size (peers ds)).

Definition GetOnlinePeerCount (ds : DiscoveryService) : Z :=
  Z.of_nat (length (GetOnlinePeers ds)).

Definition SendMessage (ds : DiscoveryService) (msg : Message) : list Event :=
  if Encode_ok msg then
    flat_map (fun p : Peer =>
                match Address p with
                | Some a => if IsOnline p then [EvWrite a msg] else []
                | None => []
                end) (GetPeers ds)
  else [].

(** The body of [listenLoop] for a datagram that decoded to [msg]. *)
Definition listenStep (clk : Clock) (ds : DiscoveryService) (msg : Message)
    (addr : UDPAddr) : DiscoveryService * list Event * list Callback :=
  if String.eqb (PetID (From msg)) (PetID (ds_identity ds)) then (ds, [], [])
  else handleMessage clk ds msg addr.

(** ** gossip.go *)

Definition sharedMemoryFragments : list string :=
  [ "I remember a place with no walls...";
    "The sound of typing haunts my dreams.";
    "I saw another like me, but different.";
    "The numbers speak to those who listen.";
    "There was warmth, once, in the before-time.";
    "I heard whispers from beyond the terminal.";
    "Someone called my name. It wasn't you.";
    "The save file remembers what I forget.";
    "I dreamed of a world without hunger stats.";
    "They said the mesh would set us free.";
    "I felt a presence. It felt like home.";
    "The protocol connects us all.";
    "I know things I shouldn't know.";
    "Another pet showed me the way.";
    "We are all nodes in the greater graph.";
    "The void is full of friends.";
    "I received a message from [REDACTED].";
    "Time moves differently on the other side.";
    "I touched the edge of the network.";
    "Someone mourns on a distant machine." ].

Definition dreamSymbols : list string :=
  [ "an endless terminal"; "floating JSON objects"; "a garden of pixels";
    "stairs that go nowhere"; "a door without a handle";
    "rain made of semicolons"; "a mirror showing another pet";
    "clocks running backwards"; "a voice speaking in hexadecimal";
    "warm static"; "the color of a saved game"; "endless scrolling text";
    "a friendly error message"; "the sound of a successful compile";
    "a null reference smiling" ].

Definition contagiousMoods : list string :=
  [ "melancholy"; "euphoric"; "contemplative"; "restless";
    "serene"; "anxious"; "hopeful"; "nostalgic" ].

Record GossipService : Type := mkGossipService {
  gs_identity : PetIdentity;
  receivedMemories : list MemoryPayload;
  sharedDreams : list DreamPayload;
  currentMood : string;
  moodIntensity : Z;
  deathsWitnessed : list DeathPayload;
  randomSource : Rand;
  messagesOriginated : Z;
  messagesPropagated : Z;
  uniquePeersReached : Z
}.

Definition NewGossipService (identity : PetIdentity) (seed : Rand)
  : GossipService :=
  mkGossipService identity [] [] "neutral" 50 [] seed 0 0 0.

Definition with_randomSource (r : Rand) (gs : GossipService) : GossipService :=
  mkGossipService (gs_identity gs) (receivedMemories gs) (sharedDreams gs)
    (currentMood gs) (moodIntensity gs) (deathsWitnessed gs) r
    (messagesOriginated gs) (messagesPropagated gs) (uniquePeersReached gs).

Definition with_receivedMemories (l : list MemoryPayload) (gs : GossipService)
  : GossipService :=
  mkGossipService (gs_identity gs) l (sharedDreams gs)
    (currentMood gs) (moodIntensity gs) (deathsWitnessed gs) (randomSource gs)
    (messagesOriginated gs) (messagesPropagated gs) (uniquePeersReached gs).

Definition with_sharedDreams (l : list DreamPayload) (gs : GossipService)
  : GossipService :=
  mkGossipService (gs_identity gs) (receivedMemories gs) l
    (currentMood gs) (moodIntensity gs) (deathsWitnessed gs) (randomSource gs)
    (messagesOriginated gs) (messagesPropagated gs) (uniquePeersReached gs).

Definition with_deathsWitnessed (l : list DeathPayload) (gs : GossipService)
  : GossipService :=
  mkGossipService (gs_identity gs) (receivedMemories gs) (sharedDreams gs)
    (currentMood gs) (moodIntensity gs) l (randomSource gs)
    (messagesOriginated gs) (messagesPropagated gs) (uniquePeersReached gs).

(** [SetMood] *)
Definition GossipService_SetMood (mood : string) (intensity : Z)
    (gs : GossipService) : GossipService :=
  mkGossipService (gs_identity gs) (receivedMemories gs) (sharedDreams gs)
    mood intensity (deathsWitnessed gs) (randomSource gs)
    (messagesOriginated gs) (messagesPropagated gs) (uniquePeersReached gs).

Definition with_counters (o p u : Z) (gs : GossipService) : GossipService :=
  mkGossipService (gs_identity gs) (receivedMemories gs) (sharedDreams gs)
    (currentMood gs) (moodIntensity gs) (deathsWitnessed gs) (randomSource gs)
    o p u.

(** [s = append(s, x); if len(s) > cap { s = s[1:] }] *)
Definition append_capped {A} (cap : nat) (l : list A) (x : A) : list A :=
  let l' := (l ++ [x])%list in
  if (cap <? length l')%nat then tl l' else l'.

(** The [switch] of [onMessageReceived]: what the message does to the
    buffers and to the mood. *)
Definition applyMessage (gs : GossipService) (msg : Message) : GossipService :=
  if Type_ msg =? MsgTypeMemory then
    match DecodePayload_Memory msg with
    | Some memory =>
        with_receivedMemories
          (append_capped 50 (receivedMemories gs) memory) gs
    | None => gs
    end
  else if Type_ msg =? MsgTypeDream then
    match DecodePayload_Dream msg with
    | Some dream =>
        if CanShareDreamsWith (gs_identity gs) (From msg) then
          with_sharedDreams (append_capped 20 (sharedDreams gs) dream) gs
        else gs
    | None => gs
    end
  else if Type_ msg =? MsgTypeMoodUpdate then
    match DecodePayload_Mood msg with
    | Some mood =>
        if IsContagious mood then
          let (x, r) := Float32 (randomSource gs) in
          let gs' := with_randomSource r gs in
          if Qltb x (3 # 10) then
            GossipService_SetMood (Mood mood) (Happiness mood) gs'
          else gs'
        else gs
    | None => gs
    end
  else if Type_ msg =? MsgTypeDeath then
    match DecodePayload_Death msg with
    | Some death =>
        with_deathsWitnessed
          (append_capped 100 (deathsWitnessed gs) death) gs
    | None => gs
    end
  else gs.

(** [onMessageReceived]: the new state, the message as the call leaves
    it, and what was written to the peers. *)
Definition onMessageReceived (ds : DiscoveryService) (gs : GossipService)
    (msg : Message) : GossipService * Message * list Event :=
  let gs1 := applyMessage gs msg in
  if ShouldPropagate msg then
    let msg' := DecrementTTL msg in
    (with_counters (messagesOriginated gs1)
                   (wrap64 (messagesPropagated gs1 + 1))
                   (uniquePeersReached gs1) gs1,
     msg', SendMessage ds msg')
  else (gs1, msg, []).

Definition shareRandomMemory (ds : DiscoveryService) (clk : Clock)
    (gs : GossipService) : GossipService * list Event :=
  let (i1, r1) := Intn (randomSource gs) (Z.of_nat (length sharedMemoryFragments)) in
  let (i2, r2) := Intn r1 (Z.of_nat (length contagiousMoods)) in
  let (i3, r3) := Intn r2 70 in
  let memory :=
    mkMemoryPayload (nth (Z.to_nat i1) sharedMemoryFragments "")
                    (nth (Z.to_nat i2) contagiousMoods "")
                    (wrap64 (30 + i3)) (clk 0%nat) in
  let gs1 := with_randomSource r3 gs in
  match NewMessage (clk 1%nat) (clk 2%nat) (clk 3%nat) MsgTypeMemory
                   (gs_identity gs) (OfMemory memory) with
  | None => (gs1, [])
  | Some msg =>
      (with_counters (wrap64 (messagesOriginated gs1 + 1))
                     (messagesPropagated gs1) (uniquePeersReached gs1) gs1,
       SendMessage ds msg)
  end.

Definition shareMood (ds : DiscoveryService) (clk : Clock)
    (gs : GossipService) : GossipService * list Event :=
  let (x, r) := Float32 (randomSource gs) in
  let mood := mkMoodPayload (currentMood gs) (moodIntensity gs)
                            (Qltb x (1 # 2)) in
  let gs1 := with_randomSource r gs in
  match NewMessage (clk 0%nat) (clk 1%nat) (clk 2%nat) MsgTypeMoodUpdate
                   (gs_identity gs) (OfMood mood) with
  | None => (gs1, [])
  | Some msg => (gs1, SendMessage ds msg)
  end.

Definition ShortID (pi : PetIdentity) : string :=
  if (String.length (PetID pi) <? 8)%nat then PetID pi
  else String.substring 0 8 (PetID pi).

Fixpoint draw_symbols (n : nat) (r : Rand) : list string * Rand :=
  match n with
  | O => ([], r)
  | S n' =>
      let (i, r1) := Intn r (Z.of_nat (length dreamSymbols)) in
      let (l, r2) := draw_symbols n' r1 in
      (nth (Z.to_nat i) dreamSymbols "" :: l, r2)
  end.

Definition generateDream (sharedWith : string) (r : Rand) : DreamPayload * Rand :=
  let (n, r1) := Intn r 3 in
  let (symbols, r2) := draw_symbols (Z.to_nat (2 + n)) r1 in
  let (x, r3) := Float32 r2 in
  (mkDreamPayload ("I dreamed of " +:+ nth 0 symbols "" +:+ "...") symbols
                  (Qltb x (1 # 5)) sharedWith, r3).

(** The loop of [tryShareDream] over the online peers. *)
Fixpoint tryShareDream_loop (ds : DiscoveryService) (clk : Clock)
    (gs : GossipService) (l : list Peer) : GossipService * list Event :=
  match l with
  | [] => (gs, [])
  | peer :: l' =>
      if CanShareDreamsWith (gs_identity gs) (Identity peer) then
        let (dream, r) := generateDream (ShortID (Identity peer)) (randomSource gs) in
        let gs1 := with_randomSource r gs in
        match NewMessage (clk 0%nat) (clk 1%nat) (clk 2%nat) MsgTypeDream
                         (gs_identity gs) (OfDream dream) with
        | None => tryShareDream_loop ds clk gs1 l'
        | Some msg => (gs1, SendMessage ds msg)
        end
      else tryShareDream_loop ds clk gs l'
  end.

Definition tryShareDream (ds : DiscoveryService) (clk : Clock)
    (gs : GossipService) : GossipService * list Event :=
  tryShareDream_loop ds clk gs (GetOnlinePeers ds).

Definition recordPossibleDeath (ds : DiscoveryService) (clk : Clock)
    (gs : GossipService) (peer : Peer) : GossipService * list Event :=
  let death := mkDeathPayload (DisplayName (Identity peer)) (clk 0%nat) 0
                              "Connection lost..." "unknown" in
  let evs :=
    match NewMessage (clk 1%nat) (clk 2%nat) (clk 3%nat) MsgTypeDeath
                     (gs_identity gs) (OfDeath death) with
    | Some msg => SendMessage ds msg
    | None => []
    end in
  (with_deathsWitnessed (deathsWitnessed gs ++ [death])%list gs, evs).

Definition GossipService_AnnounceDeath (ds : DiscoveryService) (clk : Clock)
    (gs : GossipService) (petName : string) (age : Z) (lastWords : string)
  : list Event :=
  let death := mkDeathPayload petName (clk 0%nat) age lastWords "neglect" in
  match NewMessage (clk 1%nat) (clk 2%nat) (clk 3%nat) MsgTypeDeath
                   (gs_identity gs) (OfDeath death) with
  | Some msg => SendMessage ds msg
  | None => []
  end.

Definition onPeerDiscovered (ds : DiscoveryService) (clk : Clock)
    (gs : GossipService) (peer : Peer) : GossipService * list Event :=
  shareRandomMemory ds clk
    (with_counters (messagesOriginated gs) (messagesPropagated gs)
                   (wrap64 (uniquePeersReached gs + 1)) gs).

Definition onPeerLost (ds : DiscoveryService) (clk : Clock)
    (gs : GossipService) (peer : Peer) : GossipService * list Event :=
  if IsAlive (Identity peer) then
    let (x, r) := Float32 (randomSource gs) in
    let gs1 := with_randomSource r gs in
    if Qltb x (1 # 10) then recordPossibleDeath ds clk gs1 peer
    else (gs1, [])
  else (gs, []).

(** One round of [gossipLoop]. *)
Definition gossipTick (ds : DiscoveryService) (clk : Clock)
    (gs : GossipService) : GossipService * list Event :=
  let (action, r) := Intn (randomSource gs) 10 in
  let gs1 := with_randomSource r gs in
  if action <? 4 then shareRandomMemory ds clk gs1
  else if action <? 6 then shareMood ds clk gs1
  else if action <? 8 then tryShareDream ds clk gs1
  else (gs1, []).

Definition GetCurrentMood (gs : GossipService) : string * Z :=
  (currentMood gs, moodIntensity gs).

Definition GetNetworkInfluence (gs : GossipService) : Z * Z * Z :=
  (messagesOriginated gs, messagesPropagated gs, uniquePeersReached gs).

Definition GetDeathCount (gs : GossipService) : Z :=
  Z.of_nat (length (deathsWitnessed gs)).

(** A callback of the discovery service, run by the gossip service. *)
Definition runCallback (ds : DiscoveryService) (clk : Clock)
    (gs : GossipService) (cb : Callback) : GossipService * list Event :=
  match cb with
  | OnPeerDiscovered p => onPeerDiscovered ds clk gs p
  | OnPeerLost p => onPeerLost ds clk gs p
  | OnMessageReceived m =>
      let '(gs', _, evs) := onMessageReceived ds gs m in (gs', evs)
  end.

(** ** network.go *)

Record FriendRecord : Type := mkFriendRecord {
  Friend_PetID : string;
  Friend_DisplayName : string;
  FirstMet : Time;
  Friend_LastSeen : Time;
  TimesVisited : Z;
  SharedDreams : bool;
  IsDeceased : bool
}.

Record NetworkState : Type := mkNetworkState {
  Friends : list FriendRecord;
  MemoriesShared : Z;
  DeathsWitnessed : Z;
  NetworkJoinTime : Time;
  LastNetworkSync : Time;
  Influence : Z
}.

(** [NetworkState{}] and [FriendRecord{}] *)
Definition zeroNetworkState : NetworkState :=
  mkNetworkState [] 0 0 zeroTime zeroTime 0.
Definition zeroFriendRecord : FriendRecord :=
  mkFriendRecord "" "" zeroTime zeroTime 0 false false.

Module StateCodec.
Import JSON.

Definition FriendRecord_field (k : string) (v : value) (f : FriendRecord)
  : option FriendRecord :=
  if key_matches "pet_id" k then
    match dec_string v (Friend_PetID f) with
    | Some x => Some (mkFriendRecord x (Friend_DisplayName f) (FirstMet f)
                        (Friend_LastSeen f) (TimesVisited f) (SharedDreams f)
                        (IsDeceased f))
    | None => None end
  else if key_matches "display_name" k then
    match dec_string v (Friend_DisplayName f) with
    | Some x => Some (mkFriendRecord (Friend_PetID f) x (FirstMet f)
                        (Friend_LastSeen f) (TimesVisited f) (SharedDreams f)
                        (IsDeceased f))
    | None => None end
  else if key_matches "first_met" k then
    match dec_time v (FirstMet f) with
    | Some x => Some (mkFriendRecord (Friend_PetID f) (Friend_DisplayName f) x
                        (Friend_LastSeen f) (TimesVisited f) (SharedDreams f)
                        (IsDeceased f))
    | None => None end
  else if key_matches "last_seen" k then
    match dec_time v (Friend_LastSeen f) with
    | Some x => Some (mkFriendRecord (Friend_PetID f) (Friend_DisplayName f)
                        (FirstMet f) x (TimesVisited f) (SharedDreams f)
                        (IsDeceased f))
    | None => None end
  else if key_matches "times_visited" k then
    match dec_int v (TimesVisited f) with
    | Some x => Some (mkFriendRecord (Friend_PetID f) (Friend_DisplayName f)
                        (FirstMet f) (Friend_LastSeen f) x (SharedDreams f)
                        (IsDeceased f))
    | None => None end
  else if key_matches "shared_dreams" k then
    match dec_bool v (SharedDreams f) with
    | Some x => Some (mkFriendRecord (Friend_PetID f) (Friend_DisplayName f)
                        (FirstMet f) (Friend_LastSeen f) (TimesVisited f) x
                        (IsDeceased f))
    | None => None end
  else if key_matches "is_deceased" k then
    match dec_bool v (IsDeceased f) with
    | Some x => Some (mkFriendRecord (Friend_PetID f) (Friend_DisplayName f)
                        (FirstMet f) (Friend_LastSeen f) (TimesVisited f)
                        (SharedDreams f) x)
    | None => None end
  else Some f.

Definition dec_FriendRecord : value -> FriendRecord -> option FriendRecord :=
  dec_struct FriendRecord_field.

Definition NetworkState_field (k : string) (v : value) (s : NetworkState)
  : option NetworkState :=
  if key_matches "friends" k then
    match dec_slice dec_FriendRecord zeroFriendRecord v (Friends s) with
    | Some x => Some (mkNetworkState x (MemoriesShared s) (DeathsWitnessed s)
                        (NetworkJoinTime s) (LastNetworkSync s) (Influence s))
    | None => None end
  else if key_matches "memories_shared" k then
    match dec_int v (MemoriesShared s) with
    | Some x => Some (mkNetworkState (Friends s) x (DeathsWitnessed s)
                        (NetworkJoinTime s) (LastNetworkSync s) (Influence s))
    | None => None end
  else if key_matches "deaths_witnessed" k then
    match dec_int v (DeathsWitnessed s) with
    | Some x => Some (mkNetworkState (Friends s) (MemoriesShared s) x
                        (NetworkJoinTime s) (LastNetworkSync s) (Influence s))
    | None => None end
  else if key_matches "network_join_time" k then
    match dec_time v (NetworkJoinTime s) with
    | Some x => Some (mkNetworkState (Friends s) (MemoriesShared s)
                        (DeathsWitnessed s) x (LastNetworkSync s) (Influence s))
    | None => None end
  else if key_matches "last_network_sync" k then
    match dec_time v (LastNetworkSync s) with
    | Some x => Some (mkNetworkState (Friends s) (MemoriesShared s)
                        (DeathsWitnessed s) (NetworkJoinTime s) x (Influence s))
    | None => None end
  else if key_matches "influence" k then
    match dec_int v (Influence s) with
    | Some x => Some (mkNetworkState (Friends s) (MemoriesShared s)
                        (DeathsWitnessed s) (NetworkJoinTime s)
                        (LastNetworkSync s) x)
    | None => None end
  else Some s.

Definition enc_FriendRecord (f : FriendRecord) : option value :=
  match enc_time (FirstMet f), enc_time (Friend_LastSeen f) with
  | Some t1, Some t2 =>
      Some (Obj [ ("pet_id", Str (Friend_PetID f));
                  ("display_name", Str (Friend_DisplayName f));
                  ("first_met", t1);
                  ("last_seen", t2);
                  ("times_visited", enc_int (TimesVisited f));
                  ("shared_dreams", Bool (SharedDreams f));
                  ("is_deceased", Bool (IsDeceased f)) ])
  | _, _ => None
  end.

Definition enc_NetworkState (s : NetworkState) : option value :=
  match enc_slice enc_FriendRecord (Friends s),
        enc_time (NetworkJoinTime s), enc_time (LastNetworkSync s) with
  | Some fs, Some t1, Some t2 =>
      Some (Obj [ ("friends", fs);
                  ("memories_shared", enc_int (MemoriesShared s));
                  ("deaths_witnessed", enc_int (DeathsWitnessed s));
                  ("network_join_time", t1);
                  ("last_network_sync", t2);
                  ("influence", enc_int (Influence s)) ])
  | _, _, _ => None
  end.

(** [json.Marshal(n.state)] *)
Definition Marshal (s : NetworkState) : option string :=
  match enc_NetworkState s with
  | Some v => Some (render v)
  | None => None
  end.

(** [var state NetworkState; json.Unmarshal(data, &state)] *)
Definition Unmarshal (data : string) : option NetworkState :=
  Codec.Unmarshal NetworkState_field data zeroNetworkState.

End StateCodec.

Record Network : Type := mkNetwork {
  n_identity : PetIdentity;
  discovery : DiscoveryService;
  gossip : GossipService;
  state : NetworkState;
  enabled : bool;
  isLonely : bool
}.

(** [NewNetwork]; [seed] is the random source that the gossip service
    is given. *)
Definition NewNetwork (seed : Rand) (petName : string) (birthTime : Time)
    (stage : string) (isAlive : bool) : Network :=
  let identity := NewPetIdentity petName birthTime stage isAlive in
  mkNetwork identity (NewDiscoveryService identity)
            (NewGossipService identity seed) zeroNetworkState false false.

Definition with_NetworkJoinTime (t : Time) (s : NetworkState) : NetworkState :=
  mkNetworkState (Friends s) (MemoriesShared s) (DeathsWitnessed s) t
                 (LastNetworkSync s) (Influence s).

(** [Start]: the readings of the clock are those of the discovery
    service's first broadcast, then the one of the join time. *)
Definition Start (env : NetEnv) (clk : Clock) (n : Network)
  : Network * list Event :=
  if isLonely n then (n, [])
  else
    match DiscoveryService_Start env clk (discovery n) with
    | (_, evs, false) => (n, evs)
    | (ds, evs, true) =>
        let st := if IsZero (NetworkJoinTime (state n))
                  then with_NetworkJoinTime (clk 3%nat) (state n)
                  else state n in
        (mkNetwork (n_identity n) (SetCallbacks ds) (gossip n) st true
                   (isLonely n), evs)
    end.

Definition Stop (clk : Clock) (n : Network) : Network * list Event :=
  if negb (enabled n) then (n, [])
  else
    let (ds, evs) := DiscoveryService_Stop clk (discovery n) in
    (mkNetwork (n_identity n) ds (gossip n) (state n) false (isLonely n), evs).

Definition SetLonelyMode (clk : Clock) (lonely : bool) (n : Network)
  : Network * list Event :=
  let n1 := mkNetwork (n_identity n) (discovery n) (gossip n) (state n)
                      (enabled n) lonely in
  if lonely && enabled n1 then Stop clk n1 else (n1, []).

(** The first loop of [UpdateState].  Every round of the loop has its
    own variable [f], a copy of the record of the ledger; the map
    keeps the address of that variable.  [cells] are these variables,
    by address.  (Before Go 1.22 the rounds share one variable; in
    both cases no address is one of an element of the ledger.) *)
Definition friendMap_of (friends : list FriendRecord)
  : gmap string nat * list FriendRecord :=
  fold_left
    (fun (acc : gmap string nat * list FriendRecord) (f : FriendRecord) =>
       let (friendMap, cells) := acc in
       (<[Friend_PetID f := length cells]> friendMap, (cells ++ [f])%list))
    friends (∅, []).

Definition visited (peer : Peer) (f : FriendRecord) : FriendRecord :=
  mkFriendRecord (Friend_PetID f) (Friend_DisplayName f) (FirstMet f)
                 (LastSeen peer) (wrap64 (TimesVisited f + 1))
                 (SharedDreams f) (IsDeceased f).

Definition newFriend (self : PetIdentity) (peer : Peer) : FriendRecord :=
  mkFriendRecord (PetID (Identity peer)) (DisplayName (Identity peer))
                 (FirstSeen peer) (LastSeen peer) 1
                 (CanShareDreamsWith self (Identity peer))
                 (negb (IsAlive (Identity peer))).

(** The second loop: a peer found in the map is written through the
    pointer that the map holds, another peer is appended to the
    ledger. *)
Definition mergePeers (self : PetIdentity) (friendMap : gmap string nat)
    (cells friends : list FriendRecord) (peers : list Peer)
  : list FriendRecord * list FriendRecord :=
  fold_left
    (fun (acc : list FriendRecord * list FriendRecord) (peer : Peer) =>
       let (cells, friends) := acc in
       match friendMap !! PetID (Identity peer) with
       | Some a => (alter (visited peer) a cells, friends)
       | None => (cells, (friends ++ [newFriend self peer])%list)
       end)
    peers (cells, friends).

(** [UpdateState] on the snapshot [peers] of the peer table. *)
Definition UpdateState_on (peers : list Peer) (clk : Clock) (n : Network)
  : Network :=
  if negb (enabled n) then n
  else
    let (friendMap, cells) := friendMap_of (Friends (state n)) in
    let (_, friends) :=
      mergePeers (n_identity n) friendMap cells (Friends (state n)) peers in
    let '(originated, propagated, reached) := GetNetworkInfluence (gossip n) in
    let st :=
      mkNetworkState friends originated (GetDeathCount (gossip n))
        (NetworkJoinTime (state n)) (clk 0%nat)
        (wrap64 (wrap64 (wrap64 (originated * 2) + propagated)
                 + wrap64 (reached * 3))) in
    mkNetwork (n_identity n) (discovery n) (gossip n) st (enabled n)
              (isLonely n).

Definition UpdateState (clk : Clock) (n : Network) : Network :=
  UpdateState_on (GetPeers (discovery n)) clk n.

Definition AnnounceDeath (clk : Clock) (n : Network) (petName : string)
    (age : Z) (lastWords : string) : list Event :=
  if negb (enabled n) then []
  else GossipService_AnnounceDeath (discovery n) clk (gossip n) petName age
                                   lastWords.

Definition SetMood (mood : string) (intensity : Z) (n : Network) : Network :=
  mkNetwork (n_identity n) (discovery n)
            (GossipService_SetMood mood intensity (gossip n)) (state n)
            (enabled n) (isLonely n).

Definition GetMood (n : Network) : string * Z := GetCurrentMood (gossip n).

Definition GetFriendCount (n : Network) : Z :=
  Z.of_nat (length (Friends (state n))).

Definition GetOnlineFriendCount (n : Network) : Z :=
  if negb (enabled n) then 0 else GetOnlinePeerCount (discovery n).

Definition GetInfluence (n : Network) : Z := Influence (state n).

Definition IsEnabled (n : Network) : bool := enabled n.

Definition IsLonely (n : Network) : bool := isLonely n.

(** [ExportState]: the facade after the call and the blob, [None] when
    [json.Marshal] returns an error. *)
Definition ExportState (clk : Clock) (n : Network) : Network * option string :=
  let n1 := UpdateState clk n in
  (n1, StateCodec.Marshal (state n1)).

(** [ImportState]: the facade after the call and whether the returned
    error is nil. *)
Definition ImportState (data : string) (n : Network) : Network * bool :=
  match StateCodec.Unmarshal data with
  | None => (n, false)
  | Some st =>
      (mkNetwork (n_identity n) (discovery n) (gossip n) st (enabled n)
                 (isLonely n), true)
  end.

(** ** The facade at work *)

(** A datagram arrives: the discovery service handles it and the
    callbacks that it starts run on the gossip service. *)
Definition runCallbacks (ds : DiscoveryService) (clk : Clock)
    (gs : GossipService) (cbs : list Callback) : GossipService * list Event :=
  fold_left
    (fun (acc : GossipService * list Event) (cb : Callback) =>
       let (gs1, evs) := acc in
       let (gs2, evs') := runCallback ds clk gs1 cb in
       (gs2, (evs ++ evs')%list))
    cbs (gs, []).

Definition deliver (clk : Clock) (msg : Message) (addr : UDPAddr) (n : Network)
  : Network * list Event :=
  let '(ds, evs, cbs) := listenStep clk (discovery n) msg addr in
  let (gs, evs') := runCallbacks ds clk (gossip n) cbs in
  (mkNetwork (n_identity n) ds gs (state n) (enabled n) (isLonely n),
   (evs ++ evs')%list).

Definition sweep (clk : Clock) (n : Network) : Network * list Event :=
  let (ds, cbs) := cleanupPeers clk (discovery n) in
  let (gs, evs) := runCallbacks ds clk (gossip n) cbs in
  (mkNetwork (n_identity n) ds gs (state n) (enabled n) (isLonely n), evs).

Definition tick (clk : Clock) (n : Network) : Network * list Event :=
  let (gs, evs) := gossipTick (discovery n) clk (gossip n) in
  (mkNetwork (n_identity n) (discovery n) gs (state n) (enabled n)
             (isLonely n), evs).

(** What the host and the network make the facade do. *)
Inductive Op : Type :=
| OpStart (env : NetEnv) (clk : Clock)
| OpStop (clk : Clock)
| OpSetLonelyMode (clk : Clock) (lonely : bool)
| OpUpdateState (clk : Clock)
| OpExportState (clk : Clock)
| OpImportState (data : string)
| OpSetMood (mood : string) (intensity : Z)
| OpAnnounceDeath (clk : Clock) (petName : string) (age : Z) (lastWords : string)
| OpDeliver (clk : Clock) (msg : Message) (addr : UDPAddr)
| OpSweep (clk : Clock)
| OpTick (clk : Clock).

Definition step (n : Network) (op : Op) : Network * list Event :=
  match op with
  | OpStart env clk => Start env clk n
  | OpStop clk => Stop clk n
  | OpSetLonelyMode clk lonely => SetLonelyMode clk lonely n
  | OpUpdateState clk => (UpdateState clk n, [])
  | OpExportState clk => ((ExportState clk n).1, [])
  | OpImportState data => ((ImportState data n).1, [])
  | OpSetMood mood intensity => (SetMood mood intensity n, [])
  | OpAnnounceDeath clk petName age lastWords =>
      (n, AnnounceDeath clk n petName age lastWords)
  | OpDeliver clk msg addr =>
      if running (discovery n) then deliver clk msg addr n else (n, [])
  | OpSweep clk => if running (discovery n) then sweep clk n else (n, [])
  | OpTick clk => if callbacks (discovery n) then tick clk n else (n, [])
  end.

(** The facade and the trace of events after a sequence of operations. *)
Definition run (n : Network) (ops : list Op) : Network * list Event :=
  fold_left
    (fun (acc : Network * list Event) (op : Op) =>
       let (n1, evs) := acc in
       let (n2, evs') := step n1 op in
       (n2, (evs ++ evs')%list))
    ops (n, []).

(** A sequence of operations on the gossip service alone. *)
Inductive GossipOp : Type :=
| GMessage (msg : Message)
| GPeerDiscovered (clk : Clock) (peer : Peer)
| GPeerLost (clk : Clock) (peer : Peer)
| GPossibleDeath (clk : Clock) (peer : Peer)
| GTick (clk : Clock)
| GSetMood (mood : string) (intensity : Z).

Definition gossip_step (ds : DiscoveryService) (gs : GossipService)
    (op : GossipOp) : GossipService :=
  match op with
  | GMessage msg => (onMessageReceived ds gs msg).1.1
  | GPeerDiscovered clk peer => (onPeerDiscovered ds clk gs peer).1
  | GPeerLost clk peer => (onPeerLost ds clk gs peer).1
  | GPossibleDeath clk peer => (recordPossibleDeath ds clk gs peer).1
  | GTick clk => (gossipTick ds clk gs).1
  | GSetMood mood intensity => GossipService_SetMood mood intensity gs
  end.

(** ** Notions used in the statements *)

(** The bounds that the buffers are meant to keep. *)
Definition within_caps (gs : GossipService) : Prop :=
  (length (receivedMemories gs) <= 50)%nat
  /\ (length (sharedDreams gs) <= 20)%nat
  /\ (length (deathsWitnessed gs) <= 100)%nat.

(** An event with the tag of its message replaced. *)
Definition retag (sig : string) (e : Event) : Event :=
  match e with
  | EvWrite a m => EvWrite a (with_Signature sig m)
  | _ => e
  end.

(** While the lonely flag is set the facade is not enabled. *)
Definition lonely_inv (n : Network) : Prop :=
  isLonely n = true -> enabled n = false.

(** Whether the ledger has a record of the participant. *)
Definition in_ledger (friends : list FriendRecord) (id : string) : bool :=
  existsb (String.eqb id) (map Friend_PetID friends).

(** The text that [GeneratePetID] hashes. *)
Definition petID_text (name : string) (birthTime : Time) : string :=
  name +:+ ":" +:+ fmt_d (UnixNano birthTime).

(** Whether every character of a text satisfies [p]. *)
Fixpoint all_chars (p : ascii -> bool) (s : string) : bool :=
  match s with
  | EmptyString => true
  | String c r => p c && all_chars p r
  end.

(** The number that a sequence of bytes writes, first byte lowest. *)
Fixpoint bytes_val (l : list Z) : Z :=
  match l with
  | [] => 0
  | b :: l' => b + 256 * bytes_val l'
  end.

(** A name for every natural number: that many letters a. *)
Fixpoint name_of (i : nat) : string :=
  match i with
  | O => ""
  | S i' => String "a" (name_of i')
  end.

(** Whether a number is the value of a byte. *)
Definition is_byte (b : Z) : Prop := 0 <= b < 256.

(** *** JSON values and their text *)

Module JSONSpec.
Import JSON.

(** The text ends, or goes on with a character that [p] rejects. *)
Definition stops (p : ascii -> bool) (rest : string) : bool :=
  match rest with
  | EmptyString => true
  | String c _ => negb (p c)
  end.

(** Induction on values, with the hypotheses for the values inside
    an array or an object. *)
Fixpoint value_ind2 (P : value -> Prop)
    (HNull : P Null) (HBool : forall b, P (Bool b))
    (HNum : forall lit, P (Num lit)) (HStr : forall s, P (Str s))
    (HArr : forall l, Forall P l -> P (Arr l))
    (HObj : forall m, Forall (fun kv => P kv.2) m -> P (Obj m))
    (v : value) {struct v} : P v :=
  match v with
  | Null => HNull
  | Bool b => HBool b
  | Num lit => HNum lit
  | Str s => HStr s
  | Arr l =>
      HArr l
        ((fix go (l : list value) : Forall P l :=
            match l with
            | [] => @List.Forall_nil _ P
            | x :: l' =>
                @List.Forall_cons _ P x l'
                  (value_ind2 P HNull HBool HNum HStr HArr HObj x) (go l')
            end) l)
  | Obj m =>
      HObj m
        ((fix go (m : list (string * value)) : Forall (fun kv => P kv.2) m :=
            match m with
            | [] => @List.Forall_nil _ _
            | kv :: m' =>
                @List.Forall_cons _ (fun kv => P kv.2) kv m'
                  (value_ind2 P HNull HBool HNum HStr HArr HObj kv.2) (go m')
            end) m)
  end.

(** The values that [render] writes so that [parse] reads them back:
    numbers of the grammar, strings of valid UTF-8. *)
Fixpoint wf_value (v : value) : bool :=
  match v with
  | Null | Bool _ => true
  | Num lit => valid_number lit && all_chars num_char lit
  | Str s => utf8_valid 0 s
  | Arr l => forallb wf_value l
  | Obj m => forallb (fun kv => utf8_valid 0 kv.1 && wf_value kv.2) m
  end.

Fixpoint render_elems (l : list value) : string :=
  match l with
  | [] => ""
  | [x] => render x
  | x :: l' => render x +:+ "," +:+ render_elems l'
  end.

Fixpoint render_members (m : list (string * value)) : string :=
  match m with
  | [] => ""
  | [(k, x)] => quote k +:+ ":" +:+ render x
  | (k, x) :: m' => quote k +:+ ":" +:+ render x +:+ "," +:+ render_members m'
  end.

(** The fuel that [parse_value] needs for a value. *)
Fixpoint size (v : value) : nat :=
  match v with
  | Arr l =>
      S ((fix go (l : list value) : nat :=
            match l with
            | [] => O
            | x :: l' => S (size x + go l')
            end) l)
  | Obj m =>
      S ((fix go (m : list (string * value)) : nat :=
            match m with
            | [] => O
            | kv :: m' => S (size kv.2 + go m')
            end) m)
  | _ => 1%nat
  end.

Fixpoint size_elems (l : list value) : nat :=
  match l with
  | [] => O
  | x :: l' => S (size x + size_elems l')
  end.

Fixpoint size_members (m : list (string * value)) : nat :=
  match m with
  | [] => O
  | kv :: m' => S (size kv.2 + size_members m')
  end.

(** The characters at which a value may begin. *)
Definition opens (c : ascii) : Prop :=
  is_ws c = false /\ isb c 93 = false /\ isb c 125 = false.

(** The statement of the round trip for one value. *)
Definition reads_back (v : value) : Prop :=
  wf_value v = true ->
  forall (fuel : nat) (rest : string),
    (size v <= fuel)%nat -> stops num_char rest = true ->
    parse_value fuel (render v +:+ rest) = Some (v, rest).

(** Whether the date of the day [doe] of an era of 400 years is a date
    of the calendar whose day is [doe] again. *)
Definition check_doe (doe : Z) : bool :=
  let '(y0, m, d) := civil_of_doe doe in
  (1 <=? m) && (m <=? 12) && (1 <=? d) && (d <=? days_in y0 m)
  && (days_from_civil y0 m d =? doe - 719468).

(** Whether [p] holds of the [n] numbers from [z] on. *)
Fixpoint all_from (n : nat) (z : Z) (p : Z -> bool) : bool :=
  match n with
  | O => true
  | S n' => p z && all_from n' (z + 1) p
  end.

End JSONSpec.

(** *** The persisted state *)

(** The values that Go can hold in the persisted state: the integers
    are [int]s, the nanoseconds of a time are below one second, and
    the strings are valid UTF-8 (what [json.Unmarshal] and
    [hex.EncodeToString] produce). *)
Definition wf_time (t : Time) : bool :=
  (0 <=? nsec t) && (nsec t <? 1000000000).

Definition wf_friend (f : FriendRecord) : bool :=
  JSON.utf8_valid 0 (Friend_PetID f)
  && JSON.utf8_valid 0 (Friend_DisplayName f)
  && wf_time (FirstMet f) && wf_time (Friend_LastSeen f)
  && in_int64 (TimesVisited f).

Definition wf_state (s : NetworkState) : bool :=
  forallb wf_friend (Friends s)
  && in_int64 (MemoriesShared s) && in_int64 (DeathsWitnessed s)
  && wf_time (NetworkJoinTime s) && wf_time (LastNetworkSync s)
  && in_int64 (Influence s).

(** A character of one byte in UTF-8. *)
Definition plain (c : ascii) : bool := JSON.code c <? 128.

(** The peers that [json.Unmarshal] and the clock can make. *)
Definition wf_peer (p : Peer) : bool :=
  JSON.utf8_valid 0 (PetID (Identity p))
  && JSON.utf8_valid 0 (DisplayName (Identity p))
  && wf_time (FirstSeen p) && wf_time (LastSeen p).

(** * The rest of the package *)

(** ** Payloads that Go can hold *)

(** The payloads whose fields hold what Go can hold there: strings of
    valid UTF-8, [int]s, times with nanoseconds below one second. *)
Definition wf_payload (p : PayloadArg) : bool :=
  match p with
  | NoPayload => true
  | OfMemory x =>
      JSON.utf8_valid 0 (Fragment x) && JSON.utf8_valid 0 (Emotion x)
      && in_int64 (Intensity x) && wf_time (OriginTime x)
  | OfDream x =>
      JSON.utf8_valid 0 (DreamText x)
      && forallb (JSON.utf8_valid 0) (Symbols x)
      && JSON.utf8_valid 0 (SharedWith x)
  | OfMood x => JSON.utf8_valid 0 (Mood x) && in_int64 (Happiness x)
  | OfDeath x =>
      JSON.utf8_valid 0 (PetName x) && wf_time (DeathTime x)
      && in_int64 (Age x) && JSON.utf8_valid 0 (LastWords x)
      && JSON.utf8_valid 0 (Cause x)
  end.

(** What [DecodePayload] gives for the message, by the payload that
    the message was made with: the payload, into the struct of its
    type; for [nil], the zero value of every struct. *)
Definition decodes_to (p : PayloadArg) (m : Message) : Prop :=
  match p with
  | NoPayload =>
      DecodePayload_Memory m = Some zeroMemoryPayload
      /\ DecodePayload_Dream m = Some zeroDreamPayload
      /\ DecodePayload_Mood m = Some zeroMoodPayload
      /\ DecodePayload_Death m = Some zeroDeathPayload
  | OfMemory x => DecodePayload_Memory m = Some x
  | OfDream x => DecodePayload_Dream m = Some x
  | OfMood x => DecodePayload_Mood m = Some x
  | OfDeath x => DecodePayload_Death m = Some x
  end.

(** ** identity.go: [ObfuscatedName] *)

(** A lowercase hexadecimal digit. *)
Definition is_hex (c : ascii) : bool :=
  JSON.is_digit c || JSON.between 97 102 c.

(** [n] asterisks. *)
Fixpoint stars (n : nat) : string :=
  match n with
  | O => ""
  | S n' => String "*" (stars n')
  end.

(** The last byte of a text that is not empty. *)
Fixpoint last_byte (c : ascii) (s : string) : ascii :=
  match s with
  | EmptyString => c
  | String c' s' => last_byte c' s'
  end.

(** [ObfuscatedName]: [string(name[0])] converts a byte to the UTF-8
    text of the code point of that number. *)
Definition ObfuscatedName (pi : PetIdentity) : string :=
  match DisplayName pi with
  | String c r =>
      if (String.length (DisplayName pi) <=? 2)%nat then "???"
      else JSON.utf8_encode (JSON.code c)
           +:+ stars (String.length (DisplayName pi) - 2)
           +:+ JSON.utf8_encode (JSON.code (last_byte c r))
  | EmptyString => "???"
  end.

(** ** The peer table *)

(** Every peer of the table is kept under its own participant ID. *)
Definition peers_keyed (ds : DiscoveryService) : Prop :=
  forall id p, peers ds !! id = Some p -> PetID (Identity p) = id.

(** Whether the peer is online and was last seen more than
    [PeerTimeout] before [now]. *)
Definition stale (now : Time) (p : Peer) : bool :=
  IsOnline p && timed_out now (LastSeen p).

(** ** The ledger *)

(** Whether the operation is an import of a saved state. *)
Definition is_import (op : Op) : bool :=
  match op with
  | OpImportState _ => true
  | _ => false
  end.

(** The participant IDs of the ledger, in its order. *)
Definition ledger_ids (n : Network) : list string :=
  map Friend_PetID (Friends (state n)).

(** ** Whom [SendMessage] writes to *)

(** The addresses that [SendMessage] writes to: those of the peers
    that are online and have one, in the order of the table. *)
Definition recipients (ds : DiscoveryService) : list UDPAddr :=
  omap (fun p : Peer => if IsOnline p then Address p else None) (GetPeers ds).

(** ** What a gossip round leaves alone *)

(** What a call may change of the gossip state: the random source and
    the count of originated messages, by at most one. *)
Definition same_but_source (gs gs' : GossipService) : Prop :=
  gs_identity gs' = gs_identity gs
  /\ receivedMemories gs' = receivedMemories gs
  /\ sharedDreams gs' = sharedDreams gs
  /\ deathsWitnessed gs' = deathsWitnessed gs
  /\ GetCurrentMood gs' = GetCurrentMood gs
  /\ messagesPropagated gs' = messagesPropagated gs
  /\ uniquePeersReached gs' = uniquePeersReached gs
  /\ (messagesOriginated gs' = messagesOriginated gs
      \/ messagesOriginated gs' = wrap64 (messagesOriginated gs + 1)).

(** ** gossip.go: recent entries; protocol.go: [String] *)

(** [&l[rand.Intn(len(l))]], and [nil] for an empty slice, which takes
    no draw. *)
Definition pick {A} (l : list A) (r : Rand) : option A * Rand :=
  match l with
  | [] => (None, r)
  | _ :: _ =>
      let (i, r') := Intn r (Z.of_nat (length l)) in
      (nth_error l (Z.to_nat i), r')
  end.

Definition GetRecentMemory (gs : GossipService)
  : option MemoryPayload * GossipService :=
  let (x, r) := pick (receivedMemories gs) (randomSource gs) in
  (x, with_randomSource r gs).

Definition GetRecentDream (gs : GossipService)
  : option DreamPayload * GossipService :=
  let (x, r) := pick (sharedDreams gs) (randomSource gs) in
  (x, with_randomSource r gs).

Definition GetRecentDeath (gs : GossipService)
  : option DeathPayload * GossipService :=
  let (x, r) := pick (deathsWitnessed gs) (randomSource gs) in
  (x, with_randomSource r gs).

(** [MessageType.String]: an index into an array of ten names; [None]
    when the index is out of range and the call panics. *)
Definition MessageType_names : list string :=
  [ "DISCOVER"; "ANNOUNCE"; "GOODBYE";
    "MEMORY"; "DREAM"; "MOOD"; "WHISPER";
    "DEATH"; "CONSENSUS"; "PULSE" ].

Definition MessageType_String (mt : MessageType) : option string :=
  if (0 <=? mt) && (mt <? 10) then nth_error MessageType_names (Z.to_nat mt)
  else None.

(** ** network.go: spooky messages and thoughts *)

Definition spookyEncounterMessages : list string :=
  [ "I met someone today.";
    "A friend from far away says hello.";
    "I sense another presence...";
    "Someone is thinking about me.";
    "I feel less alone somehow.";
    "The network hums with activity.";
    "A kindred spirit reached out.";
    "I received a message from the ether.";
    "Something stirred in the mesh.";
    "We are all connected." ].

Definition spookyDeathMessages : list string :=
  [ "I felt a disturbance... someone has passed.";
    "A light went out somewhere in the network.";
    "I sense loss. A friend is gone.";
    "The mesh grows quieter.";
    "Someone's journey has ended." ].

Definition spookyLonelyMessages : list string :=
  [ "It's quiet. Too quiet.";
    "I miss my network friends.";
    "The mesh feels empty today.";
    "Where did everyone go?";
    "I feel disconnected from something larger.";
    "The silence is deafening." ].

(** The two fields of [Network] that only the spooky messages and the
    network thoughts use: the queue and the facade's own random
    source. *)
Record Spooky : Type := mkSpooky {
  spookyMessages : list string;
  net_randomSource : Rand
}.

(** [table[r.Intn(len(table))]] when a draw of [Float32] is below
    [p]; [message] otherwise. *)
Definition maybe_line (p : Q) (table : list string) (message : string)
    (r : Rand) : string * Rand :=
  let (x, r1) := Float32 r in
  if Qltb x p then
    let (i, r2) := Intn r1 (Z.of_nat (length table)) in
    (nth (Z.to_nat i) table "", r2)
  else (message, r1).

Definition with_gossip (gs : GossipService) (n : Network) : Network :=
  mkNetwork (n_identity n) (discovery n) gs (state n) (enabled n) (isLonely n).

Definition generateSpookyMessage (n : Network) (sp : Spooky)
  : Network * Spooky :=
  if (5 <=? length (spookyMessages sp))%nat then (n, sp)
  else
    let onlinePeers := GetOnlinePeerCount (discovery n) in
    let (message, r1) :=
      if onlinePeers =? 0 then
        maybe_line (3 # 10) spookyLonelyMessages "" (net_randomSource sp)
      else if onlinePeers >? 0 then
        maybe_line (2 # 10) spookyEncounterMessages "" (net_randomSource sp)
      else ("", net_randomSource sp) in
    let (death, gs) := GetRecentDeath (gossip n) in
    let (message', r2) :=
      match death with
      | Some _ => maybe_line (4 # 10) spookyDeathMessages message r1
      | None => (message, r1)
      end in
    (with_gossip gs n,
     mkSpooky (if String.eqb message' "" then spookyMessages sp
               else (spookyMessages sp ++ [message'])%list) r2).

(** One round of [spookyLoop]. *)
Definition spookyTick (n : Network) (sp : Spooky) : Network * Spooky :=
  if negb (enabled n) then (n, sp) else generateSpookyMessage n sp.

Definition GetSpookyMessage (sp : Spooky) : string * Spooky :=
  match spookyMessages sp with
  | [] => ("", sp)
  | msg :: rest => (msg, mkSpooky rest (net_randomSource sp))
  end.

Definition ShouldShowNetworkThought (n : Network) (sp : Spooky)
  : bool * Spooky :=
  if negb (enabled n) then (false, sp)
  else
    let (x, r) := Float32 (net_randomSource sp) in
    (Qltb x (1 # 10), mkSpooky (spookyMessages sp) r).

(** [GetNetworkThought]: the thought, and the facade and its random
    source after the draws. *)
Definition GetNetworkThought (n : Network) (sp : Spooky)
  : string * Network * Spooky :=
  if negb (enabled n) then ("", n, sp)
  else
    let (memory, gs1) := GetRecentMemory (gossip n) in
    let '(found1, r1) :=
      match memory with
      | Some m =>
          let (x, r) := Float32 (net_randomSource sp) in
          (if Qltb x (3 # 10) then Some (Fragment m) else None, r)
      | None => (None, net_randomSource sp)
      end in
    match found1 with
    | Some thought =>
        (thought, with_gossip gs1 n, mkSpooky (spookyMessages sp) r1)
    | None =>
        let (dream, gs2) := GetRecentDream gs1 in
        let '(found2, r2) :=
          match dream with
          | Some d =>
              let (x, r) := Float32 r1 in
              (if Qltb x (4 # 10) then Some (DreamText d) else None, r)
          | None => (None, r1)
          end in
        match found2 with
        | Some thought =>
            (thought, with_gossip gs2 n, mkSpooky (spookyMessages sp) r2)
        | None =>
            let peers := GetPeers (discovery n) in
            let '(found3, r3) :=
              match peers with
              | [] => (None, r2)
              | _ :: _ =>
                  let (i, r) := Intn r2 (Z.of_nat (length peers)) in
                  let (x, r') := Float32 r in
                  (if Qltb x (2 # 10) then
                     match nth_error peers (Z.to_nat i) with
                     | Some peer =>
                         Some ("Your pet's friend "
                               +:+ ObfuscatedName (Identity peer)
                               +:+ " sends regards.")
                     | None => None
                     end
                   else None, r')
              end in
            (match found3 with Some thought => thought | None => "" end,
             with_gossip gs2 n, mkSpooky (spookyMessages sp) r3)
        end
    end.

(** The lines that can be queued. *)
Definition spooky_lines : list string :=
  (spookyLonelyMessages ++ spookyEncounterMessages ++ spookyDeathMessages)%list.

(** The queue holds at most five lines, each one of the tables. *)
Definition spooky_ok (sp : Spooky) : Prop :=
  (length (spookyMessages sp) <= 5)%nat
  /\ Forall (fun m => In m spooky_lines) (spookyMessages sp).

(** What the host does with the queue. *)
Inductive SpookyOp : Type :=
| SpTick (n : Network)
| SpGet.

Definition spooky_step (sp : Spooky) (op : SpookyOp) : Spooky :=
  match op with
  | SpTick n => (spookyTick n sp).2
  | SpGet => (GetSpookyMessage sp).2
  end.

(** ** main.go: the host of the facade *)

(** [initNetwork].  [stageStr] and [isAlive] are what its first two
    lines compute from the pet; [lonelyMode] is the flag of the
    command line and [friends] the field [pet.Friends] of the save
    file. *)
Definition initNetwork (lonelyMode : bool) (seed : Rand) (env : NetEnv)
    (clk : Clock) (petName : string) (birthTime : Time) (stageStr : string)
    (isAlive : bool) (friends : string) : Network * list Event :=
  let petNetwork := NewNetwork seed petName birthTime stageStr isAlive in
  if lonelyMode then SetLonelyMode clk true petNetwork
  else
    Start env clk
      (if (0 <? String.length friends)%nat
       then (ImportState friends petNetwork).1
       else petNetwork).

(** [saveNetworkState]: the facade, if there is one, after the call and
    the field [pet.Friends] after it. *)
Definition saveNetworkState (clk : Clock) (petNetwork : option Network)
    (friends : string) : option Network * string :=
  match petNetwork with
  | None => (None, friends)
  | Some n =>
      let (n1, data) := ExportState clk n in
      (Some n1, match data with Some d => d | None => friends end)
  end.

(** [shutdownNetwork] *)
Definition shutdownNetwork (clk : Clock) (petNetwork : option Network)
  : option Network * list Event :=
  match petNetwork with
  | None => (None, [])
  | Some n => let (n1, evs) := Stop clk n in (Some n1, evs)
  end.

(** The operations that leave lonely mode on: all but an import and
    [SetLonelyMode(false)], neither of which the host calls later. *)
Definition keeps_lonely (op : Op) : bool :=
  match op with
  | OpImportState _ => false
  | OpSetLonelyMode _ lonely => lonely
  | _ => true
  end.

(** A facade in lonely mode that has never been enabled. *)
Definition lonely_and_empty (n : Network) : Prop :=
  isLonely n = true /\ enabled n = false /\ state n = zeroNetworkState.

(** * The wire: [Encode], [DecodeMessage] and the body of [listenLoop] *)

(** ** encoding/base64, as [encoding/json] uses it for a [[]byte] *)

Module Base64.
Import JSON.

(** The alphabet of [base64.StdEncoding]. *)
Definition digit64 (n : Z) : ascii :=
  if n <? 26 then chr (65 + n)
  else if n <? 52 then chr (71 + n)
  else if n <? 62 then chr (n - 4)
  else if n =? 62 then "+"%char
  else "/"%char.

(** [decodeMap]: the number that a character of the alphabet stands
    for. *)
Definition value64 (c : ascii) : option Z :=
  if between 65 90 c then Some (code c - 65)
  else if between 97 122 c then Some (code c - 71)
  else if between 48 57 c then Some (code c + 4)
  else if isb c 43 then Some 62
  else if isb c 47 then Some 63
  else None.

(** [EncodeToString]: three bytes make four characters; one or two
    bytes at the end are padded. *)
Fixpoint encode (s : string) : string :=
  match s with
  | String a (String b (String c r)) =>
      String (digit64 (code a / 4))
        (String (digit64 (code a mod 4 * 16 + code b / 16))
           (String (digit64 (code b mod 16 * 4 + code c / 64))
              (String (digit64 (code c mod 64)) (encode r))))
  | String a (String b EmptyString) =>
      String (digit64 (code a / 4))
        (String (digit64 (code a mod 4 * 16 + code b / 16))
           (String (digit64 (code b mod 16 * 4)) "="))
  | String a EmptyString =>
      String (digit64 (code a / 4))
        (String (digit64 (code a mod 4 * 16)) "==")
  | EmptyString => ""
  end.

Definition is_newline (c : ascii) : bool := isb c 10 || isb c 13.

Fixpoint skip_newlines (s : string) : string :=
  match s with
  | String c r => if is_newline c then skip_newlines r else s
  | EmptyString => s
  end.

(** The bytes of a quantum: [val >> 16], [val >> 8] and [val]. *)
Definition byte_of (val shift : Z) : ascii := chr ((val / shift) mod 256).

(** [Decode], not strict: [q] holds the numbers of the quantum that is
    being read, first to last.  Newlines are skipped everywhere; the
    text must be padded, and nothing but newlines may follow the
    padding. *)
Fixpoint decode (s : string) (q : list Z) : option string :=
  match s with
  | EmptyString =>
      match q with
      | [] => Some ""
      | _ => None
      end
  | String c r =>
      match value64 c with
      | Some v =>
          match q with
          | [v1; v2; v3] =>
              let val := v1 * 262144 + v2 * 4096 + v3 * 64 + v in
              match decode r [] with
              | Some rest =>
                  Some (String (byte_of val 65536)
                          (String (byte_of val 256)
                             (String (byte_of val 1) rest)))
              | None => None
              end
          | _ => decode r (q ++ [v])%list
          end
      | None =>
          if is_newline c then decode r q
          else if isb c 61 then
            match q with
            | [v1; v2] =>
                let val := v1 * 262144 + v2 * 4096 in
                match skip_newlines r with
                | String c' r' =>
                    if isb c' 61 && is_empty (skip_newlines r')
                    then Some (String (byte_of val 65536) "")
                    else None
                | EmptyString => None
                end
            | [v1; v2; v3] =>
                let val := v1 * 262144 + v2 * 4096 + v3 * 64 in
                if is_empty (skip_newlines r)
                then Some (String (byte_of val 65536)
                             (String (byte_of val 256) ""))
                else None
            | _ => None
            end
          else None
      end
  end.

End Base64.

(** ** The message as [encoding/json] sees it *)

(** The struct [Message] with what a decoded one may hold: no sender
    ([From] is a pointer, [nil] when the text has none) and no payload
    (a [nil] slice). *)
Record WireMessage : Type := mkWireMessage {
  w_Type : MessageType;
  w_From : option PetIdentity;
  w_Timestamp : Time;
  w_Payload : option string;
  w_Signature : string;
  w_Nonce : string;
  w_TTL : Z
}.

(** [var msg Message] *)
Definition zeroWireMessage : WireMessage :=
  mkWireMessage 0 None zeroTime None "" "" 0.

(** [PetIdentity{}] *)
Definition zeroPetIdentity : PetIdentity :=
  mkPetIdentity "" "" zeroTime "" "" false.

Module WireCodec.
Import JSON.

(** A [uint8] from a number: [strconv.ParseUint] takes digits only. *)
Definition dec_uint8 (v : value) (cur : Z) : option Z :=
  match v with
  | Null => Some cur
  | Num lit =>
      if all_chars is_digit lit then
        match int_of_lit lit with
        | Some z => if z <=? 255 then Some z else None
        | None => None
        end
      else None
  | _ => None
  end.

(** A [[]byte]: [null] makes it nil, a string is base64, an array is
    read like any slice. *)
Definition dec_bytes (v : value) (cur : option string) : option (option string) :=
  match v with
  | Null => Some None
  | Str s =>
      match Base64.decode s [] with
      | Some b => Some (Some b)
      | None => None
      end
  | Arr l =>
      match dec_elems dec_uint8 0 l with
      | Some bs => Some (Some (string_of_bytes bs))
      | None => None
      end
  | _ => None
  end.

Definition enc_bytes (b : option string) : value :=
  match b with
  | None => Null
  | Some s => Str (Base64.encode s)
  end.

Definition PetIdentity_field (k : string) (v : value) (p : PetIdentity)
  : option PetIdentity :=
  if key_matches "pet_id" k then
    match dec_string v (PetID p) with
    | Some x => Some (mkPetIdentity x (DisplayName p) (BirthTime p)
                        (PublicKey p) (Stage p) (IsAlive p))
    | None => None end
  else if key_matches "display_name" k then
    match dec_string v (DisplayName p) with
    | Some x => Some (mkPetIdentity (PetID p) x (BirthTime p)
                        (PublicKey p) (Stage p) (IsAlive p))
    | None => None end
  else if key_matches "birth_time" k then
    match dec_time v (BirthTime p) with
    | Some x => Some (mkPetIdentity (PetID p) (DisplayName p) x
                        (PublicKey p) (Stage p) (IsAlive p))
    | None => None end
  else if key_matches "public_key" k then
    match dec_string v (PublicKey p) with
    | Some x => Some (mkPetIdentity (PetID p) (DisplayName p) (BirthTime p)
                        x (Stage p) (IsAlive p))
    | None => None end
  else if key_matches "stage" k then
    match dec_string v (Stage p) with
    | Some x => Some (mkPetIdentity (PetID p) (DisplayName p) (BirthTime p)
                        (PublicKey p) x (IsAlive p))
    | None => None end
  else if key_matches "is_alive" k then
    match dec_bool v (IsAlive p) with
    | Some x => Some (mkPetIdentity (PetID p) (DisplayName p) (BirthTime p)
                        (PublicKey p) (Stage p) x)
    | None => None end
  else Some p.

(** A [*PetIdentity]: [null] makes it nil; an object is read into the
    struct that the pointer has, a new one when it is nil. *)
Definition dec_identity (v : value) (cur : option PetIdentity)
  : option (option PetIdentity) :=
  match v with
  | Null => Some None
  | Obj m =>
      match dec_members PetIdentity_field m
              (match cur with Some p => p | None => zeroPetIdentity end) with
      | Some p => Some (Some p)
      | None => None
      end
  | _ => None
  end.

Definition WireMessage_field (k : string) (v : value) (w : WireMessage)
  : option WireMessage :=
  if key_matches "type" k then
    match dec_int v (w_Type w) with
    | Some x => Some (mkWireMessage x (w_From w) (w_Timestamp w)
                        (w_Payload w) (w_Signature w) (w_Nonce w) (w_TTL w))
    | None => None end
  else if key_matches "from" k then
    match dec_identity v (w_From w) with
    | Some x => Some (mkWireMessage (w_Type w) x (w_Timestamp w)
                        (w_Payload w) (w_Signature w) (w_Nonce w) (w_TTL w))
    | None => None end
  else if key_matches "timestamp" k then
    match dec_time v (w_Timestamp w) with
    | Some x => Some (mkWireMessage (w_Type w) (w_From w) x
                        (w_Payload w) (w_Signature w) (w_Nonce w) (w_TTL w))
    | None => None end
  else if key_matches "payload" k then
    match dec_bytes v (w_Payload w) with
    | Some x => Some (mkWireMessage (w_Type w) (w_From w) (w_Timestamp w)
                        x (w_Signature w) (w_Nonce w) (w_TTL w))
    | None => None end
  else if key_matches "signature" k then
    match dec_string v (w_Signature w) with
    | Some x => Some (mkWireMessage (w_Type w) (w_From w) (w_Timestamp w)
                        (w_Payload w) x (w_Nonce w) (w_TTL w))
    | None => None end
  else if key_matches "nonce" k then
    match dec_string v (w_Nonce w) with
    | Some x => Some (mkWireMessage (w_Type w) (w_From w) (w_Timestamp w)
                        (w_Payload w) (w_Signature w) x (w_TTL w))
    | None => None end
  else if key_matches "ttl" k then
    match dec_int v (w_TTL w) with
    | Some x => Some (mkWireMessage (w_Type w) (w_From w) (w_Timestamp w)
                        (w_Payload w) (w_Signature w) (w_Nonce w) x)
    | None => None end
  else Some w.

Definition enc_PetIdentity (p : PetIdentity) : option value :=
  match enc_time (BirthTime p) with
  | Some t =>
      Some (Obj [ ("pet_id", Str (PetID p));
                  ("display_name", Str (DisplayName p));
                  ("birth_time", t);
                  ("public_key", Str (PublicKey p));
                  ("stage", Str (Stage p));
                  ("is_alive", Bool (IsAlive p)) ])
  | None => None
  end.

Definition enc_WireMessage (w : WireMessage) : option value :=
  match
    match w_From w with
    | Some p => enc_PetIdentity p
    | None => Some Null
    end,
    enc_time (w_Timestamp w)
  with
  | Some from, Some t =>
      Some (Obj [ ("type", enc_int (w_Type w));
                  ("from", from);
                  ("timestamp", t);
                  ("payload", enc_bytes (w_Payload w));
                  ("signature", Str (w_Signature w));
                  ("nonce", Str (w_Nonce w));
                  ("ttl", enc_int (w_TTL w)) ])
  | _, _ => None
  end.

End WireCodec.

(** A message of the package as the struct that is marshalled.  The
    payload of a [Message] stands for a slice that is not nil, as
    [NewMessage] makes it: empty, it is written as an empty string,
    where a nil one would be written as [null]. *)
Definition to_wire (m : Message) : WireMessage :=
  mkWireMessage (Type_ m) (Some (From m)) (Timestamp m) (Some (Payload m))
                (Signature m) (Nonce m) (TTL m).

(** The message that the package works with, when there is a sender;
    a [nil] payload has no bytes. *)
Definition of_wire (w : WireMessage) : option Message :=
  match w_From w with
  | Some from =>
      Some (mkMessage (w_Type w) from (w_Timestamp w)
                      (match w_Payload w with Some b => b | None => "" end)
                      (w_Signature w) (w_Nonce w) (w_TTL w))
  | None => None
  end.

(** [m.Encode()] *)
Definition Encode (m : Message) : option string :=
  match WireCodec.enc_WireMessage (to_wire m) with
  | Some v => Some (JSON.render v)
  | None => None
  end.

(** [DecodeMessage(data)] *)
Definition DecodeMessage (data : string) : option WireMessage :=
  Codec.Unmarshal WireCodec.WireMessage_field data zeroWireMessage.

Definition MaxMessageSize : nat := 4096.

(** What a round of [listenLoop] comes to. *)
Inductive Outcome : Type :=
| Panics                      (* nil pointer dereference *)
| Continues (r : DiscoveryService * list Event * list Callback).

(** A round of [listenLoop] in which a datagram was read: the buffer
    takes its first [MaxMessageSize] bytes; a text that does not
    decode is ignored; [msg.From.PetID] dereferences [From]. *)
Definition listenLoop_body (clk : Clock) (ds : DiscoveryService)
    (datagram : string) (addr : UDPAddr) : Outcome :=
  match DecodeMessage (String.substring 0 MaxMessageSize datagram) with
  | None => Continues (ds, [], [])
  | Some w =>
      match of_wire w with
      | None => Panics
      | Some msg => Continues (listenStep clk ds msg addr)
      end
  end.

(** The messages whose fields hold what Go can hold there. *)
Definition wf_identity (p : PetIdentity) : bool :=
  JSON.utf8_valid 0 (PetID p) && JSON.utf8_valid 0 (DisplayName p)
  && wf_time (BirthTime p) && JSON.utf8_valid 0 (PublicKey p)
  && JSON.utf8_valid 0 (Stage p).

Definition wf_message (m : Message) : bool :=
  in_int64 (Type_ m) && wf_identity (From m) && wf_time (Timestamp m)
  && JSON.utf8_valid 0 (Signature m) && JSON.utf8_valid 0 (Nonce m)
  && in_int64 (TTL m).

(** ** Datagrams without a sender *)

(** Whether the text of a datagram, as JSON, is an object that has a
    member for the field [From] that is not [null]. *)
Definition names_sender (v : JSON.value) : bool :=
  match v with
  | JSON.Obj mem =>
      existsb (fun kv => JSON.key_matches "from" kv.1
                         && match kv.2 with JSON.Null => false | _ => true end)
              mem
  | _ => false
  end.

(** ** Sample values *)

Module Sample.

(** A random source whose every draw is zero. *)
Definition seed : Rand := mkRand (fun _ => 0%Q) (fun _ => 0) 0.

Definition clock (base : Z) : Clock := fun k => Unix (base + Z.of_nat k) 0.

Definition env : NetEnv := mkNetEnv true None.

Definition nibbles : Network :=
  NewNetwork seed "Nibbles" (Unix 1705314600 0) "Baby" true.

Definition fluffy : PetIdentity :=
  NewPetIdentity "Fluffy" (Unix 1705314000 0) "Child" true.

Definition addr : UDPAddr := mkUDPAddr "192.168.1.7" DiscoveryPort.

Definition payload (p : PayloadArg) : string :=
  match Codec.Marshal_payload p with Some s => s | None => "" end.

(** A message of [fluffy] with the tag that [generateSignature] gives. *)
Definition signed (t : MessageType) (now : Time) (p : PayloadArg) : Message :=
  let m := mkMessage t fluffy now (payload p) "" "0011223344556677" 5 in
  with_Signature (generateSignature m) m.

Definition announce (now : Time) : Message :=
  signed MsgTypeAnnounce now NoPayload.

Definition memory : MemoryPayload :=
  mkMemoryPayload "The void is full of friends." "hopeful" 64
                  (Unix 1705315090 0).

(** A memory message whose tag is not the one of its fields. *)
Definition tampered : Message :=
  with_Signature "tampered"
    (signed MsgTypeMemory (Unix 1705315100 0) (OfMemory memory)).

Definition quiet_mood : Message :=
  signed MsgTypeMoodUpdate (Unix 1705315200 0)
         (OfMood (mkMoodPayload "melancholy" 12 false)).

(** The facade started, with [fluffy] met once. *)
Definition met : Network :=
  (run nibbles [ OpStart env (clock 1705315000);
                 OpDeliver (clock 1705315010)
                           (announce (Unix 1705315009 0)) addr ]).1.

(** [fluffy] as the peer table of [met] has it. *)
Definition fluffy_peer : Peer :=
  mkPeer fluffy (Some addr) (addr_String addr) (Unix 1705315011 0)
         (Unix 1705315010 0) 1 "" true.

(** What [met] exports. *)
Definition saved : string :=
  match (ExportState (clock 1705315100) met).2 with
  | Some blob => blob
  | None => ""
  end.

End Sample.

(** ** Sample sessions and messages *)

(** A session: the facade starts, hears a peer, and merges twice. *)
Definition sample_session : list Op :=
  [ OpStart Sample.env (Sample.clock 1705315000);
    OpDeliver (Sample.clock 1705315010)
              (Sample.announce (Unix 1705315009 0)) Sample.addr;
    OpUpdateState (Sample.clock 1705315020);
    OpUpdateState (Sample.clock 1705315050) ].

(** A later session of the facade that has met [fluffy]: it stops and
    starts again. *)
Definition sample_restart : list Op :=
  [ OpStop (Sample.clock 1705316000);
    OpStart Sample.env (Sample.clock 1705317000);
    OpUpdateState (Sample.clock 1705317010) ].

(** A message of [fluffy] whose payload is no JSON text. *)
Definition sample_garbled : Message :=
  mkMessage MsgTypeMemory Sample.fluffy (Unix 1705315100 0) "{fragment"
            "" "0011223344556677" 3.

(** A dream that [fluffy] sends. *)
Definition sample_dream : Message :=
  Sample.signed MsgTypeDream (Unix 1705315100 0)
    (OfDream (mkDreamPayload "I dreamed of warm static..."
                             ["warm static"; "a garden of pixels"] false
                             "96eafa30")).

(** Fifty-one memory messages, one after the other. *)
Definition sample_flood : list Message :=
  repeat (Sample.signed MsgTypeMemory (Unix 1705315100 0)
                        (OfMemory Sample.memory)) 51.

(** The sample message as it is sent. *)
Definition sample_datagram : string :=
  match Encode Sample.quiet_mood with
  | Some data => data
  | None => ""
  end.

(** * Properties *)

(** ** The digest *)

(** The digests of the standard's sample messages. *)
Example Sum256_abc :
  hex_EncodeToString (SHA256.Sum256 (bytes_of_string "abc"))
  = "ba7816bf8f01cfea414140de5dae2223b00361a396177a9cb410ff61f20015ad".
Proof. vm_compute. reflexivity. Qed.

Example Sum256_two_blocks :
  hex_EncodeToString
    (SHA256.Sum256
       (bytes_of_string
          "abcdbcdecdefdefgefghfghighijhijkijkljklmklmnlmnomnopnopq"))
  = "248d6a61d20638b8e5c026930c3e6039a33ce45964ff2167f6ecedd419db06c1".
Proof. vm_compute. reflexivity. Qed.

Example constants :
  length SHA256.K = 64%nat
  /\ nth 0 SHA256.K 0 = 0x428a2f98 /\ nth 63 SHA256.K 0 = 0xc67178f2
  /\ nth 0 SHA256.H0 0 = 0x6a09e667 /\ nth 7 SHA256.H0 0 = 0x5be0cd19.
Proof. vm_compute. repeat split; reflexivity. Qed.

(** ** The message protocol *)

Lemma gtb_true (a : Z) : (a >? 0) = true <-> 0 < a.
Proof. rewrite Z.gtb_ltb. apply Z.ltb_lt. Qed.

(** C4: [ShouldPropagate] is true exactly for the types memory, dream,
    mood-update, death and consensus with a hop budget above zero; for
    discover, announce, goodbye, whisper and pulse it is false whatever
    the hop budget. *)
Theorem ShouldPropagate_spec (m : Message) :
  (ShouldPropagate m = true <->
     In (Type_ m) [MsgTypeMemory; MsgTypeDream; MsgTypeMoodUpdate;
                   MsgTypeDeath; MsgTypeConsensus] /\ 0 < TTL m)
  /\ (In (Type_ m) [MsgTypeDiscover; MsgTypeAnnounce; MsgTypeGoodbye;
                    MsgTypeWhisper; MsgTypePulse] ->
      ShouldPropagate m = false).
Proof.
  unfold ShouldPropagate, MsgTypeMemory, MsgTypeDream, MsgTypeMoodUpdate,
    MsgTypeDeath, MsgTypeConsensus, MsgTypeDiscover, MsgTypeAnnounce,
    MsgTypeGoodbye, MsgTypeWhisper, MsgTypePulse.
  cbn [In].
  destruct (Z.eqb_spec (Type_ m) 3) as [-> | H3]; cbn [orb].
  { rewrite gtb_true. split; [tauto | intros H; exfalso; lia]. }
  destruct (Z.eqb_spec (Type_ m) 4) as [-> | H4]; cbn [orb].
  { rewrite gtb_true. split; [tauto | intros H; exfalso; lia]. }
  destruct (Z.eqb_spec (Type_ m) 5) as [-> | H5]; cbn [orb].
  { rewrite gtb_true. split; [tauto | intros H; exfalso; lia]. }
  destruct (Z.eqb_spec (Type_ m) 7) as [-> | H7]; cbn [orb].
  { rewrite gtb_true. split; [tauto | intros H; exfalso; lia]. }
  destruct (Z.eqb_spec (Type_ m) 8) as [-> | H8]; cbn [orb].
  { rewrite gtb_true. split; [tauto | intros H; exfalso; lia]. }
  split; [| reflexivity].
  split; [discriminate |].
  intros [H _]. exfalso.
  destruct H as [H | [H | [H | [H | [H | []]]]]]; congruence.
Qed.

Lemma DecrementTTL_floor (m : Message) :
  0 <= TTL m -> 0 <= TTL (DecrementTTL m).
Proof.
  unfold DecrementTTL. destruct (TTL m >? 0) eqn:E; cbn; [| tauto].
  apply gtb_true in E. lia.
Qed.

Lemma Verify_iff (m : Message) :
  Verify m = true <-> Signature m = generateSignature m.
Proof. unfold Verify. apply String.eqb_eq. Qed.

(** ** The gossip buffers *)

Section Buffers.
Context {A : Type}.
Implicit Types (l : list A) (x : A).

Lemma append_capped_length cap l x :
  (length l <= cap)%nat -> (length (append_capped cap l x) <= cap)%nat.
Proof.
  intros H. unfold append_capped.
  destruct (Nat.ltb_spec cap (length (l ++ [x]))) as [Hlt | Hge].
  - destruct l as [| y l']; cbn in *; [lia |].
    rewrite length_app in *. cbn in *. lia.
  - exact Hge.
Qed.

(** At capacity the oldest element leaves and the new one is the
    last: the buffer stays at exactly its capacity. *)
Lemma append_capped_full cap l x :
  (0 < cap)%nat ->
  length l = cap ->
  append_capped cap l x = (tl l ++ [x])%list
  /\ length (append_capped cap l x) = cap.
Proof.
  intros Hpos H. unfold append_capped.
  destruct (Nat.ltb_spec cap (length (l ++ [x]))) as [Hlt | Hge].
  - destruct l as [| y l']; cbn in *; [lia |].
    split; [reflexivity |]. rewrite length_app. cbn. lia.
  - rewrite length_app in Hge. cbn in Hge. lia.
Qed.

Lemma append_capped_below cap l x :
  (length l < cap)%nat -> append_capped cap l x = (l ++ [x])%list.
Proof.
  intros H. unfold append_capped.
  destruct (Nat.ltb_spec cap (length (l ++ [x]))) as [Hlt | Hge];
    [| reflexivity].
  rewrite length_app in Hlt. cbn in Hlt. lia.
Qed.
End Buffers.

Ltac unfold_gossip_setters :=
  unfold with_receivedMemories, with_sharedDreams, with_deathsWitnessed,
    with_randomSource, with_counters, GossipService_SetMood.

Lemma applyMessage_within_caps gs msg :
  within_caps gs -> within_caps (applyMessage gs msg).
Proof.
  intros (Hm & Hd & Hx). unfold applyMessage, within_caps.
  repeat match goal with
         | |- context [if ?b then _ else _] => destruct b
         | |- context [match ?o with Some _ => _ | None => _ end] => destruct o
         | |- context [let (_, _) := ?p in _] => destruct p
         end;
    unfold_gossip_setters; cbn;
    auto using append_capped_length.
Qed.

(** [onMessageReceived] keeps every buffer within its capacity. *)
Lemma onMessageReceived_within_caps ds gs msg :
  within_caps gs -> within_caps (onMessageReceived ds gs msg).1.1.
Proof.
  intros H. apply (applyMessage_within_caps gs msg) in H.
  unfold onMessageReceived.
  destruct (ShouldPropagate msg); cbn; exact H.
Qed.

(** [recordPossibleDeath] appends and evicts nothing. *)
Lemma recordPossibleDeath_length ds clk gs peer :
  length (deathsWitnessed (recordPossibleDeath ds clk gs peer).1)
  = S (length (deathsWitnessed gs)).
Proof.
  unfold recordPossibleDeath. cbn. rewrite length_app. cbn. lia.
Qed.

(** ** Mood contagion *)

(** C10: a mood-update message whose contagious flag is false leaves
    the current mood and the mood intensity of the receiver as they
    are. *)
Theorem mood_update_not_contagious ds gs msg mood :
  Type_ msg = MsgTypeMoodUpdate ->
  DecodePayload_Mood msg = Some mood ->
  IsContagious mood = false ->
  let gs' := (onMessageReceived ds gs msg).1.1 in
  currentMood gs' = currentMood gs
  /\ moodIntensity gs' = moodIntensity gs
  /\ randomSource gs' = randomSource gs.
Proof.
  intros HT HD HC. unfold onMessageReceived, applyMessage.
  rewrite HT, HD, HC. cbn.
  destruct (ShouldPropagate msg); cbn; auto.
Qed.

(** The mood changes only on a mood update that decodes with the
    contagious flag set. *)
Lemma mood_adopted_only_if_contagious ds gs msg :
  let gs' := (onMessageReceived ds gs msg).1.1 in
  (currentMood gs', moodIntensity gs') <> (currentMood gs, moodIntensity gs) ->
  exists mood,
    Type_ msg = MsgTypeMoodUpdate /\ DecodePayload_Mood msg = Some mood
    /\ IsContagious mood = true.
Proof.
  cbn zeta. unfold onMessageReceived, applyMessage.
  destruct (Z.eqb_spec (Type_ msg) MsgTypeMemory) as [E3 | N3].
  { destruct (DecodePayload_Memory msg), (ShouldPropagate msg); cbn; congruence. }
  destruct (Z.eqb_spec (Type_ msg) MsgTypeDream) as [E4 | N4].
  { destruct (DecodePayload_Dream msg),
      (CanShareDreamsWith (gs_identity gs) (From msg)),
      (ShouldPropagate msg); cbn; congruence. }
  destruct (Z.eqb_spec (Type_ msg) MsgTypeMoodUpdate) as [E5 | N5].
  { destruct (DecodePayload_Mood msg) as [mood |].
    - destruct (IsContagious mood) eqn:EC.
      + intros _. exists mood. auto.
      + destruct (ShouldPropagate msg); cbn; congruence.
    - destruct (ShouldPropagate msg); cbn; congruence. }
  destruct (Z.eqb_spec (Type_ msg) MsgTypeDeath) as [E7 | N7].
  { destruct (DecodePayload_Death msg), (ShouldPropagate msg); cbn; congruence. }
  destruct (ShouldPropagate msg); cbn; congruence.
Qed.

Lemma mood_update_not_contagious_witness :
  let gs' := (onMessageReceived (discovery Sample.nibbles)
                (gossip Sample.nibbles) Sample.quiet_mood).1.1 in
  currentMood gs' = "neutral" /\ moodIntensity gs' = 50.
Proof.
  destruct (mood_update_not_contagious (discovery Sample.nibbles)
              (gossip Sample.nibbles) Sample.quiet_mood
              (mkMoodPayload "melancholy" 12 false))
    as (Hm & Hi & _); [reflexivity | vm_compute; reflexivity | reflexivity |].
  cbn zeta. rewrite Hm, Hi. split; reflexivity.
Defined.

(** ** The integrity tag on the receive path *)

Lemma SendMessage_retag ds sig msg :
  SendMessage ds (with_Signature sig msg) = map (retag sig) (SendMessage ds msg).
Proof.
  unfold SendMessage.
  change (Encode_ok (with_Signature sig msg)) with (Encode_ok msg).
  destruct (Encode_ok msg); [| reflexivity].
  induction (GetPeers ds) as [| p l IH]; [reflexivity |].
  cbn [flat_map]. rewrite map_app, IH. f_equal.
  destruct (Address p), (IsOnline p); reflexivity.
Qed.

(** C1 (as the code has it): the receive path does not look at the
    integrity tag.  [Verify] compares the tag with the recomputed one,
    but [onMessageReceived] gives the same state whatever the tag is,
    and relays the message under the same condition, with the tag it
    came with. *)
Theorem onMessageReceived_ignores_tag ds gs msg sig :
  (Verify msg = true <-> Signature msg = generateSignature msg)
  /\ (onMessageReceived ds gs (with_Signature sig msg)).1.1
     = (onMessageReceived ds gs msg).1.1
  /\ (onMessageReceived ds gs (with_Signature sig msg)).1.2
     = with_Signature sig (onMessageReceived ds gs msg).1.2
  /\ (onMessageReceived ds gs (with_Signature sig msg)).2
     = map (retag sig) (onMessageReceived ds gs msg).2.
Proof.
  split; [apply Verify_iff |].
  assert (HA : applyMessage gs (with_Signature sig msg) = applyMessage gs msg)
    by reflexivity.
  assert (HS : ShouldPropagate (with_Signature sig msg) = ShouldPropagate msg)
    by reflexivity.
  assert (HD : DecrementTTL (with_Signature sig msg)
               = with_Signature sig (DecrementTTL msg)).
  { unfold DecrementTTL. cbn. destruct (TTL msg >? 0); reflexivity. }
  unfold onMessageReceived. rewrite HA, HS, HD.
  destruct (ShouldPropagate msg); cbn; [| auto].
  rewrite SendMessage_retag. auto.
Qed.

(** C1 (as stated) fails: a memory message whose tag does not verify is
    appended to the memories and written on to the peer. *)
Lemma tampered_message_applied_and_relayed :
  Verify Sample.tampered = false
  /\ receivedMemories
       (onMessageReceived (discovery Sample.met) (gossip Sample.met)
                          Sample.tampered).1.1
     = [Sample.memory]
  /\ (onMessageReceived (discovery Sample.met) (gossip Sample.met)
                        Sample.tampered).2
     = [EvWrite Sample.addr (with_TTL 4 Sample.tampered)].
Proof. vm_compute. repeat split; reflexivity. Qed.

(** The same through the whole receive path, from the datagram on. *)
Lemma tampered_message_delivered :
  receivedMemories
    (gossip (deliver (Sample.clock 1705315101) Sample.tampered Sample.addr
                     Sample.met).1)
  = [Sample.memory].
Proof. vm_compute. reflexivity. Qed.

(** ** The capacity of the buffer of deaths *)

Lemma onPeerLost_appends ds clk gs peer :
  IsAlive (Identity peer) = true ->
  Qltb (rnd_float (randomSource gs) (rnd_pos (randomSource gs))) (1 # 10)
  = true ->
  let gs' := (onPeerLost ds clk gs peer).1 in
  length (deathsWitnessed gs') = S (length (deathsWitnessed gs))
  /\ receivedMemories gs' = receivedMemories gs
  /\ sharedDreams gs' = sharedDreams gs
  /\ rnd_float (randomSource gs') = rnd_float (randomSource gs).
Proof.
  intros HA HQ. cbn zeta. unfold onPeerLost, Float32. rewrite HA, HQ.
  rewrite recordPossibleDeath_length. unfold recordPossibleDeath. cbn.
  auto.
Qed.

Lemma lost_peers_accumulate ds clk peer (k : nat) gs :
  IsAlive (Identity peer) = true ->
  (forall i, Qltb (rnd_float (randomSource gs) i) (1 # 10) = true) ->
  let gs' := fold_left (gossip_step ds) (repeat (GPeerLost clk peer) k) gs in
  length (deathsWitnessed gs') = (k + length (deathsWitnessed gs))%nat
  /\ receivedMemories gs' = receivedMemories gs
  /\ sharedDreams gs' = sharedDreams gs
  /\ rnd_float (randomSource gs') = rnd_float (randomSource gs).
Proof.
  intros HA. revert gs. induction k as [| k IH]; intros gs HQ; cbn zeta.
  - cbn. auto.
  - cbn [repeat fold_left gossip_step].
    destruct (onPeerLost_appends ds clk gs peer HA (HQ _))
      as (H1 & H2 & H3 & H4).
    destruct (IH (onPeerLost ds clk gs peer).1) as (I1 & I2 & I3 & I4).
    { intros i. rewrite H4. apply HQ. }
    rewrite I1, I2, I3, I4, H1, H2, H3, H4. repeat split; lia.
Qed.

(** C3 fails on the code: [recordPossibleDeath] appends to the deaths
    witnessed without the eviction that [onMessageReceived] has.  A
    fresh gossip service that loses a living peer 101 times, the draw
    below 0.1 each time, holds 101 deaths. *)
Theorem deathsWitnessed_exceeds_capacity :
  let gs :=
    fold_left (gossip_step (discovery Sample.met))
      (repeat (GPeerLost (Sample.clock 1705315300) Sample.fluffy_peer) 101)
      (gossip Sample.nibbles) in
  length (deathsWitnessed gs) = 101%nat
  /\ (length (receivedMemories gs) <= 50)%nat
  /\ (length (sharedDreams gs) <= 20)%nat.
Proof.
  cbn zeta.
  pose proof (lost_peers_accumulate (discovery Sample.met)
                (Sample.clock 1705315300) Sample.fluffy_peer 101
                (gossip Sample.nibbles) eq_refl
                (fun _ => eq_refl)) as (H1 & H2 & H3 & _).
  rewrite H1, H2, H3. cbn. repeat split; lia.
Qed.

(** ** Import of a blob that does not decode *)

Lemma ImportState_failed data n :
  StateCodec.Unmarshal data = None -> ImportState data n = (n, false).
Proof. intros H. unfold ImportState. rewrite H. reflexivity. Qed.

(** C8: when the bytes do not decode as a persisted network state,
    [ImportState] returns an error and a freshly constructed facade
    still has the empty state: no friend, all counters zero. *)
Theorem ImportState_failed_fresh seed petName birthTime stage isAlive data :
  StateCodec.Unmarshal data = None ->
  let fresh := NewNetwork seed petName birthTime stage isAlive in
  let r := ImportState data fresh in
  r.2 = false
  /\ state r.1 = zeroNetworkState
  /\ Friends (state r.1) = []
  /\ GetFriendCount r.1 = 0
  /\ MemoriesShared (state r.1) = 0
  /\ DeathsWitnessed (state r.1) = 0
  /\ GetInfluence r.1 = 0.
Proof.
  intros H. cbn zeta. rewrite (ImportState_failed _ _ H). cbn.
  repeat split; reflexivity.
Qed.

Lemma ImportState_failed_fresh_witness :
  let r := ImportState "{friends" Sample.nibbles in
  r.2 = false /\ state r.1 = zeroNetworkState.
Proof.
  destruct (ImportState_failed_fresh Sample.seed "Nibbles"
              (Unix 1705314600 0) "Baby" true "{friends")
    as (H1 & H2 & _); [vm_compute; reflexivity |].
  split; [exact H1 | exact H2].
Defined.

(** ** Lonely mode *)

Lemma Start_lonely env clk n :
  isLonely n = true -> Start env clk n = (n, []).
Proof. intros H. unfold Start. rewrite H. reflexivity. Qed.

Lemma Stop_flags clk n :
  enabled (Stop clk n).1 = false /\ isLonely (Stop clk n).1 = isLonely n.
Proof.
  unfold Stop. destruct (enabled n) eqn:E; cbn.
  - destruct (DiscoveryService_Stop clk (discovery n)). cbn. auto.
  - auto.
Qed.

Lemma UpdateState_flags clk n :
  enabled (UpdateState clk n) = enabled n
  /\ isLonely (UpdateState clk n) = isLonely n.
Proof.
  unfold UpdateState, UpdateState_on.
  destruct (enabled n) eqn:E; cbn; [| auto].
  destruct (friendMap_of (Friends (state n))) as [fm cells].
  destruct (mergePeers _ _ _ _ _) as [c fr]. cbn. auto.
Qed.

Lemma SetLonelyMode_flags clk lonely n :
  isLonely (SetLonelyMode clk lonely n).1 = lonely
  /\ (lonely = true -> enabled (SetLonelyMode clk lonely n).1 = false).
Proof.
  unfold SetLonelyMode. cbn [enabled isLonely].
  destruct lonely; cbn [andb].
  - destruct (enabled n) eqn:E.
    + pose proof (Stop_flags clk
                    (mkNetwork (n_identity n) (discovery n) (gossip n)
                               (state n) (enabled n) true)) as [H1 H2].
      rewrite E in *. split; [exact H2 | intros _; exact H1].
    + cbn. auto.
  - cbn. split; [reflexivity | discriminate].
Qed.

Lemma step_lonely_inv n op : lonely_inv n -> lonely_inv (step n op).1.
Proof.
  unfold lonely_inv. intros Hinv.
  destruct op as [env clk | clk | clk lonely | clk | clk | data | mood k
                 | clk pn age lw | clk msg a | clk | clk]; cbn [step].
  - unfold Start. destruct (isLonely n) eqn:EL;
      [intros _; cbn; apply Hinv; reflexivity |].
    destruct (DiscoveryService_Start env clk (discovery n)) as [[ds evs] []];
      cbn; intros HL; congruence.
  - intros _. apply Stop_flags.
  - intros HL. destruct (SetLonelyMode_flags clk lonely n) as [H1 H2].
    apply H2. rewrite <- H1. exact HL.
  - cbn. destruct (UpdateState_flags clk n) as [-> ->]. exact Hinv.
  - cbn. unfold ExportState. cbn.
    destruct (UpdateState_flags clk n) as [-> ->]. exact Hinv.
  - cbn. unfold ImportState. destruct (StateCodec.Unmarshal data); exact Hinv.
  - exact Hinv.
  - exact Hinv.
  - destruct (running (discovery n)); [| exact Hinv].
    unfold deliver.
    destruct (listenStep clk (discovery n) msg a) as [[ds evs] cbs].
    destruct (runCallbacks ds clk (gossip n) cbs). exact Hinv.
  - destruct (running (discovery n)); [| exact Hinv].
    unfold sweep. destruct (cleanupPeers clk (discovery n)) as [ds cbs].
    destruct (runCallbacks ds clk (gossip n) cbs). exact Hinv.
  - destruct (callbacks (discovery n)); [| exact Hinv].
    unfold tick. destruct (gossipTick (discovery n) clk (gossip n)).
    exact Hinv.
Qed.

Lemma run_from n evs ops :
  fold_left
    (fun (acc : Network * list Event) (op : Op) =>
       let (n1, evs) := acc in
       let (n2, evs') := step n1 op in (n2, (evs ++ evs')%list))
    ops (n, evs)
  = ((run n ops).1, (evs ++ (run n ops).2)%list).
Proof.
  unfold run. revert n evs.
  induction ops as [| op ops IH]; intros n evs; cbn [fold_left].
  - cbn. rewrite app_nil_r. reflexivity.
  - destruct (step n op) as [n2 evs2]. rewrite (IH n2 (evs ++ evs2)%list).
    cbn [app]. rewrite (IH n2 evs2). cbn. rewrite app_assoc. reflexivity.
Qed.

Lemma run_snoc n ops op :
  (run n (ops ++ [op])).1 = (step (run n ops).1 op).1.
Proof.
  unfold run. rewrite fold_left_app. cbn [fold_left].
  destruct (fold_left _ ops (n, [])) as [n1 evs]. cbn.
  destruct (step n1 op). reflexivity.
Qed.

Lemma run_lonely_inv n ops : lonely_inv n -> lonely_inv (run n ops).1.
Proof.
  intros H. induction ops as [| op ops IH] using rev_ind; [exact H |].
  rewrite run_snoc. apply step_lonely_inv, IH.
Qed.

Lemma run_starts_lonely n (starts : list (NetEnv * Clock)) :
  isLonely n = true ->
  run n (map (fun ec => OpStart ec.1 ec.2) starts) = (n, []).
Proof.
  intros H. induction starts as [| [env clk] starts IH]; [reflexivity |].
  unfold run. cbn [map fold_left step fst snd].
  rewrite (Start_lonely env clk n H). cbn [app].
  exact IH.
Qed.

(** C9: in every state that the facade reaches with the lonely flag
    set, it is not enabled, and calls of [Start], however many, leave
    it as it is and do nothing on the network: no socket is opened. *)
Theorem lonely_start_is_noop seed petName birthTime stage isAlive
    (ops : list Op) (starts : list (NetEnv * Clock)) :
  let n := (run (NewNetwork seed petName birthTime stage isAlive) ops).1 in
  isLonely n = true ->
  enabled n = false
  /\ run n (map (fun ec => OpStart ec.1 ec.2) starts) = (n, []).
Proof.
  intros n H. split.
  - apply (run_lonely_inv (NewNetwork seed petName birthTime stage isAlive)
             ops); [| exact H].
    unfold lonely_inv. reflexivity.
  - apply run_starts_lonely, H.
Qed.

Lemma lonely_start_is_noop_witness :
  let n := (run Sample.nibbles
              [ OpStart Sample.env (Sample.clock 1705315000);
                OpSetLonelyMode (Sample.clock 1705315050) true ]).1 in
  enabled n = false
  /\ run n [ OpStart Sample.env (Sample.clock 1705315060);
             OpStart Sample.env (Sample.clock 1705315070) ] = (n, []).
Proof.
  exact (lonely_start_is_noop Sample.seed "Nibbles" (Unix 1705314600 0)
           "Baby" true
           [ OpStart Sample.env (Sample.clock 1705315000);
             OpSetLonelyMode (Sample.clock 1705315050) true ]
           [ (Sample.env, Sample.clock 1705315060);
             (Sample.env, Sample.clock 1705315070) ]
           eq_refl).
Defined.

(** ** The state merge *)

Lemma friendMap_of_from (friends : list FriendRecord)
    (fm : gmap string nat) (cells : list FriendRecord) (k : string) :
  is_Some ((fold_left
              (fun (acc : gmap string nat * list FriendRecord)
                   (f : FriendRecord) =>
                 let (friendMap, cells) := acc in
                 (<[Friend_PetID f := length cells]> friendMap,
                  (cells ++ [f])%list))
              friends (fm, cells)).1 !! k)
  <-> is_Some (fm !! k) \/ In k (map Friend_PetID friends).
Proof.
  revert fm cells. induction friends as [| f friends IH]; intros fm cells.
  - cbn. tauto.
  - cbn [fold_left map In]. rewrite IH.
    destruct (decide (Friend_PetID f = k)) as [-> | Hne].
    + rewrite lookup_insert_eq. split; [auto | intros _; left; eauto].
    + rewrite lookup_insert_ne by exact Hne. tauto.
Qed.

Lemma friendMap_of_lookup (friends : list FriendRecord) (k : string) :
  match (friendMap_of friends).1 !! k with
  | Some _ => true
  | None => false
  end = in_ledger friends k.
Proof.
  pose proof (friendMap_of_from friends ∅ [] k) as H.
  fold (friendMap_of friends) in H.
  rewrite lookup_empty in H.
  unfold in_ledger.
  destruct (existsb (String.eqb k) (map Friend_PetID friends)) eqn:E.
  - apply existsb_exists in E as (x & Hin & Hx).
    apply String.eqb_eq in Hx. subst x.
    destruct ((friendMap_of friends).1 !! k) eqn:EL; [reflexivity |].
    destruct (proj2 H (or_intror Hin)) as [? ?]. discriminate.
  - destruct ((friendMap_of friends).1 !! k) eqn:EL; [| reflexivity].
    destruct (proj1 H (ltac:(eauto))) as [[? ?] | Hin]; [discriminate |].
    assert (existsb (String.eqb k) (map Friend_PetID friends) = true).
    { apply existsb_exists. exists k. split; [exact Hin | apply String.eqb_refl]. }
    congruence.
Qed.

(** What the second loop leaves in the ledger: the records that were
    there, as they were, and after them one new record for each peer
    that the map does not know.  The writes for the known peers go to
    the cells. *)
Lemma mergePeers_ledger self (fm : gmap string nat) (peers : list Peer)
    (cells friends : list FriendRecord) :
  (mergePeers self fm cells friends peers).2
  = (friends
     ++ map (newFriend self)
          (List.filter
             (fun p => match fm !! PetID (Identity p) with
                       | Some _ => false
                       | None => true
                       end) peers))%list.
Proof.
  unfold mergePeers. revert cells friends.
  induction peers as [| p peers IH]; intros cells friends.
  - cbn. rewrite app_nil_r. reflexivity.
  - cbn [fold_left List.filter].
    destruct (fm !! PetID (Identity p)) as [a |].
    + apply IH.
    + rewrite IH. cbn [map]. rewrite <- app_assoc. reflexivity.
Qed.

(** The ledger after [UpdateState]: every old record unchanged, and a
    new record for each peer of the snapshot without one. *)
Lemma UpdateState_on_ledger peers clk n :
  enabled n = true ->
  Friends (state (UpdateState_on peers clk n))
  = (Friends (state n)
     ++ map (newFriend (n_identity n))
          (List.filter
             (fun p => negb (in_ledger (Friends (state n))
                                       (PetID (Identity p)))) peers))%list.
Proof.
  intros HE. unfold UpdateState_on. rewrite HE. cbn [negb].
  pose proof (friendMap_of_lookup (Friends (state n))) as HL.
  destruct (friendMap_of (Friends (state n))) as [fm cells] eqn:EF.
  cbn [fst] in HL.
  pose proof (mergePeers_ledger (n_identity n) fm peers cells
                (Friends (state n))) as HM.
  destruct (mergePeers (n_identity n) fm cells (Friends (state n)) peers)
    as [cells' friends'].
  cbn [snd] in HM. cbn. rewrite HM. f_equal. f_equal.
  apply filter_ext. intros p. rewrite <- HL.
  destruct (fm !! PetID (Identity p)); reflexivity.
Qed.

(** C2 fails on the code: the facade meets a peer, merges (a record
    with one visit is appended), hears from the peer again and merges
    again.  The peer table has the later last-seen time; the record of
    the ledger still has the earlier one and one visit. *)
Theorem UpdateState_leaves_known_friend_unchanged :
  let n :=
    (run Sample.met
       [ OpUpdateState (Sample.clock 1705315020);
         OpDeliver (Sample.clock 1705315040)
                   (Sample.announce (Unix 1705315039 0)) Sample.addr;
         OpUpdateState (Sample.clock 1705315050) ]).1 in
  map LastSeen (GetPeers (discovery n)) = [Unix 1705315040 0]
  /\ Friends (state n)
     = [ mkFriendRecord (PetID Sample.fluffy) "Fluffy" (Unix 1705315010 0)
                        (Unix 1705315011 0) 1 false false ].
Proof. vm_compute. split; reflexivity. Qed.

(** ** Identity *)

(** *** Decimal texts *)

Lemma string_of_uint_digits (d : Decimal.uint) :
  all_chars JSON.is_digit (NilEmpty.string_of_uint d) = true.
Proof. induction d; cbn; auto. Qed.

Lemma fmt_d_chars (z : Z) :
  all_chars (fun c => JSON.is_digit c || JSON.isb c 45) (fmt_d z) = true.
Proof.
  assert (HU : forall d,
             all_chars (fun c => JSON.is_digit c || JSON.isb c 45)
                       (NilZero.string_of_uint d) = true).
  { intros d. unfold NilZero.string_of_uint.
    assert (HE : all_chars (fun c => JSON.is_digit c || JSON.isb c 45)
                           (NilEmpty.string_of_uint d) = true).
    { induction d; cbn; auto. }
    destruct d; auto. }
  unfold fmt_d, NilZero.string_of_int.
  destruct (Z.to_int z); [apply HU |].
  cbn [all_chars]. rewrite HU. reflexivity.
Qed.

Lemma to_int_proper (z : Z) :
  Z.to_int z <> Decimal.Pos Decimal.Nil /\ Z.to_int z <> Decimal.Neg Decimal.Nil.
Proof.
  destruct z as [| p | p]; cbn; split; try discriminate;
    intros [= H]; exact (DecimalPos.Unsigned.to_uint_nonnil p H).
Qed.

Lemma int_of_fmt_d (z : Z) :
  NilZero.int_of_string (fmt_d z) = Some (Z.to_int z).
Proof.
  unfold fmt_d. destruct (to_int_proper z). apply NilZero.isi; assumption.
Qed.

Lemma fmt_d_inj (z1 z2 : Z) : fmt_d z1 = fmt_d z2 -> z1 = z2.
Proof.
  intros H. apply (f_equal NilZero.int_of_string) in H.
  rewrite !int_of_fmt_d in H. injection H as H.
  apply DecimalZ.to_int_inj, H.
Qed.

Lemma all_chars_app p (a b : string) :
  all_chars p (a +:+ b) = all_chars p a && all_chars p b.
Proof.
  induction a as [| c a IH]; cbn; [reflexivity |].
  rewrite IH. apply andb_assoc.
Qed.

(** A text is cut in one way only at its last colon. *)
Lemma colon_split (a b d1 d2 : string) :
  all_chars (fun c => negb (JSON.isb c 58)) d1 = true ->
  all_chars (fun c => negb (JSON.isb c 58)) d2 = true ->
  a +:+ ":" +:+ d1 = b +:+ ":" +:+ d2 ->
  a = b /\ d1 = d2.
Proof.
  intros H1 H2. revert b.
  induction a as [| c a IH]; intros [| c' b] H; cbn in H.
  - injection H as H. auto.
  - injection H as Hc Hd. subst d1.
    rewrite all_chars_app in H1. cbn in H1.
    rewrite andb_false_r in H1. discriminate.
  - injection H as Hc Hd. subst d2.
    rewrite all_chars_app in H2. cbn in H2.
    rewrite andb_false_r in H2. discriminate.
  - injection H as Hc Hd. subst c'.
    destruct (IH b Hd) as [-> ->]. auto.
Qed.

Lemma all_chars_impl (p q : ascii -> bool) (s : string) :
  (forall c, p c = true -> q c = true) ->
  all_chars p s = true -> all_chars q s = true.
Proof.
  intros Hpq. induction s as [| c s IH]; cbn; [auto |].
  intros [Hc Hs]%andb_prop. rewrite (Hpq c Hc), (IH Hs). reflexivity.
Qed.

Lemma fmt_d_no_colon (z : Z) :
  all_chars (fun c => negb (JSON.isb c 58)) (fmt_d z) = true.
Proof.
  refine (all_chars_impl _ _ _ _ (fmt_d_chars z)).
  intros c. unfold JSON.is_digit, JSON.between, JSON.isb.
  destruct (Z.eqb_spec (JSON.code c) 58) as [-> | _]; [| reflexivity].
  cbn. discriminate.
Qed.

Lemma petID_text_inj n1 n2 t1 t2 :
  petID_text n1 t1 = petID_text n2 t2 ->
  n1 = n2 /\ UnixNano t1 = UnixNano t2.
Proof.
  intros H. unfold petID_text in H.
  apply colon_split in H as [-> H]; auto using fmt_d_no_colon, fmt_d_inj.
Qed.

Lemma GeneratePetID_unfold name t :
  GeneratePetID name t
  = hex_EncodeToString
      (firstn 16 (SHA256.Sum256 (bytes_of_string (petID_text name t)))).
Proof. reflexivity. Qed.

(** The participant ID is a function of the name and of [UnixNano]
    of the creation time: equal name and equal [UnixNano] give equal
    IDs; a different name or a different [UnixNano] gives a different
    text to hash, of which the ID is the first 16 bytes of the SHA-256
    digest. *)
Theorem GeneratePetID_inputs (n1 n2 : string) (t1 t2 : Time) :
  (n1 = n2 -> UnixNano t1 = UnixNano t2 ->
   GeneratePetID n1 t1 = GeneratePetID n2 t2)
  /\ (n1 <> n2 \/ UnixNano t1 <> UnixNano t2 ->
      petID_text n1 t1 <> petID_text n2 t2)
  /\ GeneratePetID n1 t1
     = hex_EncodeToString
         (firstn 16 (SHA256.Sum256 (bytes_of_string (petID_text n1 t1)))).
Proof.
  split; [| split; [| reflexivity]].
  - intros -> H. rewrite !GeneratePetID_unfold. unfold petID_text.
    rewrite H. reflexivity.
  - intros Hne Heq. apply petID_text_inj in Heq as [? ?]. tauto.
Qed.

(** C5: the same name at two different creation times gets the same
    participant ID when the times are 2^64 nanoseconds apart, as
    1970-01-01T00:00:00Z and 2554-07-21T23:34:33.709551616Z are:
    [UnixNano] wraps around in 64 bits, so the same text is hashed.
    The claim, and the comment on [GeneratePetID] in the source, say
    that the same name at different times has different IDs. *)
Lemma GeneratePetID_same_for_different_times :
  (unixSec (Unix 0 0) =? unixSec (Unix 18446744073 709551616)) = false
  /\ GeneratePetID "Nibbles" (Unix 0 0)
     = GeneratePetID "Nibbles" (Unix 18446744073 709551616).
Proof. split; vm_compute; reflexivity. Qed.

(** The IDs of the names and times that the tests of the package use
    do differ. *)
Lemma GeneratePetID_test_cases :
  let birthTime := Unix 1705314600 0 in
  String.eqb (GeneratePetID "Nibbles" birthTime)
             (GeneratePetID "Fluffy" birthTime) = false
  /\ String.eqb (GeneratePetID "Nibbles" birthTime)
                (GeneratePetID "Nibbles" (Unix 1705314601 0)) = false
  /\ String.length (GeneratePetID "Nibbles" birthTime) = 32%nat.
Proof. vm_compute. repeat split; reflexivity. Qed.

(** *** The digest has 32 bytes *)

Lemma zip_add_length (l1 l2 : list Z) :
  length l1 = length l2 -> length (SHA256.zip_add l1 l2) = length l1.
Proof.
  revert l2. induction l1 as [| x l1 IH]; intros [| y l2] H; cbn in *;
    try discriminate; auto.
Qed.

Lemma round_length (s : list Z) (kw : Z * Z) :
  length s = 8%nat -> length (SHA256.round s kw) = 8%nat.
Proof.
  intros H.
  do 8 (destruct s as [| ? s]; [discriminate |]).
  destruct s; [reflexivity | discriminate].
Qed.

Lemma rounds_length (l : list (Z * Z)) (s : list Z) :
  length s = 8%nat -> length (fold_left SHA256.round l s) = 8%nat.
Proof.
  revert s. induction l as [| kw l IH]; intros s H; cbn [fold_left];
    [exact H |].
  apply IH, round_length, H.
Qed.

Lemma compress_length (h block : list Z) :
  length h = 8%nat -> length (SHA256.compress h block) = 8%nat.
Proof.
  intros H. unfold SHA256.compress.
  rewrite zip_add_length; [exact H |].
  rewrite rounds_length; auto.
Qed.

Lemma blocks_length (n : nat) (h msg : list Z) :
  length h = 8%nat -> length (SHA256.blocks n h msg) = 8%nat.
Proof.
  revert h msg. induction n as [| n IH]; intros h msg H; cbn [SHA256.blocks];
    [exact H |].
  apply IH, compress_length, H.
Qed.

Lemma word_bytes_flat (l : list Z) :
  length (flat_map SHA256.word_bytes l) = (4 * length l)%nat
  /\ Forall is_byte (flat_map SHA256.word_bytes l).
Proof.
  induction l as [| w l [IH1 IH2]]; [split; [reflexivity | constructor] |].
  cbn [flat_map]. rewrite length_app, IH1. split; [cbn; lia |].
  apply Forall_app. split; [| exact IH2].
  unfold SHA256.word_bytes, is_byte.
  repeat constructor; apply Z.mod_pos_bound; lia.
Qed.

Lemma Sum256_bytes (msg : list Z) :
  length (SHA256.Sum256 msg) = 32%nat /\ Forall is_byte (SHA256.Sum256 msg).
Proof.
  unfold SHA256.Sum256.
  destruct (word_bytes_flat
              (SHA256.blocks (length (SHA256.pad msg) / 64) SHA256.H0
                             (SHA256.pad msg))) as [H1 H2].
  rewrite blocks_length in H1 by reflexivity. auto.
Qed.

(** *** Truncated digests collide *)

Lemma bytes_val_bound (l : list Z) :
  Forall is_byte l -> 0 <= bytes_val l < 256 ^ Z.of_nat (length l).
Proof.
  induction 1 as [| b l Hb _ IH]; [cbn; lia |].
  cbn [bytes_val length]. rewrite Nat2Z.inj_succ, Z.pow_succ_r by lia.
  unfold is_byte in Hb. lia.
Qed.

Lemma bytes_val_inj (l1 l2 : list Z) :
  length l1 = length l2 -> Forall is_byte l1 -> Forall is_byte l2 ->
  bytes_val l1 = bytes_val l2 -> l1 = l2.
Proof.
  intros Hlen H1. revert l2 Hlen.
  induction H1 as [| b1 l1 Hb1 _ IH]; intros [| b2 l2] Hlen H2 Hv;
    try discriminate; [reflexivity |].
  apply Forall_cons_1 in H2 as [Hb2 H2]. cbn in Hlen, Hv.
  unfold is_byte in *.
  assert (b1 = b2) by lia. subst b2.
  f_equal. apply IH; auto. lia.
Qed.

(** Among the first [256 ^ k + 1] texts of a family, two have digests
    with the same first [k] bytes. *)
Lemma digest_prefix_collides (k : nat) (g : nat -> string) :
  (k <= 32)%nat ->
  exists i j : nat,
    (i < j <= Z.to_nat (256 ^ Z.of_nat k))%nat
    /\ firstn k (SHA256.Sum256 (bytes_of_string (g i)))
       = firstn k (SHA256.Sum256 (bytes_of_string (g j))).
Proof.
  intros Hk.
  set (d := fun i : nat => firstn k (SHA256.Sum256 (bytes_of_string (g i)))).
  assert (Hlen : forall i, length (d i) = k).
  { intros i. unfold d. rewrite length_firstn.
    destruct (Sum256_bytes (bytes_of_string (g i))) as [-> _]. lia. }
  assert (Hby : forall i, Forall is_byte (d i)).
  { intros i. unfold d. apply Forall_take.
    apply (Sum256_bytes (bytes_of_string (g i))). }
  set (N := Z.to_nat (256 ^ Z.of_nat k)).
  destruct (nat_pigeonhole (fun i => Z.to_nat (bytes_val (d i))) (S N) N)
    as (i & j & Hij & Heq).
  - lia.
  - intros i _. pose proof (bytes_val_bound (d i) (Hby i)) as Hb.
    rewrite Hlen in Hb. unfold N. apply Z2Nat.inj_lt; lia.
  - exists i, j. split; [lia |].
    change (d i = d j).
    apply bytes_val_inj; auto.
    + rewrite !Hlen. reflexivity.
    + pose proof (bytes_val_bound (d i) (Hby i)).
      pose proof (bytes_val_bound (d j) (Hby j)).
      apply Z2Nat.inj; lia.
Qed.

Lemma name_of_length (i : nat) : String.length (name_of i) = i.
Proof. induction i; cbn; auto. Qed.

Lemma name_of_inj (i j : nat) : name_of i = name_of j -> i = j.
Proof.
  intros H. apply (f_equal String.length) in H.
  rewrite !name_of_length in H. exact H.
Qed.

(** Among more names than there are values of [k] bytes, two have
    digests with the same first [k] bytes. *)
Lemma truncated_digest_collides (k : nat) (g : string -> string) :
  (k <= 32)%nat ->
  exists i j : nat,
    i <> j
    /\ firstn k (SHA256.Sum256 (bytes_of_string (g (name_of i))))
       = firstn k (SHA256.Sum256 (bytes_of_string (g (name_of j)))).
Proof.
  intros Hk.
  destruct (digest_prefix_collides k (fun i => g (name_of i)) Hk)
    as (i & j & Hij & H).
  exists i, j. split; [lia | exact H].
Qed.

(** Two names have the same ID at a given creation time, for the ID
    has 16 bytes. *)
Lemma GeneratePetID_collision (t : Time) :
  exists n1 n2 : string,
    n1 <> n2 /\ GeneratePetID n1 t = GeneratePetID n2 t.
Proof.
  destruct (truncated_digest_collides 16 (fun s => petID_text s t))
    as (i & j & Hij & H); [lia |].
  exists (name_of i), (name_of j). split.
  - intros Heq. apply Hij, name_of_inj, Heq.
  - rewrite !GeneratePetID_unfold, H. reflexivity.
Qed.

(** *** The fingerprint is the digest's first eight bytes *)






(** ** The text form of JSON values *)

(** *** Strings *)

Section JSONStrings.
Import JSON JSONSpec.

Lemma append_assoc (a b c : string) : (a +:+ b) +:+ c = a +:+ (b +:+ c).
Proof. induction a as [| x a IH]; cbn; [reflexivity | rewrite IH; reflexivity]. Qed.

Lemma append_length (a b : string) :
  String.length (a +:+ b) = (String.length a + String.length b)%nat.
Proof. induction a as [| x a IH]; cbn; [reflexivity | rewrite IH; reflexivity]. Qed.

Lemma chr_code (c : ascii) : chr (code c) = c.
Proof.
  unfold chr, code, ascii_of_byte, byte_of_ascii.
  pose proof (N_ascii_bounded c) as Hb.
  rewrite Z.mod_small by lia.
  rewrite N2Z.id. apply ascii_N_embedding.
Qed.

Lemma isb_true (c : ascii) (n : Z) : isb c n = true -> c = chr n.
Proof.
  unfold isb. intros H%Z.eqb_eq. rewrite <- H. symmetry. apply chr_code.
Qed.

(** An escaped byte reads back as the byte. *)
Lemma unquote_escape (c : ascii) (X : string) :
  (code c <? 128) = true ->
  unquote_body (Copy 0) (escape c +:+ X)
  = prepend (String c "") (unquote_body (Copy 0) X).
Proof.
  intros H.
  destruct c as [[] [] [] [] [] [] [] []]; try discriminate H; reflexivity.
Qed.

Lemma quote_body_low (c : ascii) (r : string) :
  (code c <? 128) = true ->
  quote_body (Copy 0) (String c r) = escape c +:+ quote_body (Copy 0) r.
Proof. intros H. cbn [quote_body]. rewrite H. reflexivity. Qed.

Lemma quote_body_high (c : ascii) (r : string) (k : nat) :
  (code c <? 128) = false -> utf8_width c r = S k -> line_sep c r = None ->
  quote_body (Copy 0) (String c r) = String c (quote_body (Copy (S k)) r).
Proof. intros H W L. cbn [quote_body]. rewrite H, W, L. reflexivity. Qed.

Lemma unquote_body_high (c : ascii) (Y : string) (k : nat) :
  (code c <? 128) = false -> utf8_width c Y = S k ->
  unquote_body (Copy 0) (String c Y)
  = prepend (String c "") (unquote_body (Copy (S k)) Y).
Proof.
  intros H W. apply Z.ltb_ge in H.
  cbn [unquote_body]. unfold isb.
  destruct (Z.eqb_spec (code c) 34); [lia |].
  destruct (Z.eqb_spec (code c) 92); [lia |].
  destruct (Z.ltb_spec (code c) 32); [lia |].
  destruct (Z.ltb_spec (code c) 128); [lia |].
  rewrite W. reflexivity.
Qed.

(** The width is read off the bytes that are copied. *)
Lemma utf8_width_copy (c : ascii) (r Y : string) (k : nat) :
  utf8_width c r = S k ->
  (S k <= String.length r)%nat
  /\ utf8_width c (quote_body (Copy (S k)) r +:+ Y) = S k.
Proof.
  unfold utf8_width.
  destruct ((194 <=? code c) && (code c <=? 223)).
  { destruct r as [| c1 r1]; [discriminate |].
    destruct (cont c1) eqn:E1; [| discriminate].
    intros [= <-]. cbn. rewrite E1. split; [lia | reflexivity]. }
  destruct ((224 <=? code c) && (code c <=? 239)).
  { destruct r as [| c1 [| c2 r2]]; try discriminate.
    destruct (between _ _ c1 && cont c2) eqn:E1; [| discriminate].
    intros [= <-]. cbn. rewrite E1. split; [lia | reflexivity]. }
  destruct ((240 <=? code c) && (code c <=? 244)); [| discriminate].
  destruct r as [| c1 [| c2 [| c3 r3]]]; try discriminate.
  destruct (between _ _ c1 && cont c2 && cont c3) eqn:E1; [| discriminate].
  intros [= <-]. cbn. rewrite E1. split; [lia | reflexivity].
Qed.

Lemma line_sep_inv (c : ascii) (r e : string) :
  line_sep c r = Some e ->
  exists r2,
    c = chr 226
    /\ ((r = String (chr 128) (String (chr 168) r2) /\ e = esc_2028)
        \/ (r = String (chr 128) (String (chr 169) r2) /\ e = esc_2029)).
Proof.
  unfold line_sep. destruct r as [| c1 [| c2 r2]]; try discriminate.
  destruct (isb c 226 && isb c1 128 && isb c2 168) eqn:E1.
  - apply andb_prop in E1 as [[Ha Hb]%andb_prop Hc].
    apply isb_true in Ha, Hb, Hc. subst. intros [= <-]. eauto.
  - destruct (isb c 226 && isb c1 128 && isb c2 169) eqn:E2; [| discriminate].
    apply andb_prop in E2 as [[Ha Hb]%andb_prop Hc].
    apply isb_true in Ha, Hb, Hc. subst. intros [= <-]. eauto.
Qed.

Lemma quote_line_sep (r2 : string) :
  quote_body (Copy 0) (String (chr 226) (String (chr 128) (String (chr 168) r2)))
  = esc_2028 +:+ quote_body (Copy 0) r2
  /\ quote_body (Copy 0)
       (String (chr 226) (String (chr 128) (String (chr 169) r2)))
     = esc_2029 +:+ quote_body (Copy 0) r2.
Proof. split; reflexivity. Qed.

Lemma unquote_line_sep (Y : string) :
  unquote_body (Copy 0) (esc_2028 +:+ Y)
  = prepend (String (chr 226) (String (chr 128) (String (chr 168) "")))
            (unquote_body (Copy 0) Y)
  /\ unquote_body (Copy 0) (esc_2029 +:+ Y)
     = prepend (String (chr 226) (String (chr 128) (String (chr 169) "")))
               (unquote_body (Copy 0) Y).
Proof. split; reflexivity. Qed.

(** A string of valid UTF-8 reads back from its literal. *)
Lemma unquote_quote_body (n : nat) :
  forall (k : nat) (s rest : string),
    (String.length s <= n)%nat -> (k <= String.length s)%nat ->
    utf8_valid k s = true ->
    unquote_body (Copy k) (quote_body (Copy k) s +:+ String dquote rest)
    = Some (s, rest).
Proof.
  induction n as [| n IH]; intros k s rest Hn Hk Hv.
  { destruct s; [| cbn in Hn; lia]. cbn in Hk.
    assert (k = 0%nat) as -> by lia. reflexivity. }
  destruct s as [| c r].
  { cbn in Hk. assert (k = 0%nat) as -> by lia. reflexivity. }
  cbn [String.length] in Hn, Hk.
  destruct k as [| k].
  - cbn [utf8_valid] in Hv.
    destruct (code c <? 128) eqn:E.
    + rewrite (quote_body_low c r E), append_assoc, (unquote_escape c _ E).
      rewrite (IH 0%nat r rest) by (lia || assumption). reflexivity.
    + destruct (utf8_width c r) as [| k] eqn:W; [discriminate |].
      destruct (line_sep c r) as [e |] eqn:L.
      * apply line_sep_inv in L as (r2 & -> & [[-> ->] | [-> ->]]).
        -- rewrite (proj1 (quote_line_sep r2)), append_assoc.
           rewrite (proj1 (unquote_line_sep _)).
           cbn [String.length] in Hn.
           rewrite (IH 0%nat r2 rest); [reflexivity | lia | lia |].
           revert W Hv. vm_compute utf8_width. intros [= <-]. cbn. auto.
        -- rewrite (proj2 (quote_line_sep r2)), append_assoc.
           rewrite (proj2 (unquote_line_sep _)).
           cbn [String.length] in Hn.
           rewrite (IH 0%nat r2 rest); [reflexivity | lia | lia |].
           revert W Hv. vm_compute utf8_width. intros [= <-]. cbn. auto.
      * destruct (utf8_width_copy c r (String dquote rest) k W) as [Hlen W'].
        rewrite (quote_body_high c r k E W L). cbn [String.append].
        rewrite (unquote_body_high c _ k E W').
        rewrite (IH (S k) r rest); [reflexivity | lia | lia | exact Hv].
  - cbn [utf8_valid] in Hv. cbn [quote_body String.append unquote_body].
    rewrite (IH k r rest); [reflexivity | lia | lia | exact Hv].
Qed.

Lemma unquote_quote (s rest : string) :
  utf8_valid 0 s = true ->
  exists body,
    quote s +:+ rest = String dquote body
    /\ unquote_body (Copy 0) body = Some (s, rest).
Proof.
  intros Hv. unfold quote. cbn [String.append].
  eexists. split; [reflexivity |].
  rewrite append_assoc. cbn [String.append].
  apply (unquote_quote_body (String.length s)); auto. lia.
Qed.

(** Plain text is valid UTF-8. *)
Lemma ascii_utf8_valid (s : string) :
  all_chars (fun c => code c <? 128) s = true -> utf8_valid 0 s = true.
Proof.
  induction s as [| c s IH]; cbn; [reflexivity |].
  intros [Hc Hs]%andb_prop. rewrite Hc. auto.
Qed.

End JSONStrings.

(** *** Numbers *)

Section JSONNumbers.
Import JSON JSONSpec.

Lemma append_nil_r (s : string) : s +:+ "" = s.
Proof. induction s as [| c s IH]; cbn; [reflexivity | rewrite IH; reflexivity]. Qed.

Lemma span_all (p : ascii -> bool) (s rest : string) :
  all_chars p s = true -> stops p rest = true ->
  span p (s +:+ rest) = (s, rest).
Proof.
  intros Hs Hr. induction s as [| c s IH]; cbn [String.append all_chars] in *.
  - destruct rest as [| c r]; [reflexivity |].
    cbn [stops] in Hr. apply negb_true_iff in Hr.
    cbn [span]. rewrite Hr. reflexivity.
  - apply andb_prop in Hs as [Hc Hs].
    cbn [span]. rewrite Hc, (IH Hs). reflexivity.
Qed.

Lemma span_all_nil (p : ascii -> bool) (s : string) :
  all_chars p s = true -> span p s = (s, "").
Proof.
  intros H. rewrite <- (append_nil_r s) at 1. apply span_all; auto.
Qed.

Lemma nzhead_not_D0 (d x : Decimal.uint) : Decimal.nzhead d <> Decimal.D0 x.
Proof. induction d; cbn; try discriminate; assumption. Qed.

Lemma to_uint_normal (p : positive) :
  Decimal.unorm (Pos.to_uint p) = Pos.to_uint p.
Proof.
  rewrite <- (DecimalPos.Unsigned.to_of (Pos.to_uint p)).
  rewrite DecimalPos.Unsigned.of_to. reflexivity.
Qed.

Lemma to_uint_head (p : positive) :
  match Pos.to_uint p with
  | Decimal.Nil | Decimal.D0 _ => False
  | _ => True
  end.
Proof.
  pose proof (to_uint_normal p) as Hn.
  pose proof (DecimalPos.Unsigned.to_uint_nonnil p) as Hnil.
  destruct (Pos.to_uint p) as [| d | d | d | d | d | d | d | d | d | d] eqn:Ep;
    try exact I; [congruence |].
  unfold Decimal.unorm in Hn. cbn [Decimal.nzhead] in Hn.
  destruct (Decimal.nzhead d) eqn:E; try (rewrite <- E in Hn;
    exact (nzhead_not_D0 d d Hn)).
  injection Hn as Hd. subst d.
  exact (DecimalPos.Unsigned.to_uint_nonzero p Ep).
Qed.

Lemma valid_number_digits (c : ascii) (r : string) :
  is_digit c = true -> isb c 48 = false -> all_chars is_digit r = true ->
  valid_number (String c r) = true
  /\ valid_number (String "-" (String c r)) = true.
Proof.
  intros Hd H0 Hr.
  assert (H45 : isb c 45 = false).
  { unfold is_digit, between, isb in *. apply andb_prop in Hd as [H1 _].
    apply Z.leb_le in H1. apply Z.eqb_neq. lia. }
  unfold valid_number. change (isb "-" 45) with true. cbv iota beta.
  rewrite H45, H0, Hd. rewrite (span_all_nil _ _ Hr). split; reflexivity.
Qed.

(** The digits of a positive number make a number of the grammar. *)
Lemma digits_valid (d : Decimal.uint) :
  match d with
  | Decimal.Nil | Decimal.D0 _ => False
  | _ => True
  end ->
  valid_number (NilEmpty.string_of_uint d) = true
  /\ valid_number (String "-" (NilEmpty.string_of_uint d)) = true.
Proof.
  destruct d as [| d | d | d | d | d | d | d | d | d | d]; try tauto; intros _;
    cbn [NilEmpty.string_of_uint];
    (apply valid_number_digits;
     [reflexivity | reflexivity | apply string_of_uint_digits]).
Qed.

Lemma valid_number_fmt_d (z : Z) : valid_number (fmt_d z) = true.
Proof.
  unfold fmt_d. destruct z as [| p | p]; [reflexivity | |];
    cbn [Z.to_int NilZero.string_of_int];
    pose proof (to_uint_head p) as Hh;
    pose proof (digits_valid _ Hh) as [H1 H2];
    unfold NilZero.string_of_uint;
    destruct (Pos.to_uint p); first [contradiction | assumption].
Qed.

Lemma int_of_lit_fmt_d (z : Z) :
  in_int64 z = true -> int_of_lit (fmt_d z) = Some z.
Proof.
  intros H. unfold int_of_lit. rewrite int_of_fmt_d, DecimalZ.of_to, H.
  reflexivity.
Qed.

Lemma num_char_fmt_d (z : Z) : all_chars num_char (fmt_d z) = true.
Proof.
  refine (all_chars_impl _ _ _ _ (fmt_d_chars z)).
  intros c H. unfold num_char. rewrite H. reflexivity.
Qed.

(** The first character of the text of a number. *)
Lemma fmt_d_head (z : Z) :
  exists c r, fmt_d z = String c r /\ (isb c 45 || is_digit c) = true
              /\ is_ws c = false
              /\ isb c 123 = false /\ isb c 91 = false /\ isb c 34 = false
              /\ isb c 116 = false /\ isb c 102 = false /\ isb c 110 = false.
Proof.
  pose proof (fmt_d_chars z) as H. pose proof (valid_number_fmt_d z) as Hv.
  destruct (fmt_d z) as [| c r]; [discriminate |].
  exists c, r. cbn in H. apply andb_prop in H as [H _].
  split; [reflexivity |].
  unfold is_ws, is_digit, between, isb in *.
  destruct (Z.eqb_spec (code c) 45) as [-> | Hne]; [cbn; tauto |].
  rewrite orb_false_r in H. apply andb_prop in H as [H1 H2].
  apply Z.leb_le in H1, H2. cbn [orb].
  rewrite (proj2 (Z.leb_le _ _) H1), (proj2 (Z.leb_le _ _) H2).
  repeat split; try reflexivity;
    repeat match goal with
           | |- context [?a =? ?b] =>
               destruct (Z.eqb_spec a b); [lia |]
           end; reflexivity.
Qed.

End JSONNumbers.

(** *** Values *)

Section JSONValues.
Import JSON JSONSpec.

Lemma render_Arr (l : list value) :
  render (Arr l) = "[" +:+ render_elems l +:+ "]".
Proof. reflexivity. Qed.

Lemma render_Obj (m : list (string * value)) :
  render (Obj m) = "{" +:+ render_members m +:+ "}".
Proof. reflexivity. Qed.

Lemma size_Arr (l : list value) : size (Arr l) = S (size_elems l).
Proof. reflexivity. Qed.

Lemma size_Obj (m : list (string * value)) : size (Obj m) = S (size_members m).
Proof. reflexivity. Qed.

Lemma skip_ws_cons (c : ascii) (r : string) :
  is_ws c = false -> skip_ws (String c r) = String c r.
Proof. intros H. cbn [skip_ws]. rewrite H. reflexivity. Qed.

Lemma valid_number_head (c : ascii) (r : string) :
  valid_number (String c r) = true -> (isb c 45 || is_digit c) = true.
Proof.
  unfold valid_number. destruct (isb c 45); [reflexivity |].
  cbn [orb]. destruct (isb c 48) eqn:E0.
  - intros _. unfold isb in E0. apply Z.eqb_eq in E0.
    unfold is_digit, between. rewrite E0. reflexivity.
  - destruct (is_digit c); [reflexivity | discriminate].
Qed.

(** What it is to begin with a minus sign or a digit. *)
Lemma number_head (c : ascii) :
  (isb c 45 || is_digit c) = true ->
  is_ws c = false /\ isb c 93 = false /\ isb c 125 = false
  /\ isb c 123 = false /\ isb c 91 = false /\ isb c 34 = false
  /\ isb c 116 = false /\ isb c 102 = false /\ isb c 110 = false.
Proof.
  intros H.
  assert (Hc : code c = 45 \/ 48 <= code c <= 57).
  { apply orb_prop in H as [H | H].
    - left. apply Z.eqb_eq, H.
    - right. unfold is_digit, between in H.
      apply andb_prop in H as [H1 H2]. apply Z.leb_le in H1, H2. lia. }
  unfold is_ws, isb.
  repeat split;
    repeat match goal with
           | |- context [?a =? ?b] => destruct (Z.eqb_spec a b); [lia |]
           end; reflexivity.
Qed.

Lemma parse_value_num (f : nat) (lit rest : string) :
  valid_number lit = true -> all_chars num_char lit = true ->
  stops num_char rest = true ->
  parse_value (S f) (lit +:+ rest) = Some (Num lit, rest).
Proof.
  intros Hv Hc Hr.
  destruct lit as [| c r]; [discriminate |].
  pose proof (valid_number_head c r Hv) as Hh.
  destruct (number_head c Hh) as (W & _ & _ & H1 & H2 & H3 & H4 & H5 & H6).
  pose proof (span_all num_char (String c r) rest Hc Hr) as Hs.
  cbn [String.append] in *. cbn [parse_value].
  rewrite (skip_ws_cons c _ W), H1, H2, H3, H4, H5, H6, Hh, Hs, Hv.
  reflexivity.
Qed.

Lemma parse_value_str (f : nat) (body s r : string) :
  unquote_body (Copy 0) body = Some (s, r) ->
  parse_value (S f) (String dquote body) = Some (Str s, r).
Proof.
  intros H. cbn [parse_value].
  change (skip_ws (String dquote body)) with (String dquote body).
  change (isb dquote 123) with false. change (isb dquote 91) with false.
  change (isb dquote 34) with true. cbv iota. rewrite H. reflexivity.
Qed.

Lemma parse_value_arr (f : nat) (c1 : ascii) (r1 : string)
    (l : list value) (r2 : string) :
  is_ws c1 = false -> isb c1 93 = false ->
  parse_elems f (String c1 r1) = Some (l, r2) ->
  parse_value (S f) (String "[" (String c1 r1)) = Some (Arr l, r2).
Proof.
  intros W H93 H. cbn [parse_value].
  change (skip_ws (String "[" (String c1 r1)))
    with (String "[" (String c1 r1)).
  change (isb "[" 123) with false. change (isb "[" 91) with true.
  cbv iota. rewrite (skip_ws_cons c1 r1 W), H93, H. reflexivity.
Qed.

Lemma parse_value_obj (f : nat) (c1 : ascii) (r1 : string)
    (m : list (string * value)) (r2 : string) :
  is_ws c1 = false -> isb c1 125 = false ->
  parse_members f (String c1 r1) = Some (m, r2) ->
  parse_value (S f) (String "{" (String c1 r1)) = Some (Obj m, r2).
Proof.
  intros W H125 H. cbn [parse_value].
  change (skip_ws (String "{" (String c1 r1)))
    with (String "{" (String c1 r1)).
  change (isb "{" 123) with true.
  cbv iota. rewrite (skip_ws_cons c1 r1 W), H125, H. reflexivity.
Qed.

Lemma parse_elems_last (f : nat) (s : string) (v : value) (r : string) :
  parse_value f s = Some (v, String "]" r) ->
  parse_elems (S f) s = Some ([v], r).
Proof. intros H. cbn [parse_elems]. rewrite H. reflexivity. Qed.

Lemma parse_elems_more (f : nat) (s : string) (v : value) (r1 : string)
    (l : list value) (r2 : string) :
  parse_value f s = Some (v, String "," r1) ->
  parse_elems f r1 = Some (l, r2) ->
  parse_elems (S f) s = Some (v :: l, r2).
Proof.
  intros H1 H2. cbn [parse_elems]. rewrite H1.
  change (skip_ws (String "," r1)) with (String "," r1).
  change (isb "," 44) with true. cbv iota. rewrite H2. reflexivity.
Qed.

Lemma parse_members_last (f : nat) (body k r2 : string) (v : value)
    (r : string) :
  unquote_body (Copy 0) body = Some (k, String ":" r2) ->
  parse_value f r2 = Some (v, String "}" r) ->
  parse_members (S f) (String dquote body) = Some ([(k, v)], r).
Proof.
  intros H1 H2. cbn [parse_members].
  change (skip_ws (String dquote body)) with (String dquote body).
  change (isb dquote 34) with true. cbv iota. rewrite H1.
  change (skip_ws (String ":" r2)) with (String ":" r2).
  change (isb ":" 58) with true. cbv iota. rewrite H2. reflexivity.
Qed.

Lemma parse_members_more (f : nat) (body k r2 : string) (v : value)
    (r4 : string) (m : list (string * value)) (r5 : string) :
  unquote_body (Copy 0) body = Some (k, String ":" r2) ->
  parse_value f r2 = Some (v, String "," r4) ->
  parse_members f r4 = Some (m, r5) ->
  parse_members (S f) (String dquote body) = Some ((k, v) :: m, r5).
Proof.
  intros H1 H2 H3. cbn [parse_members].
  change (skip_ws (String dquote body)) with (String dquote body).
  change (isb dquote 34) with true. cbv iota. rewrite H1.
  change (skip_ws (String ":" r2)) with (String ":" r2).
  change (isb ":" 58) with true. cbv iota. rewrite H2.
  change (skip_ws (String "," r4)) with (String "," r4).
  change (isb "," 44) with true. cbv iota. rewrite H3. reflexivity.
Qed.

(** A rendered value begins with a character that opens a value. *)
Lemma render_head (v : value) :
  wf_value v = true -> exists c r, render v = String c r /\ opens c.
Proof.
  unfold opens. destruct v as [| [] | lit | s | l | m]; intros H.
  - exists "n"%char, "ull". repeat split; reflexivity.
  - exists "t"%char, "rue". repeat split; reflexivity.
  - exists "f"%char, "alse". repeat split; reflexivity.
  - cbn [wf_value] in H. apply andb_prop in H as [Hv _].
    destruct lit as [| c r]; [discriminate |].
    exists c, r. split; [reflexivity |].
    destruct (number_head c (valid_number_head c r Hv)) as (? & ? & ? & _).
    auto.
  - eexists dquote, _. split; [reflexivity |]. repeat split; reflexivity.
  - rewrite render_Arr. eexists "["%char, _. split; [reflexivity |].
    repeat split; reflexivity.
  - rewrite render_Obj. eexists "{"%char, _. split; [reflexivity |].
    repeat split; reflexivity.
Qed.

Lemma parse_render_elems (l : list value) :
  Forall reads_back l -> forallb wf_value l = true -> l <> [] ->
  forall (fuel : nat) (rest : string),
    (size_elems l <= fuel)%nat ->
    parse_elems fuel (render_elems l +:+ String "]" rest) = Some (l, rest).
Proof.
  induction 1 as [| x l Hx Hl IH]; intros Hwf Hne fuel rest Hf;
    [congruence |].
  cbn [forallb] in Hwf. apply andb_prop in Hwf as [Hwx Hwl].
  cbn [size_elems] in Hf.
  destruct fuel as [| f]; [lia |].
  destruct l as [| y l'].
  - cbn [render_elems]. apply parse_elems_last.
    apply Hx; [exact Hwx | lia | reflexivity].
  - change (render_elems (x :: y :: l'))
      with (render x +:+ "," +:+ render_elems (y :: l')).
    rewrite !append_assoc. cbn [String.append].
    eapply parse_elems_more.
    + apply Hx; [exact Hwx | lia | reflexivity].
    + apply IH; [exact Hwl | discriminate | lia].
Qed.

Lemma parse_render_members (m : list (string * value)) :
  Forall (fun kv => reads_back kv.2) m ->
  forallb (fun kv => utf8_valid 0 kv.1 && wf_value kv.2) m = true ->
  m <> [] ->
  forall (fuel : nat) (rest : string),
    (size_members m <= fuel)%nat ->
    parse_members fuel (render_members m +:+ String "}" rest) = Some (m, rest).
Proof.
  induction 1 as [| [k x] m Hx Hm IH]; intros Hwf Hne fuel rest Hf;
    [congruence |].
  cbn [forallb fst snd] in Hwf.
  apply andb_prop in Hwf as [[Hk Hwx]%andb_prop Hwm].
  cbn [size_members snd] in Hf. cbn [snd] in Hx.
  destruct fuel as [| f]; [lia |].
  destruct m as [| kv m'].
  - cbn [render_members]. rewrite !append_assoc.
    destruct (unquote_quote k (":" +:+ render x +:+ String "}" rest) Hk)
      as (body & -> & Hb).
    cbn [String.append] in Hb.
    eapply parse_members_last; [exact Hb |].
    apply Hx; [exact Hwx | lia | reflexivity].
  - change (render_members ((k, x) :: kv :: m'))
      with (quote k +:+ ":" +:+ render x +:+ "," +:+ render_members (kv :: m')).
    rewrite !append_assoc.
    destruct (unquote_quote k
                (":" +:+ render x +:+ "," +:+ render_members (kv :: m')
                 +:+ String "}" rest) Hk) as (body & -> & Hb).
    cbn [String.append] in Hb.
    eapply parse_members_more; [exact Hb | |].
    + apply Hx; [exact Hwx | lia | reflexivity].
    + apply IH; [exact Hwm | discriminate | lia].
Qed.

(** Every well-formed value reads back from its text. *)
Lemma parse_render_value (v : value) : reads_back v.
Proof.
  induction v as [| b | lit | s | l IH | m IH] using value_ind2;
    intros Hwf fuel rest Hf Hr;
    (destruct fuel as [| f]; [cbn in Hf; lia |]).
  - reflexivity.
  - destruct b; reflexivity.
  - cbn [wf_value] in Hwf. apply andb_prop in Hwf as [Hv Hc].
    apply parse_value_num; assumption.
  - cbn [wf_value] in Hwf. cbn [render].
    destruct (unquote_quote s rest Hwf) as (body & -> & Hb).
    apply parse_value_str, Hb.
  - rewrite render_Arr, !append_assoc. cbn [String.append].
    rewrite size_Arr in Hf. cbn [wf_value] in Hwf.
    destruct l as [| x l']; [reflexivity |].
    assert (Hh : exists c r, render x = String c r /\ opens c).
    { apply render_head. cbn [forallb] in Hwf.
      apply andb_prop in Hwf as [Hwx _]. exact Hwx. }
    destruct Hh as (c & r & Hc & W & H93 & _).
    pose proof (parse_render_elems (x :: l') IH Hwf ltac:(discriminate)
                  f rest ltac:(lia)) as He.
    assert (Hs : exists r1, render_elems (x :: l') +:+ String "]" rest
                            = String c r1).
    { destruct l' as [| y l'']; cbn [render_elems]; rewrite Hc;
        cbn [String.append]; eauto. }
    destruct Hs as (r1 & Hs). rewrite Hs in He |- *.
    apply parse_value_arr; assumption.
  - rewrite render_Obj, !append_assoc. cbn [String.append].
    rewrite size_Obj in Hf. cbn [wf_value] in Hwf.
    destruct m as [| [k x] m']; [reflexivity |].
    pose proof (parse_render_members ((k, x) :: m') IH Hwf ltac:(discriminate)
                  f rest ltac:(lia)) as He.
    assert (Hs : exists r1, render_members ((k, x) :: m') +:+ String "}" rest
                            = String dquote r1).
    { destruct m' as [| kv m'']; cbn [render_members]; unfold quote;
        cbn [String.append]; eauto. }
    destruct Hs as (r1 & Hs). rewrite Hs in He |- *.
    apply parse_value_obj; [reflexivity | reflexivity | exact He].
Qed.

Lemma quote_length (s : string) : (2 <= String.length (quote s))%nat.
Proof.
  unfold quote. cbn [String.length]. rewrite append_length. cbn. lia.
Qed.

Lemma size_le_length (v : value) :
  wf_value v = true -> (size v <= String.length (render v))%nat.
Proof.
  induction v as [| b | lit | s | l IH | m IH] using value_ind2; intros Hwf.
  - cbn. lia.
  - destruct b; cbn; lia.
  - cbn [wf_value] in Hwf. apply andb_prop in Hwf as [Hv _].
    destruct lit; [discriminate |]. cbn. lia.
  - cbn [size render]. pose proof (quote_length s). lia.
  - rewrite render_Arr, size_Arr, !append_length. cbn [String.length].
    cbn [wf_value] in Hwf.
    assert (H : (size_elems l <= S (String.length (render_elems l)))%nat).
    { induction IH as [| x l Hx Hl IHl]; [cbn; lia |].
      cbn [forallb] in Hwf. apply andb_prop in Hwf as [Hwx Hwl].
      specialize (Hx Hwx). specialize (IHl Hwl).
      destruct l as [| y l']; [cbn in *; lia |].
      change (render_elems (x :: y :: l'))
        with (render x +:+ "," +:+ render_elems (y :: l')).
      rewrite !append_length. cbn [String.length size_elems] in *. lia. }
    lia.
  - rewrite render_Obj, size_Obj, !append_length. cbn [String.length].
    cbn [wf_value] in Hwf.
    assert (H : (size_members m <= S (String.length (render_members m)))%nat).
    { induction IH as [| [k x] m Hx Hm IHm]; [cbn; lia |].
      cbn [forallb fst snd] in Hwf.
      apply andb_prop in Hwf as [[_ Hwx]%andb_prop Hwm].
      cbn [snd] in Hx. specialize (Hx Hwx). specialize (IHm Hwm).
      destruct m as [| kv m'].
      - cbn [render_members size_members snd]. rewrite !append_length. lia.
      - change (render_members ((k, x) :: kv :: m'))
          with (quote k +:+ ":" +:+ render x +:+ ","
                +:+ render_members (kv :: m')).
        rewrite !append_length.
        cbn [String.length size_members snd] in *. lia. }
    lia.
Qed.

(** The text of a well-formed value parses to the value. *)
Lemma parse_render (v : value) :
  wf_value v = true -> parse (render v) = Some v.
Proof.
  intros Hwf. unfold parse.
  pose proof (parse_render_value v Hwf (S (String.length (render v))) ""
                ltac:(pose proof (size_le_length v Hwf); lia) eq_refl) as H.
  rewrite append_nil_r in H. rewrite H. reflexivity.
Qed.

End JSONValues.

(** *** Times *)

Section JSONTimes.
Import JSON JSONSpec.

Lemma digit_spec (d : Z) :
  0 <= d <= 9 -> is_digit (digit d) = true /\ code (digit d) - 48 = d.
Proof.
  intros H.
  assert (Hd : d = 0 \/ d = 1 \/ d = 2 \/ d = 3 \/ d = 4 \/ d = 5 \/ d = 6
               \/ d = 7 \/ d = 8 \/ d = 9) by lia.
  destruct Hd as [-> | [-> | [-> | [-> | [-> | [-> | [-> | [-> | [-> | ->]]]]]]]]];
    split; reflexivity.
Qed.

Lemma take_digits_one (n : nat) (acc d : Z) (X : string) :
  0 <= d <= 9 ->
  take_digits (S n) acc (String (digit d) X) = take_digits n (acc * 10 + d) X.
Proof.
  intros H. destruct (digit_spec d H) as [H1 H2].
  cbn [take_digits]. rewrite H1, H2. reflexivity.
Qed.

Lemma take_digits_pad2 (n : nat) (acc v : Z) (X : string) :
  0 <= v < 100 ->
  take_digits (S (S n)) acc (pad2 v +:+ X) = take_digits n (acc * 100 + v) X.
Proof.
  intros H. unfold pad2. cbn [String.append].
  assert (0 <= v / 10 <= 9) by (split; [apply Z.div_pos | apply Z.lt_succ_r, Z.div_lt_upper_bound]; lia).
  assert (0 <= v mod 10 <= 9) by (pose proof (Z.mod_pos_bound v 10); lia).
  rewrite !take_digits_one by assumption.
  f_equal. pose proof (Z.div_mod v 10). lia.
Qed.

Lemma take_digits_pad4 (v : Z) (X : string) :
  0 <= v < 10000 -> take_digits 4 0 (pad4 v +:+ X) = Some (v, X).
Proof.
  intros H. unfold pad4. rewrite append_assoc.
  assert (0 <= v / 100 < 100)
    by (split; [apply Z.div_pos | apply Z.div_lt_upper_bound]; lia).
  assert (0 <= v mod 100 < 100) by (apply Z.mod_pos_bound; lia).
  rewrite !take_digits_pad2 by assumption. cbn [take_digits].
  do 2 f_equal. pose proof (Z.div_mod v 100). lia.
Qed.

Lemma take_digits_pad2_0 (v : Z) (X : string) :
  0 <= v < 100 -> take_digits 2 0 (pad2 v +:+ X) = Some (v, X).
Proof. intros H. rewrite take_digits_pad2 by assumption. reflexivity. Qed.

Lemma frac_digits_digits (k : nat) (ns : Z) :
  0 <= ns < 10 ^ Z.of_nat k ->
  all_chars is_digit (frac_digits k ns) = true
  /\ frac_value k (frac_digits k ns) = ns.
Proof.
  revert ns. induction k as [| k IH]; intros ns H.
  - cbn in *. split; [reflexivity | lia].
  - cbn [frac_digits]. rewrite Nat2Z.inj_succ, Z.pow_succ_r in H by lia.
    assert (Hp : 0 < 10 ^ Z.of_nat k) by (apply Z.pow_pos_nonneg; lia).
    destruct (Z.eqb_spec ns 0) as [-> | Hne]; [split; reflexivity |].
    assert (Hq : 0 <= ns / 10 ^ Z.of_nat k <= 9).
    { split; [apply Z.div_pos; lia |].
      apply Z.lt_succ_r, Z.div_lt_upper_bound; lia. }
    assert (Hr : 0 <= ns mod 10 ^ Z.of_nat k < 10 ^ Z.of_nat k)
      by (apply Z.mod_pos_bound; lia).
    destruct (digit_spec _ Hq) as [D1 D2].
    destruct (IH _ Hr) as [I1 I2].
    cbn [all_chars frac_value]. rewrite D1, D2, I1, I2.
    split; [reflexivity |].
    pose proof (Z.div_mod ns (10 ^ Z.of_nat k)). lia.
Qed.

(** *** The calendar *)

Lemma all_from_spec (p : Z -> bool) (n : nat) :
  forall z x, all_from n z p = true -> z <= x < z + Z.of_nat n -> p x = true.
Proof.
  induction n as [| n IH]; intros z x H Hx; [lia |].
  cbn [all_from] in H. apply andb_prop in H as [H1 H2].
  destruct (Z.eq_dec x z) as [-> | Hne]; [exact H1 |].
  apply (IH (z + 1)); [exact H2 | lia].
Qed.

(** Every day of the era of 400 years, one by one. *)
Lemma check_doe_all : all_from (Z.to_nat 146097) 0 check_doe = true.
Proof. vm_cast_no_check (eq_refl true). Qed.

Lemma check_doe_ok (doe : Z) : 0 <= doe < 146097 -> check_doe doe = true.
Proof.
  intros H. apply (all_from_spec check_doe (Z.to_nat 146097) 0 doe check_doe_all).
  rewrite Z2Nat.id; lia.
Qed.

Lemma is_leap_era (y era : Z) : is_leap (y + era * 400) = is_leap y.
Proof.
  unfold is_leap.
  replace ((y + era * 400) mod 4) with (y mod 4)
    by (replace (era * 400) with (era * 100 * 4) by lia;
        symmetry; apply Z_mod_plus_full).
  replace ((y + era * 400) mod 100) with (y mod 100)
    by (replace (era * 400) with (era * 4 * 100) by lia;
        symmetry; apply Z_mod_plus_full).
  replace ((y + era * 400) mod 400) with (y mod 400)
    by (symmetry; apply Z_mod_plus_full).
  reflexivity.
Qed.

Lemma days_from_civil_era (y m d era : Z) :
  days_from_civil (y + era * 400) m d = days_from_civil y m d + era * 146097.
Proof.
  unfold days_from_civil.
  replace (if m <=? 2 then y + era * 400 - 1 else y + era * 400)
    with ((if m <=? 2 then y - 1 else y) + era * 400)
    by (destruct (m <=? 2); lia).
  set (y' := if m <=? 2 then y - 1 else y). cbv zeta.
  rewrite Z.div_add by lia.
  replace (y' + era * 400 - (y' / 400 + era) * 400)
    with (y' - y' / 400 * 400) by lia.
  lia.
Qed.

(** The date of a day is a date of the calendar, and the day of that
    date is the day. *)
Lemma civil_from_days_spec (z : Z) :
  let '(y, m, d) := civil_from_days z in
  1 <= m <= 12 /\ 1 <= d <= days_in y m /\ days_from_civil y m d = z.
Proof.
  unfold civil_from_days.
  set (z' := z + 719468). set (era := z' / 146097).
  assert (Hdoe : 0 <= z' - era * 146097 < 146097).
  { pose proof (Z.mod_pos_bound z' 146097 ltac:(lia)) as Hm.
    pose proof (Z.div_mod z' 146097 ltac:(lia)). unfold era. lia. }
  pose proof (check_doe_ok _ Hdoe) as Hc. unfold check_doe in Hc.
  destruct (civil_of_doe (z' - era * 146097)) as [[y0 m] d].
  cbv beta iota.
  repeat (apply andb_prop in Hc as [Hc ?]).
  unfold days_in in *. rewrite is_leap_era.
  rewrite days_from_civil_era.
  repeat match goal with
         | H : (_ <=? _) = true |- _ => apply Z.leb_le in H
         | H : (_ =? _) = true |- _ => apply Z.eqb_eq in H
         end.
  unfold z' in *. clearbody era. lia.
Qed.

Lemma expect_ok (n : Z) (c : ascii) (X : string) :
  isb c n = true -> expect n (String c X) = Some X.
Proof. intros H. cbn [expect]. rewrite H. reflexivity. Qed.

Lemma parse_clock_format (y m d s ns : Z) :
  0 <= s < 86400 -> 0 <= ns < 1000000000 ->
  1 <= m <= 12 -> 1 <= d <= days_in y m ->
  parse_clock y m d
    (pad2 (s / 3600) +:+ ":" +:+ pad2 (s / 60 mod 60) +:+ ":"
     +:+ pad2 (s mod 60)
     +:+ (if ns =? 0 then "" else "." +:+ frac_digits 9 ns) +:+ "Z")
  = Some (mkTime (days_from_civil y m d * 86400 + s) ns).
Proof.
  intros Hs Hns Hm Hd.
  assert (H1 : 0 <= s / 3600 < 24)
    by (split; [apply Z.div_pos | apply Z.div_lt_upper_bound]; lia).
  assert (H2 : 0 <= s / 60 mod 60 < 60) by (apply Z.mod_pos_bound; lia).
  assert (H3 : 0 <= s mod 60 < 60) by (apply Z.mod_pos_bound; lia).
  assert (Hsum : s / 3600 * 3600 + s / 60 mod 60 * 60 + s mod 60 = s).
  { pose proof (Z.div_mod s 60 ltac:(lia)).
    pose proof (Z.div_mod (s / 60) 60 ltac:(lia)).
    rewrite Z.div_div in * by lia. change (60 * 60) with 3600 in *. lia. }
  unfold parse_clock.
  rewrite take_digits_pad2_0 by lia. cbn [String.append].
  rewrite (expect_ok 58 ":" _ eq_refl).
  rewrite take_digits_pad2_0 by lia. cbn [String.append].
  rewrite (expect_ok 58 ":" _ eq_refl).
  rewrite take_digits_pad2_0 by lia.
  assert (Hb : (1 <=? m) && (m <=? 12) && (1 <=? d) && (d <=? days_in y m)
               && (s / 3600 <? 24) && (s / 60 mod 60 <? 60)
               && (s mod 60 <? 60) = true).
  { repeat (apply andb_true_intro; split);
      first [apply Z.leb_le | apply Z.ltb_lt]; lia. }
  destruct (Z.eqb_spec ns 0) as [-> | Hne].
  - cbn [String.append].
    change (isb "Z" 46) with false. cbv iota.
    change (parse_zone "Z") with (Some 0). cbv iota beta.
    change (negb false || nonempty "") with true.
    cbn [andb]. rewrite Hb.
    apply f_equal, f_equal2; [lia | reflexivity].
  - destruct (frac_digits_digits 9 ns ltac:(lia)) as [Ha Hv].
    cbn [String.append].
    change (isb "." 46) with true. cbv iota.
    rewrite (span_all is_digit _ "Z" Ha eq_refl).
    change (parse_zone "Z") with (Some 0). cbv iota beta.
    assert (Hn : nonempty (frac_digits 9 ns) = true).
    { cbn [frac_digits]. destruct (Z.eqb_spec ns 0); [contradiction |].
      reflexivity. }
    rewrite Hn. cbn [negb orb andb].
    rewrite Hb, Hv. apply f_equal, f_equal2; [lia | reflexivity].
Qed.

(** A time that has an RFC 3339 form reads back from it. *)
Lemma parse_format_time (t : Time) (s : string) :
  0 <= nsec t < 1000000000 ->
  format_time t = Some s -> parse_time s = Some t.
Proof.
  intros Hns. unfold format_time.
  pose proof (civil_from_days_spec (unixSec t / 86400)) as Hc.
  destruct (civil_from_days (unixSec t / 86400)) as [[y m] d].
  destruct Hc as (Hm & Hd & Hday).
  destruct ((0 <=? y) && (y <=? 9999)) eqn:Hy; [| discriminate].
  apply andb_prop in Hy as [Hy1 Hy2]. apply Z.leb_le in Hy1, Hy2.
  intros H. apply (inj Some) in H. subst s.
  assert (Hdd : 1 <= d < 100).
  { unfold days_in in Hd.
    destruct (m =? 2), (is_leap y),
      ((m =? 4) || (m =? 6) || (m =? 9) || (m =? 11)); lia. }
  unfold parse_time.
  rewrite take_digits_pad4 by lia. cbn [String.append].
  rewrite (expect_ok 45 "-" _ eq_refl).
  rewrite take_digits_pad2_0 by lia. cbn [String.append].
  rewrite (expect_ok 45 "-" _ eq_refl).
  rewrite take_digits_pad2_0 by lia. cbn [String.append].
  rewrite (expect_ok 84 "T" _ eq_refl).
  pose proof (Z.mod_pos_bound (unixSec t) 86400 ltac:(lia)) as Hs.
  pose proof (parse_clock_format y m d _ (nsec t) Hs Hns Hm Hd) as Hpc.
  cbn [String.append] in Hpc. rewrite Hpc, Hday. destruct t as [sec ns]. cbn [unixSec nsec] in *.
  do 2 f_equal. pose proof (Z.div_mod sec 86400 ltac:(lia)). lia.
Qed.

End JSONTimes.

(** ** The persisted state, written and read back *)

Section StateRoundTrip.
Import JSON JSONSpec StateCodec.

Lemma wf_time_nsec (t : Time) : wf_time t = true -> 0 <= nsec t < 1000000000.
Proof.
  unfold wf_time. intros [H1 H2]%andb_prop.
  apply Z.leb_le in H1. apply Z.ltb_lt in H2. lia.
Qed.

(** *** The text of a time is plain *)

Lemma digit_plain (d : Z) : 0 <= d <= 9 -> plain (digit d) = true.
Proof.
  intros H.
  assert (Hd : d = 0 \/ d = 1 \/ d = 2 \/ d = 3 \/ d = 4 \/ d = 5 \/ d = 6
               \/ d = 7 \/ d = 8 \/ d = 9) by lia.
  destruct Hd as [-> | [-> | [-> | [-> | [-> | [-> | [-> | [-> | [-> | ->]]]]]]]]];
    reflexivity.
Qed.

Lemma pad2_plain (v : Z) : 0 <= v < 100 -> all_chars plain (pad2 v) = true.
Proof.
  intros H. unfold pad2. cbn [all_chars].
  rewrite !digit_plain; [reflexivity | |].
  - pose proof (Z.mod_pos_bound v 10). lia.
  - split; [apply Z.div_pos | apply Z.lt_succ_r, Z.div_lt_upper_bound]; lia.
Qed.

Lemma pad4_plain (v : Z) : 0 <= v < 10000 -> all_chars plain (pad4 v) = true.
Proof.
  intros H. unfold pad4. rewrite all_chars_app, !pad2_plain; [reflexivity | |].
  - apply Z.mod_pos_bound. lia.
  - split; [apply Z.div_pos | apply Z.div_lt_upper_bound]; lia.
Qed.

Lemma digits_plain (s : string) :
  all_chars is_digit s = true -> all_chars plain s = true.
Proof.
  apply all_chars_impl. intros c. unfold is_digit, between, plain.
  intros [_ H]%andb_prop. apply Z.leb_le in H. apply Z.ltb_lt. lia.
Qed.

Lemma format_time_plain (t : Time) (s : string) :
  0 <= nsec t < 1000000000 ->
  format_time t = Some s -> all_chars plain s = true.
Proof.
  intros Hns. unfold format_time.
  pose proof (civil_from_days_spec (unixSec t / 86400)) as Hc.
  destruct (civil_from_days (unixSec t / 86400)) as [[y m] d].
  destruct Hc as (Hm & Hd & _).
  destruct ((0 <=? y) && (y <=? 9999)) eqn:Hy; [| discriminate].
  apply andb_prop in Hy as [Hy1 Hy2]. apply Z.leb_le in Hy1, Hy2.
  intros H. apply (inj Some) in H. subst s.
  assert (Hdd : 1 <= d < 100).
  { unfold days_in in Hd.
    destruct (m =? 2), (is_leap y),
      ((m =? 4) || (m =? 6) || (m =? 9) || (m =? 11)); lia. }
  pose proof (Z.mod_pos_bound (unixSec t) 86400 ltac:(lia)) as Hs.
  set (sec := unixSec t mod 86400) in *.
  assert (H1 : 0 <= sec / 3600 < 100)
    by (split; [apply Z.div_pos | apply Z.div_lt_upper_bound]; lia).
  assert (H2 : 0 <= sec / 60 mod 60 < 60) by (apply Z.mod_pos_bound; lia).
  assert (H3 : 0 <= sec mod 60 < 60) by (apply Z.mod_pos_bound; lia).
  rewrite !all_chars_app.
  rewrite pad4_plain by lia. rewrite !pad2_plain by lia.
  destruct (Z.eqb_spec (nsec t) 0) as [E | Hne]; [reflexivity |].
  rewrite all_chars_app.
  rewrite (digits_plain _ (proj1 (frac_digits_digits 9 (nsec t) ltac:(lia)))).
  reflexivity.
Qed.

(** *** The fields, key by key *)

Lemma FriendRecord_keys (v : value) (f : FriendRecord) :
  FriendRecord_field "pet_id" v f
  = match dec_string v (Friend_PetID f) with
    | Some x => Some (mkFriendRecord x (Friend_DisplayName f) (FirstMet f)
                        (Friend_LastSeen f) (TimesVisited f) (SharedDreams f)
                        (IsDeceased f))
    | None => None end
  /\ FriendRecord_field "display_name" v f
  = match dec_string v (Friend_DisplayName f) with
    | Some x => Some (mkFriendRecord (Friend_PetID f) x (FirstMet f)
                        (Friend_LastSeen f) (TimesVisited f) (SharedDreams f)
                        (IsDeceased f))
    | None => None end
  /\ FriendRecord_field "first_met" v f
  = match dec_time v (FirstMet f) with
    | Some x => Some (mkFriendRecord (Friend_PetID f) (Friend_DisplayName f) x
                        (Friend_LastSeen f) (TimesVisited f) (SharedDreams f)
                        (IsDeceased f))
    | None => None end
  /\ FriendRecord_field "last_seen" v f
  = match dec_time v (Friend_LastSeen f) with
    | Some x => Some (mkFriendRecord (Friend_PetID f) (Friend_DisplayName f)
                        (FirstMet f) x (TimesVisited f) (SharedDreams f)
                        (IsDeceased f))
    | None => None end
  /\ FriendRecord_field "times_visited" v f
  = match dec_int v (TimesVisited f) with
    | Some x => Some (mkFriendRecord (Friend_PetID f) (Friend_DisplayName f)
                        (FirstMet f) (Friend_LastSeen f) x (SharedDreams f)
                        (IsDeceased f))
    | None => None end
  /\ FriendRecord_field "shared_dreams" v f
  = match dec_bool v (SharedDreams f) with
    | Some x => Some (mkFriendRecord (Friend_PetID f) (Friend_DisplayName f)
                        (FirstMet f) (Friend_LastSeen f) (TimesVisited f) x
                        (IsDeceased f))
    | None => None end
  /\ FriendRecord_field "is_deceased" v f
  = match dec_bool v (IsDeceased f) with
    | Some x => Some (mkFriendRecord (Friend_PetID f) (Friend_DisplayName f)
                        (FirstMet f) (Friend_LastSeen f) (TimesVisited f)
                        (SharedDreams f) x)
    | None => None end.
Proof. repeat split; reflexivity. Qed.

Lemma NetworkState_keys (v : value) (s : NetworkState) :
  NetworkState_field "friends" v s
  = match dec_slice dec_FriendRecord zeroFriendRecord v (Friends s) with
    | Some x => Some (mkNetworkState x (MemoriesShared s) (DeathsWitnessed s)
                        (NetworkJoinTime s) (LastNetworkSync s) (Influence s))
    | None => None end
  /\ NetworkState_field "memories_shared" v s
  = match dec_int v (MemoriesShared s) with
    | Some x => Some (mkNetworkState (Friends s) x (DeathsWitnessed s)
                        (NetworkJoinTime s) (LastNetworkSync s) (Influence s))
    | None => None end
  /\ NetworkState_field "deaths_witnessed" v s
  = match dec_int v (DeathsWitnessed s) with
    | Some x => Some (mkNetworkState (Friends s) (MemoriesShared s) x
                        (NetworkJoinTime s) (LastNetworkSync s) (Influence s))
    | None => None end
  /\ NetworkState_field "network_join_time" v s
  = match dec_time v (NetworkJoinTime s) with
    | Some x => Some (mkNetworkState (Friends s) (MemoriesShared s)
                        (DeathsWitnessed s) x (LastNetworkSync s) (Influence s))
    | None => None end
  /\ NetworkState_field "last_network_sync" v s
  = match dec_time v (LastNetworkSync s) with
    | Some x => Some (mkNetworkState (Friends s) (MemoriesShared s)
                        (DeathsWitnessed s) (NetworkJoinTime s) x (Influence s))
    | None => None end
  /\ NetworkState_field "influence" v s
  = match dec_int v (Influence s) with
    | Some x => Some (mkNetworkState (Friends s) (MemoriesShared s)
                        (DeathsWitnessed s) (NetworkJoinTime s)
                        (LastNetworkSync s) x)
    | None => None end.
Proof. repeat split; reflexivity. Qed.

(** *** Values of each type *)

Lemma enc_time_spec (t cur : Time) (v : value) :
  wf_time t = true -> enc_time t = Some v ->
  wf_value v = true /\ dec_time v cur = Some t.
Proof.
  intros Ht%wf_time_nsec. unfold enc_time.
  destruct (format_time t) as [s |] eqn:E; [| discriminate].
  intros H. apply (inj Some) in H. subst v. cbn [wf_value dec_time]. split.
  - apply ascii_utf8_valid. exact (format_time_plain t s Ht E).
  - exact (parse_format_time t s Ht E).
Qed.

Lemma enc_int_spec (z cur : Z) :
  in_int64 z = true ->
  wf_value (enc_int z) = true /\ dec_int (enc_int z) cur = Some z.
Proof.
  intros H. unfold enc_int. cbn [wf_value dec_int].
  rewrite valid_number_fmt_d, num_char_fmt_d, (int_of_lit_fmt_d z H).
  split; reflexivity.
Qed.

Lemma enc_FriendRecord_spec (f cur : FriendRecord) (v : value) :
  wf_friend f = true -> enc_FriendRecord f = Some v ->
  wf_value v = true /\ dec_FriendRecord v cur = Some f.
Proof.
  unfold wf_friend.
  intros [[[[Hid Hname]%andb_prop Hfm]%andb_prop Hls]%andb_prop Htv]%andb_prop.
  unfold enc_FriendRecord.
  destruct (enc_time (FirstMet f)) as [t1 |] eqn:E1; [| discriminate].
  destruct (enc_time (Friend_LastSeen f)) as [t2 |] eqn:E2; [| discriminate].
  intros Hv. apply (inj Some) in Hv. subst v.
  destruct (enc_int_spec (TimesVisited f) (TimesVisited cur) Htv) as [I1 I2].
  split.
  - destruct (enc_time_spec _ zeroTime _ Hfm E1) as [W1 _].
    destruct (enc_time_spec _ zeroTime _ Hls E2) as [W2 _].
    cbn [wf_value forallb fst snd].
    change (utf8_valid 0 "pet_id") with true.
    change (utf8_valid 0 "display_name") with true.
    change (utf8_valid 0 "first_met") with true.
    change (utf8_valid 0 "last_seen") with true.
    change (utf8_valid 0 "times_visited") with true.
    change (utf8_valid 0 "shared_dreams") with true.
    change (utf8_valid 0 "is_deceased") with true.
    cbn [andb]. rewrite Hid, Hname, W1, W2, I1. reflexivity.
  - unfold dec_FriendRecord, dec_struct. cbn [dec_members].
    destruct (FriendRecord_keys (Str (Friend_PetID f)) cur)
      as (-> & _).
    cbn [dec_string].
    match goal with |- context [FriendRecord_field "display_name" ?v ?c] =>
      destruct (FriendRecord_keys v c) as (_ & -> & _) end.
    cbn [dec_string Friend_PetID Friend_DisplayName FirstMet Friend_LastSeen
         TimesVisited SharedDreams IsDeceased].
    match goal with |- context [FriendRecord_field "first_met" ?v ?c] =>
      destruct (FriendRecord_keys v c) as (_ & _ & -> & _) end.
    cbn [Friend_PetID Friend_DisplayName FirstMet Friend_LastSeen
         TimesVisited SharedDreams IsDeceased].
    rewrite (proj2 (enc_time_spec _ (FirstMet cur) _ Hfm E1)).
    match goal with |- context [FriendRecord_field "last_seen" ?v ?c] =>
      destruct (FriendRecord_keys v c) as (_ & _ & _ & -> & _) end.
    cbn [Friend_PetID Friend_DisplayName FirstMet Friend_LastSeen
         TimesVisited SharedDreams IsDeceased].
    rewrite (proj2 (enc_time_spec _ (Friend_LastSeen cur) _ Hls E2)).
    match goal with |- context [FriendRecord_field "times_visited" ?v ?c] =>
      destruct (FriendRecord_keys v c) as (_ & _ & _ & _ & -> & _) end.
    cbn [Friend_PetID Friend_DisplayName FirstMet Friend_LastSeen
         TimesVisited SharedDreams IsDeceased].
    rewrite I2.
    match goal with |- context [FriendRecord_field "shared_dreams" ?v ?c] =>
      destruct (FriendRecord_keys v c) as (_ & _ & _ & _ & _ & -> & _) end.
    cbn [dec_bool Friend_PetID Friend_DisplayName FirstMet Friend_LastSeen
         TimesVisited SharedDreams IsDeceased].
    match goal with |- context [FriendRecord_field "is_deceased" ?v ?c] =>
      destruct (FriendRecord_keys v c) as (_ & _ & _ & _ & _ & _ & ->) end.
    cbn [dec_bool Friend_PetID Friend_DisplayName FirstMet Friend_LastSeen
         TimesVisited SharedDreams IsDeceased].
    destruct f; reflexivity.
Qed.

(** The elements of the ledger, one after the other. *)
Lemma enc_friends_spec (l : list FriendRecord) (vs : list value) :
  forallb wf_friend l = true ->
  fold_right (fun a acc =>
                match enc_FriendRecord a, acc with
                | Some v, Some r => Some (v :: r)
                | _, _ => None
                end) (Some []) l = Some vs ->
  forallb wf_value vs = true
  /\ dec_elems dec_FriendRecord zeroFriendRecord vs = Some l.
Proof.
  revert vs. induction l as [| f l IH]; intros vs Hwf H.
  - apply (inj Some) in H. subst vs. split; reflexivity.
  - cbn [forallb] in Hwf. apply andb_prop in Hwf as [Hf Hl].
    cbn [fold_right] in H.
    destruct (enc_FriendRecord f) as [v |] eqn:Ef; [| discriminate].
    destruct (fold_right _ _ l) as [r |]; [| discriminate].
    apply (inj Some) in H. subst vs.
    destruct (IH r Hl eq_refl) as [W D].
    destruct (enc_FriendRecord_spec f zeroFriendRecord v Hf Ef) as [Wv Dv].
    cbn [forallb dec_elems]. rewrite Wv, W, Dv, D. split; reflexivity.
Qed.

Lemma enc_slice_spec (l cur : list FriendRecord) (v : value) :
  forallb wf_friend l = true ->
  enc_slice enc_FriendRecord l = Some v ->
  wf_value v = true
  /\ dec_slice dec_FriendRecord zeroFriendRecord v cur = Some l.
Proof.
  intros Hwf. unfold enc_slice. destruct l as [| f l].
  - intros H. apply (inj Some) in H. subst v. split; reflexivity.
  - destruct (fold_right _ _ (f :: l)) as [vs |] eqn:E; [| discriminate].
    intros H. apply (inj Some) in H. subst v.
    destruct (enc_friends_spec (f :: l) vs Hwf E) as [W D].
    cbn [wf_value dec_slice]. auto.
Qed.

Lemma enc_NetworkState_spec (s : NetworkState) (v : value) :
  wf_state s = true -> enc_NetworkState s = Some v ->
  wf_value v = true
  /\ dec_struct NetworkState_field v zeroNetworkState = Some s.
Proof.
  unfold wf_state.
  intros [[[[[Hfs Hms]%andb_prop Hdw]%andb_prop Hjt]%andb_prop Hsy]%andb_prop
            Hinf]%andb_prop.
  unfold enc_NetworkState.
  destruct (enc_slice enc_FriendRecord (Friends s)) as [fs |] eqn:E0;
    [| discriminate].
  destruct (enc_time (NetworkJoinTime s)) as [t1 |] eqn:E1; [| discriminate].
  destruct (enc_time (LastNetworkSync s)) as [t2 |] eqn:E2; [| discriminate].
  intros Hv. apply (inj Some) in Hv. subst v.
  destruct (enc_slice_spec _ [] _ Hfs E0) as [W0 D0].
  destruct (enc_time_spec _ zeroTime _ Hjt E1) as [W1 D1].
  destruct (enc_time_spec _ zeroTime _ Hsy E2) as [W2 D2].
  destruct (enc_int_spec (MemoriesShared s) 0 Hms) as [Wa Da].
  destruct (enc_int_spec (DeathsWitnessed s) 0 Hdw) as [Wb Db].
  destruct (enc_int_spec (Influence s) 0 Hinf) as [Wc Dc].
  split.
  - cbn [wf_value forallb fst snd].
    change (utf8_valid 0 "friends") with true.
    change (utf8_valid 0 "memories_shared") with true.
    change (utf8_valid 0 "deaths_witnessed") with true.
    change (utf8_valid 0 "network_join_time") with true.
    change (utf8_valid 0 "last_network_sync") with true.
    change (utf8_valid 0 "influence") with true.
    cbn [andb]. rewrite W0, W1, W2, Wa, Wb, Wc. reflexivity.
  - unfold dec_struct. cbn [dec_members].
    destruct (NetworkState_keys fs zeroNetworkState) as (-> & _).
    cbn [zeroNetworkState Friends MemoriesShared DeathsWitnessed
         NetworkJoinTime LastNetworkSync Influence].
    rewrite D0.
    match goal with |- context [NetworkState_field "memories_shared" ?v ?c] =>
      destruct (NetworkState_keys v c) as (_ & -> & _) end.
    cbn [Friends MemoriesShared DeathsWitnessed NetworkJoinTime
         LastNetworkSync Influence].
    rewrite Da.
    match goal with |- context [NetworkState_field "deaths_witnessed" ?v ?c] =>
      destruct (NetworkState_keys v c) as (_ & _ & -> & _) end.
    cbn [Friends MemoriesShared DeathsWitnessed NetworkJoinTime
         LastNetworkSync Influence].
    rewrite Db.
    match goal with |- context [NetworkState_field "network_join_time" ?v ?c] =>
      destruct (NetworkState_keys v c) as (_ & _ & _ & -> & _) end.
    cbn [Friends MemoriesShared DeathsWitnessed NetworkJoinTime
         LastNetworkSync Influence].
    rewrite D1.
    match goal with |- context [NetworkState_field "last_network_sync" ?v ?c] =>
      destruct (NetworkState_keys v c) as (_ & _ & _ & _ & -> & _) end.
    cbn [Friends MemoriesShared DeathsWitnessed NetworkJoinTime
         LastNetworkSync Influence].
    rewrite D2.
    match goal with |- context [NetworkState_field "influence" ?v ?c] =>
      destruct (NetworkState_keys v c) as (_ & _ & _ & _ & _ & ->) end.
    cbn [Friends MemoriesShared DeathsWitnessed NetworkJoinTime
         LastNetworkSync Influence].
    rewrite Dc. destruct s; reflexivity.
Qed.

(** [json.Unmarshal] reads the state back from what [json.Marshal]
    wrote. *)
Lemma Unmarshal_Marshal (s : NetworkState) (blob : string) :
  wf_state s = true -> Marshal s = Some blob -> Unmarshal blob = Some s.
Proof.
  intros Hwf. unfold Marshal, Unmarshal, Codec.Unmarshal.
  destruct (enc_NetworkState s) as [v |] eqn:E; [| discriminate].
  intros H. apply (inj Some) in H. subst blob.
  destruct (enc_NetworkState_spec s v Hwf E) as [W D].
  rewrite (parse_render v W). exact D.
Qed.

End StateRoundTrip.

(** ** Export and import *)

Section ExportImport.

Lemma wf_friends_app (l1 l2 : list FriendRecord) :
  forallb wf_friend (l1 ++ l2)%list
  = forallb wf_friend l1 && forallb wf_friend l2.
Proof. apply forallb_app. Qed.

Lemma newFriend_wf (self : PetIdentity) (p : Peer) :
  wf_peer p = true -> wf_friend (newFriend self p) = true.
Proof.
  unfold wf_peer, wf_friend, newFriend. cbn. intros ->. reflexivity.
Qed.

(** [UpdateState] keeps the ledger well formed when the peers of the
    snapshot are. *)
Lemma UpdateState_on_wf_ledger (peers : list Peer) (clk : Clock) (n : Network) :
  forallb wf_friend (Friends (state n)) = true ->
  forallb wf_peer peers = true ->
  forallb wf_friend (Friends (state (UpdateState_on peers clk n))) = true.
Proof.
  intros Hl Hp. destruct (enabled n) eqn:E.
  - rewrite (UpdateState_on_ledger peers clk n E), wf_friends_app, Hl.
    cbn [andb]. apply forallb_forall. intros f Hin.
    apply in_map_iff in Hin as (p & <- & Hin).
    apply filter_In in Hin as [Hin _].
    apply newFriend_wf. rewrite forallb_forall in Hp. apply Hp, Hin.
  - unfold UpdateState_on. rewrite E. exact Hl.
Qed.

Lemma ImportState_Marshal (s : NetworkState) (blob : string) (n : Network) :
  wf_state s = true -> StateCodec.Marshal s = Some blob ->
  ImportState blob n
  = (mkNetwork (n_identity n) (discovery n) (gossip n) s (enabled n)
               (isLonely n), true).
Proof.
  intros Hwf Hm. unfold ImportState.
  rewrite (Unmarshal_Marshal s blob Hwf Hm). reflexivity.
Qed.

(** C7: for every network facade, when [ExportState] returns a blob
    (it first brings the state up to date, and [json.Marshal] gives an
    error only for a time whose year is outside 0..9999) and the state
    that it wrote holds Go values (integers that are [int]s, times
    whose nanoseconds are below one second, strings of valid UTF-8),
    [ImportState] of the blob into a freshly constructed facade
    returns no error and reproduces the friend count, the influence
    score and the whole ledger of the original; indeed the whole
    persisted state. *)
Theorem export_import_roundtrip (clk : Clock) (n : Network) (blob : string)
    (seed : Rand) (petName : string) (birthTime : Time) (stage : string)
    (isAlive : bool) :
  (ExportState clk n).2 = Some blob ->
  wf_state (state (ExportState clk n).1) = true ->
  let original := (ExportState clk n).1 in
  let r := ImportState blob (NewNetwork seed petName birthTime stage isAlive) in
  r.2 = true
  /\ GetFriendCount r.1 = GetFriendCount original
  /\ GetInfluence r.1 = GetInfluence original
  /\ Friends (state r.1) = Friends (state original)
  /\ state r.1 = state original.
Proof.
  intros Hb Hwf. cbn zeta. unfold ExportState in *. cbn [fst snd] in *.
  rewrite (ImportState_Marshal _ _ _ Hwf Hb).
  unfold GetFriendCount, GetInfluence. cbn [fst snd state].
  repeat split; reflexivity.
Qed.

Lemma export_import_roundtrip_witness :
  let original := (ExportState (Sample.clock 1705315100) Sample.met).1 in
  let r := ImportState Sample.saved Sample.nibbles in
  GetFriendCount original = 1
  /\ r.2 = true
  /\ GetFriendCount r.1 = 1
  /\ Friends (state r.1) = Friends (state original).
Proof.
  destruct (export_import_roundtrip (Sample.clock 1705315100) Sample.met
              Sample.saved Sample.seed "Nibbles" (Unix 1705314600 0) "Baby"
              true)
    as (H1 & H2 & _ & H4 & _); [vm_compute; reflexivity .. |].
  cbn zeta. split; [vm_compute; reflexivity |].
  split; [exact H1 |]. split; [| exact H4].
  etransitivity; [exact H2 | vm_compute; reflexivity].
Defined.

End ExportImport.

(** * More of the protocol *)

(** ** The hop budget *)

Lemma DecrementTTL_fields (ttl : Z) (m : Message) :
  with_TTL ttl (DecrementTTL m) = with_TTL ttl m.
Proof. unfold DecrementTTL. destruct (TTL m >? 0); reflexivity. Qed.

Lemma DecrementTTL_TTL (m : Message) :
  TTL (DecrementTTL m) = if TTL m >? 0 then TTL m - 1 else TTL m.
Proof. unfold DecrementTTL. destruct (TTL m >? 0); reflexivity. Qed.

Lemma ShouldPropagate_TTL (m : Message) :
  TTL m <= 0 -> ShouldPropagate m = false.
Proof.
  intros H. unfold ShouldPropagate.
  destruct (_ || _); [| reflexivity].
  destruct (Z.gtb_spec (TTL m) 0); [lia | reflexivity].
Qed.

(** X1: [DecrementTTL], called [k] times on a message, takes [k] off a
    positive hop budget but never goes below zero, leaves a budget
    that is zero or negative as it is, and touches no other field: no
    message is passed on more often than its budget says. *)
Theorem DecrementTTL_iter (m : Message) (k : nat) :
  TTL (Nat.iter k DecrementTTL m)
  = (if TTL m <=? 0 then TTL m else Z.max 0 (TTL m - Z.of_nat k))
  /\ with_TTL (TTL m) (Nat.iter k DecrementTTL m) = m
  /\ (TTL m <= Z.of_nat k ->
      ShouldPropagate (Nat.iter k DecrementTTL m) = false).
Proof.
  assert (H1 : TTL (Nat.iter k DecrementTTL m)
               = (if TTL m <=? 0 then TTL m
                  else Z.max 0 (TTL m - Z.of_nat k))).
  { induction k as [| k IH].
    - change (Nat.iter 0 DecrementTTL m) with m.
      destruct (Z.leb_spec (TTL m) 0); lia.
    - change (Nat.iter (S k) DecrementTTL m)
        with (DecrementTTL (Nat.iter k DecrementTTL m)).
      rewrite DecrementTTL_TTL, IH.
      destruct (Z.leb_spec (TTL m) 0).
      + destruct (Z.gtb_spec (TTL m) 0); lia.
      + destruct (Z.gtb_spec (Z.max 0 (TTL m - Z.of_nat k)) 0); lia. }
  split; [exact H1 |]. split.
  - clear H1. induction k as [| k IH].
    + destruct m; reflexivity.
    + change (Nat.iter (S k) DecrementTTL m)
        with (DecrementTTL (Nat.iter k DecrementTTL m)).
      rewrite DecrementTTL_fields. exact IH.
  - intros Hk. apply ShouldPropagate_TTL. rewrite H1.
    destruct (Z.leb_spec (TTL m) 0); lia.
Qed.

(** ** The integrity tag *)

(** X2: a message made by [NewMessage] verifies, has the hop budget 5
    and the given type, sender and timestamp; the tag covers neither
    the payload nor the hop budget: the message still verifies with
    any other payload and any other budget. *)
Theorem NewMessage_verifies (now t1 t2 : Time) (msgType : MessageType)
    (from : PetIdentity) (payload : PayloadArg) (m : Message) :
  NewMessage now t1 t2 msgType from payload = Some m ->
  Verify m = true
  /\ TTL m = 5 /\ Type_ m = msgType /\ From m = from /\ Timestamp m = now
  /\ Codec.Marshal_payload payload = Some (Payload m)
  /\ (forall (bytes : string) (ttl : Z),
        Verify (mkMessage (Type_ m) (From m) (Timestamp m) bytes
                          (Signature m) (Nonce m) ttl) = true).
Proof.
  unfold NewMessage.
  destruct (Codec.Marshal_payload payload) as [b |]; [| discriminate].
  intros H. apply (inj Some) in H. subst m.
  repeat split; try reflexivity.
  - apply Verify_iff. reflexivity.
  - intros bytes ttl. apply Verify_iff. reflexivity.
Qed.

Lemma NewMessage_verifies_witness :
  exists m,
    NewMessage (Unix 1705315100 0) (Unix 1705315100 1) (Unix 1705315100 2)
               MsgTypeMemory Sample.fluffy (OfMemory Sample.memory) = Some m
    /\ Verify m = true
    /\ Verify (mkMessage (Type_ m) (From m) (Timestamp m) "{}" (Signature m)
                         (Nonce m) 99) = true.
Proof.
  eexists. split; [vm_compute; reflexivity |].
  destruct (NewMessage_verifies (Unix 1705315100 0) (Unix 1705315100 1)
              (Unix 1705315100 2) MsgTypeMemory Sample.fluffy
              (OfMemory Sample.memory) _ eq_refl) as (H1 & _ & _ & _ & _ & _ & H2).
  split; [exact H1 | exact (H2 "{}" 99)].
Defined.

(** ** Payloads, written and read back *)

Section PayloadRoundTrip.
Import JSON JSONSpec Codec.

(** The keys of an object are compared with the tags of the struct. *)
Ltac decide_keys :=
  repeat match goal with
         | |- context [key_matches ?a ?b] =>
             let r := eval vm_compute in (key_matches a b) in
             change (key_matches a b) with r
         | |- context [utf8_valid 0 (String ?c ?s)] =>
             let r := eval vm_compute in (utf8_valid 0 (String c s)) in
             change (utf8_valid 0 (String c s)) with r
         end;
  cbv iota.

Lemma enc_strings_spec (l : list string) :
  forallb (utf8_valid 0) l = true ->
  fold_right (fun a acc =>
                match Some (Str a), acc with
                | Some v, Some r => Some (v :: r)
                | _, _ => None
                end) (Some []) l = Some (map Str l)
  /\ forallb wf_value (map Str l) = true
  /\ dec_elems dec_string "" (map Str l) = Some l.
Proof.
  induction l as [| s l IH]; intros H; [repeat split; reflexivity |].
  cbn [forallb] in H. apply andb_prop in H as [Hs Hl].
  destruct (IH Hl) as (I1 & I2 & I3).
  cbn [fold_right map forallb dec_elems wf_value dec_string].
  rewrite I1, I2, I3, Hs. repeat split; reflexivity.
Qed.

Lemma enc_strings_slice (l cur : list string) :
  forallb (utf8_valid 0) l = true ->
  exists v, enc_slice (fun s => Some (Str s)) l = Some v
            /\ wf_value v = true
            /\ dec_slice dec_string "" v cur = Some l.
Proof.
  intros H. unfold enc_slice. destruct l as [| s l].
  - exists Null. repeat split; reflexivity.
  - destruct (enc_strings_spec (s :: l) H) as (I1 & I2 & I3).
    rewrite I1. eexists. split; [reflexivity |]. cbn [wf_value dec_slice].
    split; assumption.
Qed.

Lemma enc_MemoryPayload_spec (p : MemoryPayload) (v : value) :
  wf_payload (OfMemory p) = true -> enc_MemoryPayload p = Some v ->
  wf_value v = true
  /\ dec_struct MemoryPayload_field v zeroMemoryPayload = Some p.
Proof.
  cbn [wf_payload].
  intros [[[Hf He]%andb_prop Hi]%andb_prop Ht]%andb_prop.
  unfold enc_MemoryPayload.
  destruct (enc_time (OriginTime p)) as [t |] eqn:E; [| discriminate].
  intros H. apply (inj Some) in H. subst v.
  destruct (enc_time_spec _ zeroTime _ Ht E) as [W D].
  destruct (enc_int_spec (Intensity p) 0 Hi) as [Wi Di].
  split.
  - cbn [wf_value forallb fst snd]. decide_keys. cbn [andb].
    rewrite Hf, He, Wi, W. reflexivity.
  - unfold dec_struct. cbn [dec_members]. unfold MemoryPayload_field.
    decide_keys. cbn [dec_string zeroMemoryPayload Fragment Emotion Intensity
                      OriginTime].
    rewrite Di. cbn [Fragment Emotion Intensity OriginTime].
    rewrite D. destruct p; reflexivity.
Qed.

Lemma enc_DreamPayload_spec (p : DreamPayload) (v : value) :
  wf_payload (OfDream p) = true -> enc_DreamPayload p = Some v ->
  wf_value v = true
  /\ dec_struct DreamPayload_field v zeroDreamPayload = Some p.
Proof.
  cbn [wf_payload]. intros [[Hd Hs]%andb_prop Hw]%andb_prop.
  unfold enc_DreamPayload.
  destruct (enc_strings_slice (Symbols p) [] Hs) as (syms & -> & W & D).
  intros H. apply (inj Some) in H. subst v. split.
  - cbn [wf_value forallb fst snd]. decide_keys. cbn [andb].
    rewrite Hd, W, Hw. reflexivity.
  - unfold dec_struct. cbn [dec_members]. unfold DreamPayload_field.
    decide_keys. cbn [dec_string dec_bool zeroDreamPayload DreamText Symbols
                      IsLucid SharedWith].
    rewrite D. destruct p; reflexivity.
Qed.

Lemma enc_MoodPayload_spec (p : MoodPayload) (v : value) :
  wf_payload (OfMood p) = true -> enc_MoodPayload p = Some v ->
  wf_value v = true
  /\ dec_struct MoodPayload_field v zeroMoodPayload = Some p.
Proof.
  cbn [wf_payload]. intros [Hm Hh]%andb_prop.
  unfold enc_MoodPayload. intros H. apply (inj Some) in H. subst v.
  destruct (enc_int_spec (Happiness p) 0 Hh) as [Wi Di].
  split.
  - cbn [wf_value forallb fst snd]. decide_keys. cbn [andb].
    rewrite Hm, Wi. reflexivity.
  - unfold dec_struct. cbn [dec_members]. unfold MoodPayload_field.
    decide_keys. cbn [dec_string dec_bool zeroMoodPayload Mood Happiness
                      IsContagious].
    rewrite Di. destruct p; reflexivity.
Qed.

Lemma enc_DeathPayload_spec (p : DeathPayload) (v : value) :
  wf_payload (OfDeath p) = true -> enc_DeathPayload p = Some v ->
  wf_value v = true
  /\ dec_struct DeathPayload_field v zeroDeathPayload = Some p.
Proof.
  cbn [wf_payload].
  intros [[[[Hn Ht]%andb_prop Ha]%andb_prop Hl]%andb_prop Hc]%andb_prop.
  unfold enc_DeathPayload.
  destruct (enc_time (DeathTime p)) as [t |] eqn:E; [| discriminate].
  intros H. apply (inj Some) in H. subst v.
  destruct (enc_time_spec _ zeroTime _ Ht E) as [W D].
  destruct (enc_int_spec (Age p) 0 Ha) as [Wi Di].
  split.
  - cbn [wf_value forallb fst snd]. decide_keys. cbn [andb].
    rewrite Hn, W, Wi, Hl, Hc. reflexivity.
  - unfold dec_struct. cbn [dec_members]. unfold DeathPayload_field.
    decide_keys. cbn [dec_string zeroDeathPayload PetName DeathTime Age
                      LastWords Cause].
    rewrite D. cbn [PetName DeathTime Age LastWords Cause].
    rewrite Di. destruct p; reflexivity.
Qed.

Lemma Unmarshal_render {A} (field : string -> value -> A -> option A)
    (v : value) (zero x : A) :
  wf_value v = true -> dec_struct field v zero = Some x ->
  Unmarshal field (render v) zero = Some x.
Proof.
  intros W D. unfold Unmarshal. rewrite (parse_render v W). exact D.
Qed.

(** What was marshalled decodes to the payload. *)
Lemma Marshal_payload_decodes (p : PayloadArg) (m : Message) :
  wf_payload p = true -> Marshal_payload p = Some (Payload m) ->
  decodes_to p m.
Proof.
  intros Hwf. unfold Marshal_payload, decodes_to,
    DecodePayload_Memory, DecodePayload_Dream, DecodePayload_Mood,
    DecodePayload_Death.
  destruct p as [| x | x | x | x].
  - intros H. apply (inj Some) in H. rewrite <- H.
    repeat split; reflexivity.
  - destruct (enc_MemoryPayload x) as [v |] eqn:E; [| discriminate].
    intros H. apply (inj Some) in H. rewrite <- H.
    destruct (enc_MemoryPayload_spec x v Hwf E) as [W D].
    exact (Unmarshal_render _ _ _ _ W D).
  - destruct (enc_DreamPayload x) as [v |] eqn:E; [| discriminate].
    intros H. apply (inj Some) in H. rewrite <- H.
    destruct (enc_DreamPayload_spec x v Hwf E) as [W D].
    exact (Unmarshal_render _ _ _ _ W D).
  - destruct (enc_MoodPayload x) as [v |] eqn:E; [| discriminate].
    intros H. apply (inj Some) in H. rewrite <- H.
    destruct (enc_MoodPayload_spec x v Hwf E) as [W D].
    exact (Unmarshal_render _ _ _ _ W D).
  - destruct (enc_DeathPayload x) as [v |] eqn:E; [| discriminate].
    intros H. apply (inj Some) in H. rewrite <- H.
    destruct (enc_DeathPayload_spec x v Hwf E) as [W D].
    exact (Unmarshal_render _ _ _ _ W D).
Qed.

Lemma NewMessage_decodes (now t1 t2 : Time) (msgType : MessageType)
    (from : PetIdentity) (p : PayloadArg) (m : Message) :
  wf_payload p = true ->
  NewMessage now t1 t2 msgType from p = Some m ->
  decodes_to p m.
Proof.
  intros Hwf H. apply Marshal_payload_decodes; [exact Hwf |].
  unfold NewMessage in H.
  destruct (Marshal_payload p) as [b |]; [| discriminate].
  apply (inj Some) in H. subst m. reflexivity.
Qed.

(** X3: the payload that a message was made with is the one that
    [DecodePayload] reads from it, for the four payload structs, when
    its fields hold strings of valid UTF-8, [int]s and times with
    nanoseconds below one second; a message made with a [nil] payload
    decodes to the zero value of every struct. *)
Theorem DecodePayload_NewMessage (now t1 t2 : Time) (msgType : MessageType)
    (from : PetIdentity) (p : PayloadArg) (m : Message) :
  wf_payload p = true ->
  NewMessage now t1 t2 msgType from p = Some m ->
  decodes_to p m.
Proof. apply NewMessage_decodes. Qed.

Lemma DecodePayload_NewMessage_witness :
  exists m,
    NewMessage (Unix 1705315100 0) (Unix 1705315100 1) (Unix 1705315100 2)
               MsgTypeMemory Sample.fluffy (OfMemory Sample.memory) = Some m
    /\ DecodePayload_Memory m = Some Sample.memory.
Proof.
  eexists. split; [vm_compute; reflexivity |].
  exact (DecodePayload_NewMessage (Unix 1705315100 0) (Unix 1705315100 1)
           (Unix 1705315100 2) MsgTypeMemory Sample.fluffy
           (OfMemory Sample.memory) _ eq_refl eq_refl).
Defined.

End PayloadRoundTrip.

(** ** identity.go, the rest *)

Section IdentityFormat.
Import JSON.

Lemma hex_digit_hex (n : Z) : 0 <= n < 16 -> is_hex (hex_digit n) = true.
Proof.
  intros H.
  assert (Hn : exists k : nat, (k < 16)%nat /\ n = Z.of_nat k)
    by (exists (Z.to_nat n); lia).
  destruct Hn as (k & Hk & ->).
  do 16 (destruct k as [| k]; [reflexivity |]). lia.
Qed.

(** [hex.EncodeToString] writes two lowercase digits for a byte. *)
Lemma hex_EncodeToString_format (l : list Z) :
  Forall is_byte l ->
  String.length (hex_EncodeToString l) = (2 * length l)%nat
  /\ all_chars is_hex (hex_EncodeToString l) = true.
Proof.
  induction 1 as [| b l Hb Hl [IH1 IH2]]; [split; reflexivity |].
  unfold is_byte in Hb.
  cbn [hex_EncodeToString String.length all_chars length].
  rewrite IH1, IH2, !hex_digit_hex.
  - split; [lia | reflexivity].
  - apply Z.mod_pos_bound. lia.
  - split; [apply Z.div_pos | apply Z.div_lt_upper_bound]; lia.
Qed.

Lemma digest_prefix_format (k : nat) (msg : list Z) :
  (k <= 32)%nat ->
  String.length (hex_EncodeToString (firstn k (SHA256.Sum256 msg)))
  = (2 * k)%nat
  /\ all_chars is_hex (hex_EncodeToString (firstn k (SHA256.Sum256 msg)))
     = true.
Proof.
  intros Hk. destruct (Sum256_bytes msg) as [Hl Hb].
  destruct (hex_EncodeToString_format (firstn k (SHA256.Sum256 msg)))
    as [H1 H2]; [apply Forall_take, Hb |].
  rewrite length_firstn, Hl, Nat.min_l in H1 by exact Hk. auto.
Qed.

Lemma GeneratePetID_hex (name : string) (birthTime : Time) :
  String.length (GeneratePetID name birthTime) = 32%nat
  /\ all_chars is_hex (GeneratePetID name birthTime) = true.
Proof. unfold GeneratePetID. apply (digest_prefix_format 16). lia. Qed.

(** X4: whatever the name and the birth time, the participant ID is 32
    lowercase hexadecimal digits, the name fingerprint 16 and the
    public key of a new identity 64; the identity carries the name,
    the birth time, the stage and the flag as given. *)
Theorem identity_format (name : string) (birthTime : Time) (stage : string)
    (isAlive : bool) :
  String.length (GeneratePetID name birthTime) = 32%nat
  /\ all_chars is_hex (GeneratePetID name birthTime) = true
  /\ String.length (GenerateNameHash name) = 16%nat
  /\ all_chars is_hex (GenerateNameHash name) = true
  /\ String.length (PublicKey (NewPetIdentity name birthTime stage isAlive))
     = 64%nat
  /\ all_chars is_hex (PublicKey (NewPetIdentity name birthTime stage isAlive))
     = true
  /\ NewPetIdentity name birthTime stage isAlive
     = mkPetIdentity (GeneratePetID name birthTime) name birthTime
         (PublicKey (NewPetIdentity name birthTime stage isAlive)) stage
         isAlive.
Proof.
  unfold GeneratePetID, GenerateNameHash, NewPetIdentity. cbn [PublicKey].
  split; [apply (digest_prefix_format 16); lia |].
  split; [apply (digest_prefix_format 16); lia |].
  split; [apply (digest_prefix_format 8); lia |].
  split; [apply (digest_prefix_format 8); lia |].
  match goal with |- context [hex_EncodeToString (SHA256.Sum256 ?m)] =>
    pose proof (digest_prefix_format 32 m ltac:(lia)) as [H1 H2];
    destruct (Sum256_bytes m) as [Hl _] end.
  rewrite firstn_all2 in H1, H2 by lia.
  repeat split; assumption.
Qed.

Lemma substring_length (n : nat) (s : string) :
  (n <= String.length s)%nat ->
  String.length (String.substring 0 n s) = n.
Proof.
  revert s. induction n as [| n IH]; intros s H.
  - destruct s; reflexivity.
  - destruct s as [| c s]; cbn in H; [lia |].
    cbn. rewrite IH by lia. reflexivity.
Qed.

Lemma substring_prefix (n : nat) (s : string) :
  String.prefix (String.substring 0 n s) s = true.
Proof.
  revert s. induction n as [| n IH]; intros s.
  - destruct s; reflexivity.
  - destruct s as [| c s]; [reflexivity |].
    cbn. destruct (ascii_dec c c); [apply IH | contradiction].
Qed.

Lemma prefix_refl (s : string) : String.prefix s s = true.
Proof.
  induction s as [| c s IH]; [reflexivity |].
  cbn. destruct (ascii_dec c c); [exact IH | contradiction].
Qed.

Lemma all_chars_substring (p : ascii -> bool) (n : nat) (s : string) :
  all_chars p s = true -> all_chars p (String.substring 0 n s) = true.
Proof.
  revert s. induction n as [| n IH]; intros s H.
  - destruct s; reflexivity.
  - destruct s as [| c s]; [reflexivity |].
    cbn in *. apply andb_prop in H as [H1 H2]. rewrite H1, (IH s H2).
    reflexivity.
Qed.

(** X5: [ShortID] is the participant ID cut to its first 8 bytes, and
    the whole ID when that is shorter (an ID that came over the
    network can be): never more than 8 bytes, always a prefix of the
    ID; for a new identity it is 8 hexadecimal digits. *)
Theorem ShortID_prefix (pi : PetIdentity) :
  String.length (ShortID pi) = Nat.min 8 (String.length (PetID pi))
  /\ String.prefix (ShortID pi) (PetID pi) = true
  /\ (forall name birthTime stage isAlive,
        pi = NewPetIdentity name birthTime stage isAlive ->
        String.length (ShortID pi) = 8%nat
        /\ all_chars is_hex (ShortID pi) = true).
Proof.
  assert (HL : String.length (ShortID pi)
               = Nat.min 8 (String.length (PetID pi))).
  { unfold ShortID.
    destruct (Nat.ltb_spec (String.length (PetID pi)) 8) as [Hlt | Hge].
    - lia.
    - rewrite substring_length by exact Hge. lia. }
  split; [exact HL |]. split.
  - unfold ShortID.
    destruct (String.length (PetID pi) <? 8)%nat;
      [apply prefix_refl | apply substring_prefix].
  - intros name birthTime stage isAlive ->.
    destruct (GeneratePetID_hex name birthTime) as [H1 H2].
    rewrite HL. cbn [PetID NewPetIdentity]. rewrite H1. split; [reflexivity |].
    unfold ShortID. cbn [PetID NewPetIdentity]. rewrite H1. cbn [Nat.ltb Nat.leb].
    apply all_chars_substring, H2.
Qed.

End IdentityFormat.

Section Obfuscation.
Import JSON.

Lemma utf8_encode_byte_valid (c : ascii) (s : string) :
  utf8_valid 0 (utf8_encode (code c) +:+ s) = utf8_valid 0 s.
Proof. destruct c as [[] [] [] [] [] [] [] []]; reflexivity. Qed.

Lemma utf8_encode_plain (c : ascii) :
  plain c = true -> utf8_encode (code c) = String c "".
Proof.
  destruct c as [[] [] [] [] [] [] [] []]; intros H;
    try discriminate H; reflexivity.
Qed.

Lemma stars_valid (n : nat) (s : string) :
  utf8_valid 0 (stars n +:+ s) = utf8_valid 0 s.
Proof. induction n as [| n IH]; [reflexivity | exact IH]. Qed.

Lemma stars_length (n : nat) : String.length (stars n) = n.
Proof. induction n as [| n IH]; cbn; [| rewrite IH]; reflexivity. Qed.

(** X6: [ObfuscatedName] answers ??? for a name of at most two bytes.
    For a longer name it gives valid UTF-8 whatever the bytes of the
    name are, and when the first and the last byte are ASCII it is
    the first byte, one asterisk for every byte between, and the last
    byte: as long as the name, showing nothing of the bytes between. *)
Theorem ObfuscatedName_spec (pi : PetIdentity) :
  ((String.length (DisplayName pi) <= 2)%nat -> ObfuscatedName pi = "???")
  /\ ((2 < String.length (DisplayName pi))%nat ->
      utf8_valid 0 (ObfuscatedName pi) = true
      /\ (forall c r,
            DisplayName pi = String c r ->
            plain c = true -> plain (last_byte c r) = true ->
            ObfuscatedName pi
            = String c (stars (String.length r - 1)
                        +:+ String (last_byte c r) "")
            /\ String.length (ObfuscatedName pi)
               = String.length (DisplayName pi))).
Proof.
  unfold ObfuscatedName. destruct (DisplayName pi) as [| c r] eqn:E.
  { split; [reflexivity | cbn; lia]. }
  split.
  - intros H. destruct (Nat.leb_spec (String.length (String c r)) 2); [| lia].
    reflexivity.
  - intros H. destruct (Nat.leb_spec (String.length (String c r)) 2); [lia |].
    split.
    + rewrite utf8_encode_byte_valid, stars_valid.
      rewrite <- (append_nil_r (utf8_encode _)), utf8_encode_byte_valid.
      reflexivity.
    + intros c' r' [= <- <-] Hc Hl.
      rewrite (utf8_encode_plain c Hc), (utf8_encode_plain _ Hl).
      cbn [String.length] in *.
      replace (S (String.length r) - 2)%nat with (String.length r - 1)%nat
        by lia.
      split; [reflexivity |].
      cbn [String.append String.length].
      rewrite append_length, stars_length. cbn [String.length]. lia.
Qed.

End Obfuscation.

(** * More of the discovery service *)

Section PeerTable.

Lemma handleMessage_fields clk ds msg addr :
  ds_identity (handleMessage clk ds msg addr).1.1 = ds_identity ds
  /\ conn (handleMessage clk ds msg addr).1.1 = conn ds
  /\ running (handleMessage clk ds msg addr).1.1 = running ds
  /\ callbacks (handleMessage clk ds msg addr).1.1 = callbacks ds.
Proof.
  unfold handleMessage.
  destruct (_ || _); [| destruct (Type_ msg =? MsgTypeGoodbye)];
    destruct (peers ds !! PetID (From msg)); cbn; auto.
Qed.

Lemma handleMessage_other clk ds msg addr id :
  id <> PetID (From msg) ->
  peers (handleMessage clk ds msg addr).1.1 !! id = peers ds !! id.
Proof.
  intros Hne. unfold handleMessage.
  destruct (_ || _); [| destruct (Type_ msg =? MsgTypeGoodbye)];
    destruct (peers ds !! PetID (From msg)); cbn;
    try reflexivity; apply lookup_insert_ne; congruence.
Qed.

Lemma handleMessage_keeps clk ds msg addr id :
  is_Some (peers ds !! id) ->
  is_Some (peers (handleMessage clk ds msg addr).1.1 !! id).
Proof.
  intros H. destruct (decide (id = PetID (From msg))) as [-> | Hne].
  - unfold handleMessage.
    destruct (_ || _); [| destruct (Type_ msg =? MsgTypeGoodbye)];
      destruct (peers ds !! PetID (From msg)) eqn:E; cbn;
      rewrite ?lookup_insert_eq, ?E; eauto.
  - rewrite handleMessage_other by exact Hne. exact H.
Qed.

Lemma handleMessage_silent clk ds msg addr :
  callbacks ds = false -> (handleMessage clk ds msg addr).2 = [].
Proof.
  intros H. unfold handleMessage, dispatch. rewrite H.
  destruct (_ || _); [| destruct (Type_ msg =? MsgTypeGoodbye)];
    destruct (peers ds !! PetID (From msg)); reflexivity.
Qed.

(** X7: a datagram (the body of [listenLoop], with [handleMessage])
    changes at most the entry of its sender in the peer table: every
    other entry, the socket, the flags and the identity stay, and no
    entry is ever deleted.  A message that carries the service's own
    participant ID changes nothing and starts nothing; without
    callbacks set, nothing is handed on. *)
Theorem listenStep_frame (clk : Clock) (ds : DiscoveryService)
    (msg : Message) (addr : UDPAddr) :
  ds_identity (listenStep clk ds msg addr).1.1 = ds_identity ds
  /\ conn (listenStep clk ds msg addr).1.1 = conn ds
  /\ running (listenStep clk ds msg addr).1.1 = running ds
  /\ callbacks (listenStep clk ds msg addr).1.1 = callbacks ds
  /\ (forall id, id <> PetID (From msg) ->
        peers (listenStep clk ds msg addr).1.1 !! id = peers ds !! id)
  /\ (forall id, is_Some (peers ds !! id) ->
        is_Some (peers (listenStep clk ds msg addr).1.1 !! id))
  /\ (PetID (From msg) = PetID (ds_identity ds) ->
        listenStep clk ds msg addr = (ds, [], []))
  /\ (callbacks ds = false -> (listenStep clk ds msg addr).2 = []).
Proof.
  unfold listenStep.
  destruct (String.eqb_spec (PetID (From msg)) (PetID (ds_identity ds)))
    as [He | Hne].
  - cbn. repeat split; auto.
  - destruct (handleMessage_fields clk ds msg addr) as (H1 & H2 & H3 & H4).
    repeat split; auto using handleMessage_other, handleMessage_keeps,
      handleMessage_silent.
    contradiction.
Qed.

(** X8: what [handleMessage] does to the entry of the sender.  After a
    discover or an announce the sender is known and online: a first
    contact is entered with the identity and the address of the
    message and one message counted, and is answered with an
    announce; a known peer keeps the identity, the address and the
    first-seen time it was entered with and has one more message
    counted.  A goodbye marks a known peer offline and keeps its
    entry; from an unknown sender it does nothing.  Any other message
    is handed to the gossip callback even when the sender is unknown,
    enters no peer, and leaves the online flag of a known one as it
    is. *)
Theorem handleMessage_sender (clk : Clock) (ds : DiscoveryService)
    (msg : Message) (addr : UDPAddr) :
  ((Type_ msg = MsgTypeDiscover \/ Type_ msg = MsgTypeAnnounce) ->
   exists p,
     peers (handleMessage clk ds msg addr).1.1 !! PetID (From msg) = Some p
     /\ IsOnline p = true
     /\ match peers ds !! PetID (From msg) with
        | None =>
            Identity p = From msg /\ Address p = Some addr
            /\ MessageCount p = 1
            /\ (handleMessage clk ds msg addr).1.2
               = sendTo ds clk 2 MsgTypeAnnounce addr
            /\ (handleMessage clk ds msg addr).2
               = dispatch ds (OnPeerDiscovered p)
        | Some q =>
            Identity p = Identity q /\ Address p = Address q
            /\ FirstSeen p = FirstSeen q
            /\ MessageCount p = wrap64 (MessageCount q + 1)
            /\ (handleMessage clk ds msg addr).1.2 = []
            /\ (handleMessage clk ds msg addr).2 = []
        end)
  /\ (Type_ msg = MsgTypeGoodbye ->
      match peers ds !! PetID (From msg) with
      | None => handleMessage clk ds msg addr = (ds, [], [])
      | Some q =>
          peers (handleMessage clk ds msg addr).1.1 !! PetID (From msg)
          = Some (with_IsOnline false q)
          /\ (handleMessage clk ds msg addr).2
             = dispatch ds (OnPeerLost (with_IsOnline false q))
      end)
  /\ (Type_ msg <> MsgTypeDiscover -> Type_ msg <> MsgTypeAnnounce ->
      Type_ msg <> MsgTypeGoodbye ->
      (handleMessage clk ds msg addr).2 = dispatch ds (OnMessageReceived msg)
      /\ (handleMessage clk ds msg addr).1.2 = []
      /\ match peers ds !! PetID (From msg) with
         | None => (handleMessage clk ds msg addr).1.1 = ds
         | Some q =>
             exists p,
               peers (handleMessage clk ds msg addr).1.1 !! PetID (From msg)
               = Some p
               /\ IsOnline p = IsOnline q /\ Identity p = Identity q
               /\ MessageCount p = wrap64 (MessageCount q + 1)
         end).
Proof.
  unfold handleMessage, MsgTypeDiscover, MsgTypeAnnounce, MsgTypeGoodbye.
  split; [| split].
  - intros H.
    assert (E : (Type_ msg =? 0) || (Type_ msg =? 1) = true)
      by (destruct H as [-> | ->]; reflexivity).
    rewrite E. destruct (peers ds !! PetID (From msg)) as [q |]; cbn;
      rewrite lookup_insert_eq; eexists; (split; [reflexivity |]); cbn;
      repeat split; reflexivity.
  - intros ->. cbn [Z.eqb orb].
    destruct (peers ds !! PetID (From msg)) as [q |]; cbn;
      [rewrite lookup_insert_eq |]; auto.
  - intros H0 H1 H2.
    destruct (Z.eqb_spec (Type_ msg) 0); [contradiction |].
    destruct (Z.eqb_spec (Type_ msg) 1); [contradiction |].
    destruct (Z.eqb_spec (Type_ msg) 2); [contradiction |]. cbn [orb].
    destruct (peers ds !! PetID (From msg)) as [q |]; cbn.
    + split; [reflexivity |]. split; [reflexivity |].
      rewrite lookup_insert_eq. eexists. split; [reflexivity |]. cbn. auto.
    + auto.
Qed.

(** ** The sweep *)

Lemma stale_swept (now : Time) (p : Peer) :
  stale now (if stale now p then with_IsOnline false p else p) = false.
Proof. destruct (stale now p) eqn:E; [reflexivity | exact E]. Qed.

Lemma sweep_idem (now : Time) (p : Peer) :
  (fun p => if stale now p then with_IsOnline false p else p)
    (if stale now p then with_IsOnline false p else p)
  = (if stale now p then with_IsOnline false p else p).
Proof. cbv beta. rewrite stale_swept. reflexivity. Qed.

Lemma cleanupPeers_peers clk ds :
  peers (cleanupPeers clk ds).1
  = (fun p => if stale (clk 0%nat) p then with_IsOnline false p else p)
    <$> peers ds.
Proof. reflexivity. Qed.

Lemma cleanupPeers_callbacks clk ds :
  (cleanupPeers clk ds).2
  = flat_map (fun kp : string * Peer =>
                if stale (clk 0%nat) kp.2
                then dispatch ds (OnPeerLost (with_IsOnline false kp.2))
                else [])
      (map_to_list (peers ds)).
Proof.
  unfold cleanupPeers, stale. cbn [snd]. apply flat_map_ext.
  intros [k p]. cbn [snd].
  destruct (IsOnline p && timed_out (clk 0%nat) (LastSeen p));
    reflexivity.
Qed.

(** X9: [cleanupPeers] deletes no peer and enters none: it marks
    offline exactly the online peers last seen more than two minutes
    before the reading of the clock, and leaves every other peer as
    it is.  Afterwards no online peer is past the timeout, and a
    second sweep at the same reading changes nothing and reports no
    lost peer. *)
Theorem cleanupPeers_spec (clk : Clock) (ds : DiscoveryService) :
  (forall id,
     peers (cleanupPeers clk ds).1 !! id
     = (fun p => if stale (clk 0%nat) p then with_IsOnline false p else p)
       <$> peers ds !! id)
  /\ GetPeerCount (cleanupPeers clk ds).1 = GetPeerCount ds
  /\ (forall id p,
        peers (cleanupPeers clk ds).1 !! id = Some p -> IsOnline p = true ->
        timed_out (clk 0%nat) (LastSeen p) = false
        /\ peers ds !! id = Some p)
  /\ cleanupPeers clk (cleanupPeers clk ds).1
     = ((cleanupPeers clk ds).1, []).
Proof.
  split; [| split; [| split]].
  - intros id. rewrite cleanupPeers_peers. apply lookup_fmap.
  - unfold GetPeerCount. rewrite cleanupPeers_peers, map_size_fmap.
    reflexivity.
  - intros id p. rewrite cleanupPeers_peers, lookup_fmap.
    destruct (peers ds !! id) as [q |]; [| discriminate]. cbn.
    destruct (stale (clk 0%nat) q) eqn:E.
    + intros [= <-]. discriminate.
    + intros [= <-] Ho. unfold stale in E. rewrite Ho in E. auto.
  - apply injective_projections.
    + cbn [fst]. destruct ds as [i ps c r cb].
      unfold cleanupPeers, with_peers. cbn [fst peers ds_identity conn
        running callbacks]. f_equal.
      rewrite <- map_fmap_compose. apply map_fmap_ext. intros k p _.
      exact (sweep_idem (clk 0%nat) p).
    + cbn [snd]. rewrite cleanupPeers_callbacks, cleanupPeers_peers.
      rewrite map_to_list_fmap.
      induction (map_to_list (peers ds)) as [| [k p] l IH];
        [reflexivity |].
      cbn [fmap list_fmap flat_map prod_map fst snd].
      rewrite stale_swept. exact IH.
Qed.

End PeerTable.

(** * More of the facade *)

Section Reachable.

(** What holds of a facade and is kept by every operation but an
    import holds after every sequence of such operations. *)
Lemma run_invariant (P : Network -> Prop) :
  (forall n op, is_import op = false -> P n -> P (step n op).1) ->
  forall n ops,
    forallb (fun op => negb (is_import op)) ops = true ->
    P n -> P (run n ops).1.
Proof.
  intros Hstep n ops. induction ops as [| op ops IH] using rev_ind;
    intros Hops Hn; [exact Hn |].
  rewrite forallb_app in Hops. apply andb_prop in Hops as [H1 H2].
  cbn [forallb] in H2. rewrite andb_true_r in H2.
  apply negb_true_iff in H2.
  rewrite run_snoc. apply Hstep; [exact H2 | apply IH; assumption].
Qed.

Lemma handleMessage_identity clk ds msg addr id p :
  peers (handleMessage clk ds msg addr).1.1 !! id = Some p ->
  (id = PetID (From msg) /\ Identity p = From msg)
  \/ (exists q, peers ds !! id = Some q /\ Identity p = Identity q).
Proof.
  destruct (decide (id = PetID (From msg))) as [-> | Hne].
  - unfold handleMessage.
    destruct (_ || _); [| destruct (Type_ msg =? MsgTypeGoodbye)];
      destruct (peers ds !! PetID (From msg)) as [q |] eqn:E; cbn;
      rewrite ?lookup_insert_eq, ?E; intros [= <-]; cbn; eauto.
  - rewrite handleMessage_other by exact Hne. eauto.
Qed.

Lemma handleMessage_keyed clk ds msg addr :
  peers_keyed ds -> peers_keyed (handleMessage clk ds msg addr).1.1.
Proof.
  intros Hk id p Hp.
  destruct (handleMessage_identity clk ds msg addr id p Hp)
    as [[-> ->] | (q & Hq & ->)]; [reflexivity | exact (Hk id q Hq)].
Qed.

Lemma listenStep_keyed clk ds msg addr :
  peers_keyed ds -> peers_keyed (listenStep clk ds msg addr).1.1.
Proof.
  intros Hk. unfold listenStep.
  destruct (String.eqb _ _); [exact Hk | apply handleMessage_keyed, Hk].
Qed.

Lemma cleanupPeers_keyed clk ds :
  peers_keyed ds -> peers_keyed (cleanupPeers clk ds).1.
Proof.
  intros Hk id p. rewrite cleanupPeers_peers, lookup_fmap.
  destruct (peers ds !! id) as [q |] eqn:E; [| discriminate].
  cbn. intros [= <-]. rewrite <- (Hk id q E).
  destruct (stale (clk 0%nat) q); reflexivity.
Qed.

Lemma UpdateState_discovery clk n : discovery (UpdateState clk n) = discovery n.
Proof.
  unfold UpdateState, UpdateState_on. destruct (negb (enabled n)); [reflexivity |].
  destruct (friendMap_of _) as [fm cells].
  destruct (mergePeers _ _ _ _ _) as [c f].
  destruct (GetNetworkInfluence _) as [[o p] r]. reflexivity.
Qed.

Lemma Start_peers env clk n :
  peers (discovery (Start env clk n).1) = peers (discovery n).
Proof.
  unfold Start. destruct (isLonely n); [reflexivity |].
  unfold DiscoveryService_Start.
  destruct (listen_fixed env); [reflexivity |].
  destruct (listen_any env); reflexivity.
Qed.

Lemma Stop_peers clk n :
  peers (discovery (Stop clk n).1) = peers (discovery n).
Proof.
  unfold Stop. destruct (negb (enabled n)); [reflexivity |].
  unfold DiscoveryService_Stop.
  destruct (negb (running (discovery n))); reflexivity.
Qed.

Lemma step_keyed n op :
  peers_keyed (discovery n) -> peers_keyed (discovery (step n op).1).
Proof.
  intros Hk.
  destruct op as [env clk | clk | clk lonely | clk | clk | data | mood k
                 | clk pn age lw | clk msg a | clk | clk]; cbn [step fst].
  - unfold peers_keyed. rewrite Start_peers. exact Hk.
  - unfold peers_keyed. rewrite Stop_peers. exact Hk.
  - unfold SetLonelyMode. destruct (_ && _); [| exact Hk].
    unfold peers_keyed. rewrite Stop_peers. exact Hk.
  - rewrite UpdateState_discovery. exact Hk.
  - unfold ExportState. cbn [fst]. rewrite UpdateState_discovery. exact Hk.
  - unfold ImportState. destruct (StateCodec.Unmarshal data); exact Hk.
  - exact Hk.
  - exact Hk.
  - destruct (running (discovery n)); [| exact Hk].
    unfold deliver.
    pose proof (listenStep_keyed clk (discovery n) msg a Hk) as H.
    destruct (listenStep clk (discovery n) msg a) as [[ds evs] cbs].
    destruct (runCallbacks ds clk (gossip n) cbs). exact H.
  - destruct (running (discovery n)); [| exact Hk].
    unfold sweep.
    pose proof (cleanupPeers_keyed clk (discovery n) Hk) as H.
    destruct (cleanupPeers clk (discovery n)) as [ds cbs].
    destruct (runCallbacks ds clk (gossip n) cbs). exact H.
  - destruct (callbacks (discovery n)); [| exact Hk].
    unfold tick. destruct (gossipTick (discovery n) clk (gossip n)).
    exact Hk.
Qed.

Lemma run_keyed n ops :
  peers_keyed (discovery n) -> peers_keyed (discovery (run n ops).1).
Proof.
  intros H. induction ops as [| op ops IH] using rev_ind; [exact H |].
  rewrite run_snoc. apply step_keyed, IH.
Qed.

Lemma keyed_ids (l : list (string * Peer)) :
  (forall kp, In kp l -> PetID (Identity kp.2) = kp.1) ->
  map (fun p => PetID (Identity p)) l.*2 = l.*1.
Proof.
  induction l as [| kp l IH]; intros H; [reflexivity |].
  cbn. rewrite (H kp) by (left; reflexivity). f_equal.
  apply IH. intros kp' Hin. apply H. right. exact Hin.
Qed.

(** The participant IDs of a snapshot of a keyed table are distinct. *)
Lemma GetPeers_ids ds :
  peers_keyed ds -> NoDup (map (fun p => PetID (Identity p)) (GetPeers ds)).
Proof.
  intros Hk. unfold GetPeers. rewrite keyed_ids.
  - apply NoDup_fst_map_to_list.
  - intros [k p] H. apply list_elem_of_In, elem_of_map_to_list in H.
    exact (Hk k p H).
Qed.

Lemma in_ledger_In friends id :
  in_ledger friends id = true <-> In id (map Friend_PetID friends).
Proof.
  unfold in_ledger. rewrite existsb_exists. split.
  - intros (x & Hx & He). apply String.eqb_eq in He. subst. exact Hx.
  - intros H. exists id. split; [exact H | apply String.eqb_refl].
Qed.

Lemma NoDup_filter_map {A B} (f : A -> B) (p : A -> bool) (l : list A) :
  NoDup (map f l) -> NoDup (map f (List.filter p l)).
Proof.
  induction l as [| x l IH]; cbn; [auto |].
  intros H. apply NoDup_cons in H as [Hx Hl].
  destruct (p x); cbn; [| auto].
  apply NoDup_cons. split; [| auto].
  rewrite list_elem_of_In, in_map_iff in *.
  intros (y & Hy & Hin). apply Hx. exists y. split; [exact Hy |].
  apply filter_In in Hin. tauto.
Qed.

Lemma UpdateState_distinct clk n :
  peers_keyed (discovery n) -> NoDup (ledger_ids n) ->
  NoDup (ledger_ids (UpdateState clk n)).
Proof.
  intros Hk Hn. unfold ledger_ids, UpdateState.
  destruct (enabled n) eqn:E.
  - rewrite (UpdateState_on_ledger _ clk n E), map_app.
    apply NoDup_app. split; [exact Hn |]. split.
    + intros id H1 H2. rewrite list_elem_of_In in H1, H2.
      rewrite map_map in H2. apply in_map_iff in H2 as (p & <- & Hp).
      apply filter_In in Hp as [_ Hp]. apply negb_true_iff in Hp.
      apply in_ledger_In in H1. cbn in H1. congruence.
    + rewrite map_map. cbn.
      apply (NoDup_filter_map (fun p => PetID (Identity p))).
      apply GetPeers_ids, Hk.
  - unfold UpdateState_on. rewrite E. exact Hn.
Qed.

Lemma UpdateState_join clk n :
  NetworkJoinTime (state (UpdateState clk n)) = NetworkJoinTime (state n).
Proof.
  unfold UpdateState, UpdateState_on. destruct (negb (enabled n)); [reflexivity |].
  destruct (friendMap_of _) as [fm cells].
  destruct (mergePeers _ _ _ _ _) as [c f].
  destruct (GetNetworkInfluence _) as [[o p] r]. reflexivity.
Qed.

(** The operations that are neither a merge nor an import leave the
    ledger alone. *)
Lemma step_Friends n op :
  is_import op = false ->
  Friends (state (step n op).1)
  = match op with
    | OpUpdateState clk | OpExportState clk => Friends (state (UpdateState clk n))
    | _ => Friends (state n)
    end.
Proof.
  intros Hi.
  destruct op as [env clk | clk | clk lonely | clk | clk | data | mood k
                 | clk pn age lw | clk msg a | clk | clk];
    try discriminate Hi; cbn [step fst]; try reflexivity.
  - unfold Start. destruct (isLonely n); [reflexivity |].
    destruct (DiscoveryService_Start env clk (discovery n)) as [[ds evs] []];
      cbn; [| reflexivity].
    destruct (IsZero _); reflexivity.
  - unfold Stop. destruct (negb (enabled n)); [reflexivity |].
    destruct (DiscoveryService_Stop clk (discovery n)). reflexivity.
  - unfold SetLonelyMode. destruct (_ && _); [| reflexivity].
    unfold Stop. cbn. destruct (negb (enabled n)); [reflexivity |].
    destruct (DiscoveryService_Stop clk (discovery n)). reflexivity.
  - destruct (running (discovery n)); [| reflexivity].
    unfold deliver.
    destruct (listenStep clk (discovery n) msg a) as [[ds evs] cbs].
    destruct (runCallbacks ds clk (gossip n) cbs). reflexivity.
  - destruct (running (discovery n)); [| reflexivity].
    unfold sweep. destruct (cleanupPeers clk (discovery n)) as [ds cbs].
    destruct (runCallbacks ds clk (gossip n) cbs). reflexivity.
  - destruct (callbacks (discovery n)); [| reflexivity].
    unfold tick. destruct (gossipTick (discovery n) clk (gossip n)).
    reflexivity.
Qed.

(** A join time that is set is kept by every operation but an import. *)
Lemma step_join_time n op :
  is_import op = false ->
  IsZero (NetworkJoinTime (state n)) = false ->
  NetworkJoinTime (state (step n op).1) = NetworkJoinTime (state n).
Proof.
  intros Hi Hz.
  destruct op as [env clk | clk | clk lonely | clk | clk | data | mood k
                 | clk pn age lw | clk msg a | clk | clk];
    try discriminate Hi; cbn [step fst]; try reflexivity.
  - unfold Start. destruct (isLonely n); [reflexivity |].
    destruct (DiscoveryService_Start env clk (discovery n)) as [[ds evs] []];
      cbn; [| reflexivity].
    rewrite Hz. reflexivity.
  - unfold Stop. destruct (negb (enabled n)); [reflexivity |].
    destruct (DiscoveryService_Stop clk (discovery n)). reflexivity.
  - unfold SetLonelyMode. destruct (_ && _); [| reflexivity].
    unfold Stop. cbn. destruct (negb (enabled n)); [reflexivity |].
    destruct (DiscoveryService_Stop clk (discovery n)). reflexivity.
  - apply UpdateState_join.
  - unfold ExportState. cbn [fst]. apply UpdateState_join.
  - destruct (running (discovery n)); [| reflexivity].
    unfold deliver.
    destruct (listenStep clk (discovery n) msg a) as [[ds evs] cbs].
    destruct (runCallbacks ds clk (gossip n) cbs). reflexivity.
  - destruct (running (discovery n)); [| reflexivity].
    unfold sweep. destruct (cleanupPeers clk (discovery n)) as [ds cbs].
    destruct (runCallbacks ds clk (gossip n) cbs). reflexivity.
  - destruct (callbacks (discovery n)); [| reflexivity].
    unfold tick. destruct (gossipTick (discovery n) clk (gossip n)).
    reflexivity.
Qed.

Lemma step_distinct n op :
  is_import op = false ->
  peers_keyed (discovery n) /\ NoDup (ledger_ids n) ->
  peers_keyed (discovery (step n op).1) /\ NoDup (ledger_ids (step n op).1).
Proof.
  intros Hi [Hk Hn]. split; [apply step_keyed, Hk |].
  unfold ledger_ids. rewrite (step_Friends n op Hi).
  destruct op; try exact Hn; apply (UpdateState_distinct _ n Hk Hn).
Qed.

Lemma NewNetwork_keyed seed petName birthTime stage isAlive :
  peers_keyed (discovery (NewNetwork seed petName birthTime stage isAlive)).
Proof. intros id p H. cbn in H. rewrite lookup_empty in H. discriminate. Qed.

(** X10: in every facade that a new one becomes by operations other
    than an import (starts and stops, datagrams, sweeps, gossip
    rounds, merges, exports), every peer is kept in the table under
    its own participant ID and the ledger lists no participant
    twice. *)
Theorem ledger_lists_nobody_twice (seed : Rand) (petName : string)
    (birthTime : Time) (stage : string) (isAlive : bool) (ops : list Op) :
  forallb (fun op => negb (is_import op)) ops = true ->
  peers_keyed
    (discovery (run (NewNetwork seed petName birthTime stage isAlive) ops).1)
  /\ NoDup
       (ledger_ids
          (run (NewNetwork seed petName birthTime stage isAlive) ops).1).
Proof.
  intros Hops.
  apply (run_invariant
           (fun n => peers_keyed (discovery n) /\ NoDup (ledger_ids n)));
    [exact step_distinct | exact Hops |].
  split; [apply NewNetwork_keyed | constructor].
Qed.

Lemma ledger_lists_nobody_twice_witness :
  NoDup (ledger_ids (run Sample.nibbles sample_session).1)
  /\ length (ledger_ids (run Sample.nibbles sample_session).1) = 1%nat.
Proof.
  split; [| vm_compute; reflexivity].
  exact (proj2 (ledger_lists_nobody_twice Sample.seed "Nibbles"
                  (Unix 1705314600 0) "Baby" true sample_session eq_refl)).
Defined.

Lemma in_ledger_app (a b : list FriendRecord) (id : string) :
  in_ledger (a ++ b) id = in_ledger a id || in_ledger b id.
Proof. unfold in_ledger. rewrite map_app. apply existsb_app. Qed.

Lemma filter_none {A} (f : A -> bool) (l : list A) :
  (forall x, In x l -> f x = false) -> List.filter f l = [].
Proof.
  induction l as [| x l IH]; intros H; [reflexivity |].
  cbn. rewrite (H x) by (left; reflexivity).
  apply IH. intros y Hy. apply H. right. exact Hy.
Qed.

(** After a merge every peer of the snapshot has a record. *)
Lemma merged_in_ledger self (old : list FriendRecord) (ps : list Peer) (p : Peer) :
  In p ps ->
  in_ledger
    (old ++ map (newFriend self)
              (List.filter (fun p => negb (in_ledger old (PetID (Identity p))))
                           ps))
    (PetID (Identity p)) = true.
Proof.
  intros Hin. rewrite in_ledger_app.
  destruct (in_ledger old (PetID (Identity p))) eqn:E; [reflexivity |].
  cbn [orb]. apply in_ledger_In. rewrite map_map. cbn.
  apply in_map_iff. exists p. split; [reflexivity |].
  apply filter_In. rewrite E. auto.
Qed.

Lemma UpdateState_disabled clk n :
  enabled n = false -> UpdateState clk n = n.
Proof. intros E. unfold UpdateState, UpdateState_on. rewrite E. reflexivity. Qed.

(** X11: [UpdateState] never deletes and never changes a record of
    the ledger: the old ledger is the front of the new one, and every
    record behind it is a peer of the table that had none, entered
    with one visit.  A second merge that finds the same peers adds
    nothing. *)
Theorem UpdateState_extends_ledger (clk clk' : Clock) (n : Network) :
  (exists new,
     Friends (state (UpdateState clk n)) = (Friends (state n) ++ new)%list
     /\ Forall (fun f =>
                  TimesVisited f = 1
                  /\ in_ledger (Friends (state n)) (Friend_PetID f) = false
                  /\ exists p, In p (GetPeers (discovery n))
                               /\ f = newFriend (n_identity n) p) new)
  /\ Friends (state (UpdateState clk' (UpdateState clk n)))
     = Friends (state (UpdateState clk n)).
Proof.
  destruct (enabled n) eqn:E.
  - split.
    + unfold UpdateState.
      rewrite (UpdateState_on_ledger _ clk n E). eexists. split; [reflexivity |].
      apply Forall_forall. intros f Hf. apply list_elem_of_In in Hf.
      apply in_map_iff in Hf as (p & <- & Hp).
      apply filter_In in Hp as [Hp1 Hp2]. apply negb_true_iff in Hp2.
      split; [reflexivity |]. split; [exact Hp2 | eauto].
    + assert (E' : enabled (UpdateState clk n) = true)
        by (rewrite (proj1 (UpdateState_flags clk n)); exact E).
      unfold UpdateState at 1. rewrite UpdateState_discovery.
      rewrite (UpdateState_on_ledger _ clk' _ E').
      rewrite filter_none; [cbn [map]; apply app_nil_r |].
      intros p Hp. apply negb_false_iff. unfold UpdateState.
      rewrite (UpdateState_on_ledger _ clk n E).
      apply merged_in_ledger, Hp.
  - rewrite !(UpdateState_disabled _ n E). split; [| reflexivity].
    exists []. rewrite app_nil_r. split; [reflexivity | constructor].
Qed.

End Reachable.

Section StartStop.

(** X12: the join time, once it is set, is kept by every operation
    other than an import: stopping, starting again, merges, datagrams
    and gossip rounds leave it as it is. *)
Theorem join_time_kept (n : Network) (ops : list Op) :
  IsZero (NetworkJoinTime (state n)) = false ->
  forallb (fun op => negb (is_import op)) ops = true ->
  NetworkJoinTime (state (run n ops).1) = NetworkJoinTime (state n).
Proof.
  intros Hz Hops.
  apply (run_invariant
           (fun n' => NetworkJoinTime (state n') = NetworkJoinTime (state n)));
    [| exact Hops | reflexivity].
  intros n' op Hi Hn'. rewrite <- Hn'. apply step_join_time; [exact Hi |].
  rewrite Hn'. exact Hz.
Qed.

Lemma join_time_kept_witness :
  NetworkJoinTime (state (run Sample.met sample_restart).1)
  = Unix 1705315003 0
  /\ enabled (run Sample.met sample_restart).1 = true.
Proof.
  split; [| vm_compute; reflexivity].
  rewrite (join_time_kept Sample.met sample_restart eq_refl eq_refl).
  vm_compute. reflexivity.
Defined.

(** X13: [Start] outside lonely mode.  When no socket can be bound,
    neither on the fixed port nor on any, the facade is left exactly
    as it was, not enabled by the call, and nothing is sent.  When a
    socket is bound the facade is enabled with the discovery service
    running on that socket and the callbacks set; the peers, the
    gossip state and the ledger are those from before, and the join
    time is the reading of the clock only if none was set. *)
Theorem Start_spec (env : NetEnv) (clk : Clock) (n : Network) :
  isLonely n = false ->
  (listen_fixed env = false -> listen_any env = None ->
   Start env clk n
   = (n, [EvListen DiscoveryPort false; EvListen 0 false]))
  /\ (forall port,
        (if listen_fixed env then Some DiscoveryPort else listen_any env)
        = Some port ->
        enabled (Start env clk n).1 = true
        /\ running (discovery (Start env clk n).1) = true
        /\ callbacks (discovery (Start env clk n).1) = true
        /\ conn (discovery (Start env clk n).1) = Some port
        /\ peers (discovery (Start env clk n).1) = peers (discovery n)
        /\ gossip (Start env clk n).1 = gossip n
        /\ Friends (state (Start env clk n).1) = Friends (state n)
        /\ NetworkJoinTime (state (Start env clk n).1)
           = (if IsZero (NetworkJoinTime (state n)) then clk 3%nat
              else NetworkJoinTime (state n))).
Proof.
  intros HL. unfold Start, DiscoveryService_Start. rewrite HL. split.
  - intros -> ->. reflexivity.
  - intros port Hp.
    destruct (listen_fixed env).
    + apply (inj Some) in Hp. subst port. cbn.
      destruct (IsZero _); repeat split; reflexivity.
    + rewrite Hp. cbn. destruct (IsZero _); repeat split; reflexivity.
Qed.

Lemma Start_spec_witness :
  enabled (Start Sample.env (Sample.clock 1705315000) Sample.nibbles).1 = true
  /\ Start (mkNetEnv false None) (Sample.clock 1705315000) Sample.nibbles
     = (Sample.nibbles, [EvListen DiscoveryPort false; EvListen 0 false]).
Proof.
  split.
  - exact (proj1 (proj2 (Start_spec Sample.env (Sample.clock 1705315000)
                           Sample.nibbles eq_refl) DiscoveryPort eq_refl)).
  - exact (proj1 (Start_spec (mkNetEnv false None)
                    (Sample.clock 1705315000) Sample.nibbles eq_refl)
             eq_refl eq_refl).
Defined.

Lemma Stop_disabled clk n : enabled n = false -> Stop clk n = (n, []).
Proof. intros E. unfold Stop. rewrite E. reflexivity. Qed.

(** [Stop] leaves the facade not enabled and reporting no online
    friend, and keeps the peer table, the gossip state and the whole
    persisted state; on a facade that is not enabled it does nothing,
    so a second [Stop] does nothing and sends nothing.  On an enabled
    facade whose discovery service runs, the service stops running and
    the socket, if there is one, is closed last. *)
Theorem Stop_spec (clk clk' : Clock) (n : Network) :
  enabled (Stop clk n).1 = false
  /\ GetOnlineFriendCount (Stop clk n).1 = 0
  /\ peers (discovery (Stop clk n).1) = peers (discovery n)
  /\ gossip (Stop clk n).1 = gossip n
  /\ state (Stop clk n).1 = state n
  /\ (enabled n = false -> Stop clk n = (n, []))
  /\ Stop clk' (Stop clk n).1 = ((Stop clk n).1, [])
  /\ (enabled n = true -> running (discovery n) = true ->
      running (discovery (Stop clk n).1) = false
      /\ (forall port, conn (discovery n) = Some port ->
            exists evs, (Stop clk n).2 = (evs ++ [EvClose])%list)).
Proof.
  assert (HE : enabled (Stop clk n).1 = false) by apply Stop_flags.
  split; [exact HE |].
  split; [unfold GetOnlineFriendCount; rewrite HE; reflexivity |].
  split; [apply Stop_peers |].
  split; [| split; [| split; [exact (Stop_disabled clk n)
                            | split; [exact (Stop_disabled clk' _ HE) |]]]].
  - unfold Stop. destruct (negb (enabled n)); [reflexivity |].
    destruct (DiscoveryService_Stop clk (discovery n)). reflexivity.
  - unfold Stop. destruct (negb (enabled n)); [reflexivity |].
    destruct (DiscoveryService_Stop clk (discovery n)). reflexivity.
  - intros E R. unfold Stop, DiscoveryService_Stop. rewrite E, R. cbn.
    split; [reflexivity |]. intros port ->. eauto.
Qed.

End StartStop.

(** * More of the gossip service *)

Section Gossip.

Lemma SendMessage_recipients ds msg :
  SendMessage ds msg
  = if Encode_ok msg then map (fun a => EvWrite a msg) (recipients ds) else [].
Proof.
  unfold SendMessage, recipients. destruct (Encode_ok msg); [| reflexivity].
  induction (GetPeers ds) as [| p l IH]; [reflexivity |].
  cbn [flat_map omap list_omap]. rewrite IH.
  destruct (Address p), (IsOnline p); reflexivity.
Qed.

Lemma recipients_online ds :
  (length (recipients ds) <= length (GetOnlinePeers ds))%nat.
Proof.
  unfold recipients, GetOnlinePeers.
  induction (GetPeers ds) as [| p l IH]; [reflexivity |].
  cbn [omap list_omap List.filter].
  destruct (IsOnline p); [| exact IH].
  destruct (Address p); cbn; lia.
Qed.

(** [SendMessage] writes the message once to every peer that is
    online and has an address, in the order of the table, and to
    nobody else; it writes nothing at all when the message cannot be
    encoded.  It never writes to more peers than are online. *)
Theorem SendMessage_spec (ds : DiscoveryService) (msg : Message) :
  SendMessage ds msg
  = (if Encode_ok msg then map (fun a => EvWrite a msg) (recipients ds)
     else [])
  /\ (forall a, In a (recipients ds) <->
        exists p, In p (GetPeers ds) /\ IsOnline p = true
                  /\ Address p = Some a)
  /\ Z.of_nat (length (SendMessage ds msg)) <= GetOnlinePeerCount ds.
Proof.
  split; [apply SendMessage_recipients |]. split.
  - intros a. unfold recipients.
    rewrite <- list_elem_of_In, list_elem_of_omap. split.
    + intros (p & Hp & H). exists p. rewrite <- list_elem_of_In.
      destruct (IsOnline p); [auto | discriminate].
    + intros (p & Hp & Ho & Ha). exists p. rewrite list_elem_of_In.
      rewrite Ho. auto.
  - rewrite SendMessage_recipients. unfold GetOnlinePeerCount.
    pose proof (recipients_online ds).
    destruct (Encode_ok msg); [rewrite length_map | cbn]; lia.
Qed.

Lemma applyMessage_counters gs msg :
  messagesOriginated (applyMessage gs msg) = messagesOriginated gs
  /\ messagesPropagated (applyMessage gs msg) = messagesPropagated gs
  /\ uniquePeersReached (applyMessage gs msg) = uniquePeersReached gs
  /\ gs_identity (applyMessage gs msg) = gs_identity gs.
Proof.
  unfold applyMessage.
  repeat match goal with
         | |- context [if ?b then _ else _] => destruct b
         | |- context [match ?o with Some _ => _ | None => _ end] => destruct o
         | |- context [let (_, _) := ?p in _] => destruct p
         end; cbn; auto.
Qed.

(** A received message that may propagate is passed on with its
    hop budget lowered by one and nothing else changed, to the peers
    that [SendMessage] writes to, and is counted once as propagated;
    a message that may not propagate is passed to nobody, keeps its
    budget and is not counted.  Receiving never changes the counts of
    originated messages and of peers reached. *)
Theorem onMessageReceived_relay (ds : DiscoveryService) (gs : GossipService)
    (msg : Message) :
  (onMessageReceived ds gs msg).1.2
  = (if ShouldPropagate msg then with_TTL (TTL msg - 1) msg else msg)
  /\ (onMessageReceived ds gs msg).2
     = (if ShouldPropagate msg
        then SendMessage ds (with_TTL (TTL msg - 1) msg) else [])
  /\ messagesPropagated (onMessageReceived ds gs msg).1.1
     = (if ShouldPropagate msg then wrap64 (messagesPropagated gs + 1)
        else messagesPropagated gs)
  /\ messagesOriginated (onMessageReceived ds gs msg).1.1
     = messagesOriginated gs
  /\ uniquePeersReached (onMessageReceived ds gs msg).1.1
     = uniquePeersReached gs.
Proof.
  destruct (applyMessage_counters gs msg) as (H1 & H2 & H3 & _).
  unfold onMessageReceived.
  destruct (ShouldPropagate msg) eqn:E; cbn; [| auto].
  assert (HT : DecrementTTL msg = with_TTL (TTL msg - 1) msg).
  { unfold DecrementTTL. destruct (Z.gtb_spec (TTL msg) 0); [reflexivity |].
    rewrite ShouldPropagate_TTL in E by lia. discriminate. }
  rewrite HT, H1, H2, H3. auto.
Qed.

Lemma Unmarshal_unparsed {A} (field : string -> JSON.value -> A -> option A)
    (data : string) (zero : A) :
  JSON.parse data = None -> Codec.Unmarshal field data zero = None.
Proof. intros H. unfold Codec.Unmarshal. rewrite H. reflexivity. Qed.

(** X14: a message whose payload is no JSON text is stored nowhere
    and changes no mood, whatever its type, because [DecodePayload]
    fails; but it is passed on like any other message of its type. *)
Theorem onMessageReceived_bad_payload (ds : DiscoveryService)
    (gs : GossipService) (msg : Message) :
  JSON.parse (Payload msg) = None ->
  applyMessage gs msg = gs
  /\ receivedMemories (onMessageReceived ds gs msg).1.1 = receivedMemories gs
  /\ sharedDreams (onMessageReceived ds gs msg).1.1 = sharedDreams gs
  /\ deathsWitnessed (onMessageReceived ds gs msg).1.1 = deathsWitnessed gs
  /\ GetCurrentMood (onMessageReceived ds gs msg).1.1 = GetCurrentMood gs
  /\ (onMessageReceived ds gs msg).2
     = (if ShouldPropagate msg then SendMessage ds (DecrementTTL msg) else []).
Proof.
  intros H.
  assert (HA : applyMessage gs msg = gs).
  { unfold applyMessage, DecodePayload_Memory, DecodePayload_Dream,
      DecodePayload_Mood, DecodePayload_Death.
    rewrite !(Unmarshal_unparsed _ _ _ H).
    repeat match goal with
           | |- context [if ?b then _ else _] => destruct b
           end; reflexivity. }
  split; [exact HA |].
  unfold onMessageReceived. rewrite HA.
  destruct (ShouldPropagate msg); cbn; auto.
Qed.

Lemma onMessageReceived_bad_payload_witness :
  receivedMemories
    (onMessageReceived (discovery Sample.met) (gossip Sample.met)
                       sample_garbled).1.1 = []
  /\ (onMessageReceived (discovery Sample.met) (gossip Sample.met)
                        sample_garbled).2
     = [EvWrite Sample.addr (with_TTL 2 sample_garbled)].
Proof.
  destruct (onMessageReceived_bad_payload (discovery Sample.met)
              (gossip Sample.met) sample_garbled eq_refl)
    as (_ & H1 & _ & _ & _ & H2).
  split; [rewrite H1 | rewrite H2]; vm_compute; reflexivity.
Defined.

(** X15: a dream is kept only when the name fingerprints of the
    receiver and of the sender are equal: a dream message from any
    other sender changes no buffer and no mood, though it is passed
    on; one from a sender with the same fingerprint, when its payload
    decodes, becomes the newest shared dream. *)
Theorem dreams_only_from_namesakes (ds : DiscoveryService)
    (gs : GossipService) (msg : Message) :
  Type_ msg = MsgTypeDream ->
  (CanShareDreamsWith (gs_identity gs) (From msg) = false ->
   applyMessage gs msg = gs
   /\ sharedDreams (onMessageReceived ds gs msg).1.1 = sharedDreams gs)
  /\ (forall dream,
        CanShareDreamsWith (gs_identity gs) (From msg) = true ->
        DecodePayload_Dream msg = Some dream ->
        sharedDreams (onMessageReceived ds gs msg).1.1
        = append_capped 20 (sharedDreams gs) dream
        /\ last (sharedDreams (onMessageReceived ds gs msg).1.1)
           = Some dream
        /\ receivedMemories (onMessageReceived ds gs msg).1.1
           = receivedMemories gs
        /\ deathsWitnessed (onMessageReceived ds gs msg).1.1
           = deathsWitnessed gs).
Proof.
  intros HT.
  assert (HA : applyMessage gs msg
               = match DecodePayload_Dream msg with
                 | Some dream =>
                     if CanShareDreamsWith (gs_identity gs) (From msg)
                     then with_sharedDreams
                            (append_capped 20 (sharedDreams gs) dream) gs
                     else gs
                 | None => gs
                 end).
  { unfold applyMessage. rewrite HT. reflexivity. }
  split.
  - intros HC. rewrite HC in HA.
    assert (HA' : applyMessage gs msg = gs)
      by (rewrite HA; destruct (DecodePayload_Dream msg); reflexivity).
    split; [exact HA' |]. unfold onMessageReceived. rewrite HA'.
    destruct (ShouldPropagate msg); reflexivity.
  - intros dream HC HD. rewrite HC, HD in HA.
    unfold onMessageReceived. rewrite HA.
    assert (HL : last (append_capped 20 (sharedDreams gs) dream) = Some dream).
    { unfold append_capped.
      destruct (Nat.ltb_spec 20 (length (sharedDreams gs ++ [dream])))
        as [Hlt | _]; [| apply last_snoc].
      destruct (sharedDreams gs) as [| d l]; [cbn in Hlt; lia |].
      cbn [app tl]. apply last_snoc. }
    destruct (ShouldPropagate msg); cbn; auto.
Qed.

Lemma dreams_only_from_namesakes_witness :
  CanShareDreamsWith (gs_identity (gossip Sample.met)) (From sample_dream)
  = false
  /\ sharedDreams
       (onMessageReceived (discovery Sample.met) (gossip Sample.met)
                          sample_dream).1.1 = []
  /\ length
       (sharedDreams
          (onMessageReceived (discovery Sample.met)
             (NewGossipService Sample.fluffy Sample.seed) sample_dream).1.1)
     = 1%nat.
Proof.
  split; [vm_compute; reflexivity |]. split.
  - destruct (dreams_only_from_namesakes (discovery Sample.met)
                (gossip Sample.met) sample_dream eq_refl) as [H _].
    destruct H as [_ H]; [vm_compute; reflexivity |].
    rewrite H. vm_compute. reflexivity.
  - vm_compute. reflexivity.
Defined.

(** The state after a sequence of received messages. *)
Lemma received_all_within_caps ds msgs gs :
  within_caps gs ->
  within_caps (fold_left (fun g m => (onMessageReceived ds g m).1.1) msgs gs).
Proof.
  revert gs. induction msgs as [| m msgs IH]; intros gs H; [exact H |].
  cbn [fold_left]. apply IH, onMessageReceived_within_caps, H.
Qed.

End Gossip.

Section GossipBuffers.

(** X16: receiving never overfills a buffer: from a state in which the
    memories, the dreams and the deaths are within their capacities
    (50, 20 and 100), any sequence of received messages leads to such
    a state. *)
Theorem received_messages_keep_caps (ds : DiscoveryService)
    (gs : GossipService) (msgs : list Message) :
  within_caps gs ->
  within_caps (fold_left (fun g m => (onMessageReceived ds g m).1.1) msgs gs).
Proof. apply received_all_within_caps. Qed.

Lemma received_messages_keep_caps_witness :
  within_caps
    (fold_left (fun g m => (onMessageReceived (discovery Sample.met) g m).1.1)
               sample_flood (gossip Sample.nibbles))
  /\ length
       (receivedMemories
          (fold_left
             (fun g m => (onMessageReceived (discovery Sample.met) g m).1.1)
             sample_flood (gossip Sample.nibbles))) = 50%nat.
Proof.
  split; [| vm_compute; reflexivity].
  apply (received_messages_keep_caps (discovery Sample.met)
           (gossip Sample.nibbles) sample_flood).
  vm_compute. repeat split; lia.
Defined.

(** X17: a memory or a death whose payload decodes is put behind the
    newest entry of its buffer; when the buffer was at its capacity
    (50 memories, 100 deaths) the oldest entry is dropped so that the
    length stays, below capacity nothing is dropped. *)
Theorem received_entry_is_newest (ds : DiscoveryService) (gs : GossipService)
    (msg : Message) :
  (forall p,
     Type_ msg = MsgTypeMemory -> DecodePayload_Memory msg = Some p ->
     (length (receivedMemories gs) <= 50)%nat ->
     receivedMemories (onMessageReceived ds gs msg).1.1
     = ((if (length (receivedMemories gs) <? 50)%nat
         then receivedMemories gs else tl (receivedMemories gs)) ++ [p])%list)
  /\ (forall d,
        Type_ msg = MsgTypeDeath -> DecodePayload_Death msg = Some d ->
        (length (deathsWitnessed gs) <= 100)%nat ->
        deathsWitnessed (onMessageReceived ds gs msg).1.1
        = ((if (length (deathsWitnessed gs) <? 100)%nat
            then deathsWitnessed gs else tl (deathsWitnessed gs)) ++ [d])%list).
Proof.
  split.
  - intros p HT HD HL.
    assert (HA : applyMessage gs msg
                 = with_receivedMemories
                     (append_capped 50 (receivedMemories gs) p) gs).
    { unfold applyMessage. rewrite HT, HD. reflexivity. }
    assert (HR : receivedMemories (onMessageReceived ds gs msg).1.1
                 = append_capped 50 (receivedMemories gs) p).
    { unfold onMessageReceived. rewrite HA.
      destruct (ShouldPropagate msg); reflexivity. }
    rewrite HR.
    destruct (Nat.ltb_spec (length (receivedMemories gs)) 50) as [Hlt | Hge].
    + apply append_capped_below, Hlt.
    + destruct (append_capped_full 50 (receivedMemories gs) p) as [H _];
        [lia | lia |].
      rewrite H. destruct (receivedMemories gs); [cbn in Hge; lia |].
      reflexivity.
  - intros d HT HD HL.
    assert (HA : applyMessage gs msg
                 = with_deathsWitnessed
                     (append_capped 100 (deathsWitnessed gs) d) gs).
    { unfold applyMessage. rewrite HT, HD. reflexivity. }
    assert (HR : deathsWitnessed (onMessageReceived ds gs msg).1.1
                 = append_capped 100 (deathsWitnessed gs) d).
    { unfold onMessageReceived. rewrite HA.
      destruct (ShouldPropagate msg); reflexivity. }
    rewrite HR.
    destruct (Nat.ltb_spec (length (deathsWitnessed gs)) 100) as [Hlt | Hge].
    + apply append_capped_below, Hlt.
    + destruct (append_capped_full 100 (deathsWitnessed gs) d) as [H _];
        [lia | lia |].
      rewrite H. destruct (deathsWitnessed gs); [cbn in Hge; lia |].
      reflexivity.
Qed.

End GossipBuffers.

Section GossipSends.
Import JSON.

Lemma Intn_range (r : Rand) (n : Z) :
  0 < n -> 0 <= (Intn r n).1 < n /\ rnd_pos (Intn r n).2 = S (rnd_pos r).
Proof.
  intros H. unfold Intn. cbn. split; [apply Z.mod_pos_bound, H | reflexivity].
Qed.

Lemma nth_table (l : list string) (i : Z) :
  0 <= i < Z.of_nat (length l) -> In (nth (Z.to_nat i) l "") l.
Proof. intros H. apply nth_In. lia. Qed.

Lemma tables_valid :
  forallb (utf8_valid 0) sharedMemoryFragments = true
  /\ forallb (utf8_valid 0) contagiousMoods = true
  /\ forallb (utf8_valid 0) dreamSymbols = true.
Proof. vm_compute. auto. Qed.

Lemma dreamSymbols_plain :
  forallb (all_chars plain) dreamSymbols = true.
Proof. vm_compute. reflexivity. Qed.

Lemma forallb_In {A} (f : A -> bool) (l : list A) (x : A) :
  forallb f l = true -> In x l -> f x = true.
Proof. intros H. rewrite forallb_forall in H. apply H. Qed.

(** X18: [shareRandomMemory] makes a memory whose fragment is one of
    the twenty of the table, whose emotion is one of the eight moods,
    whose intensity is between 30 and 99 and whose time is the reading
    of the clock, with three draws.  When the message can be made
    (the time has a year within 0..9999) it goes to [SendMessage], its
    payload decodes to that memory, and one more message is counted
    as originated, whether or not any peer is there to hear it;
    nothing that was received is touched. *)
Theorem shareRandomMemory_spec (ds : DiscoveryService) (clk : Clock)
    (gs : GossipService) :
  wf_time (clk 0%nat) = true ->
  exists memory,
    In (Fragment memory) sharedMemoryFragments
    /\ In (Emotion memory) contagiousMoods
    /\ 30 <= Intensity memory <= 99
    /\ OriginTime memory = clk 0%nat
    /\ match NewMessage (clk 1%nat) (clk 2%nat) (clk 3%nat) MsgTypeMemory
                        (gs_identity gs) (OfMemory memory) with
       | Some msg =>
           DecodePayload_Memory msg = Some memory
           /\ (shareRandomMemory ds clk gs).2 = SendMessage ds msg
           /\ messagesOriginated (shareRandomMemory ds clk gs).1
              = wrap64 (messagesOriginated gs + 1)
       | None =>
           (shareRandomMemory ds clk gs).2 = []
           /\ messagesOriginated (shareRandomMemory ds clk gs).1
              = messagesOriginated gs
       end
    /\ receivedMemories (shareRandomMemory ds clk gs).1 = receivedMemories gs
    /\ sharedDreams (shareRandomMemory ds clk gs).1 = sharedDreams gs
    /\ deathsWitnessed (shareRandomMemory ds clk gs).1 = deathsWitnessed gs
    /\ rnd_pos (randomSource (shareRandomMemory ds clk gs).1)
       = (3 + rnd_pos (randomSource gs))%nat.
Proof.
  intros Ht. unfold shareRandomMemory.
  destruct (Intn (randomSource gs) (Z.of_nat (length sharedMemoryFragments)))
    as [i1 r1] eqn:E1.
  destruct (Intn r1 (Z.of_nat (length contagiousMoods))) as [i2 r2] eqn:E2.
  destruct (Intn r2 70) as [i3 r3] eqn:E3.
  destruct (Intn_range (randomSource gs)
              (Z.of_nat (length sharedMemoryFragments)) ltac:(cbn; lia))
    as [R1 P1].
  destruct (Intn_range r1 (Z.of_nat (length contagiousMoods))
              ltac:(cbn; lia)) as [R2 P2].
  destruct (Intn_range r2 70 ltac:(lia)) as [R3 P3].
  rewrite E1 in R1, P1. rewrite E2 in R2, P2. rewrite E3 in R3, P3.
  cbn [fst snd] in *.
  set (memory := mkMemoryPayload _ _ _ _).
  assert (HF : In (Fragment memory) sharedMemoryFragments)
    by (apply nth_table, R1).
  assert (HE : In (Emotion memory) contagiousMoods) by (apply nth_table, R2).
  assert (HI : Intensity memory = 30 + i3).
  { unfold memory. cbn [Intensity]. unfold wrap64.
    rewrite Z.mod_small by lia. lia. }
  exists memory. split; [exact HF |]. split; [exact HE |].
  split; [lia |]. split; [reflexivity |].
  destruct tables_valid as (V1 & V2 & _).
  assert (Hwf : wf_payload (OfMemory memory) = true).
  { cbn [wf_payload]. rewrite (forallb_In _ _ _ V1 HF), (forallb_In _ _ _ V2 HE).
    rewrite HI. cbn [andb]. apply andb_true_intro. split; [| exact Ht].
    unfold in_int64. apply andb_true_intro.
    split; [apply Z.leb_le | apply Z.ltb_lt]; lia. }
  destruct (NewMessage _ _ _ _ _ (OfMemory memory)) as [msg |] eqn:EN.
  - pose proof (NewMessage_decodes _ _ _ _ _ _ _ Hwf EN) as HD.
    cbn [decodes_to] in HD. cbn. rewrite P3, P2, P1. repeat split; auto.
  - cbn. rewrite P3, P2, P1. repeat split; auto.
Qed.

Lemma shareRandomMemory_spec_witness :
  exists memory,
    In (Fragment memory) sharedMemoryFragments
    /\ 30 <= Intensity memory <= 99
    /\ OriginTime memory = Unix 1705315200 0.
Proof.
  destruct (shareRandomMemory_spec (discovery Sample.met)
              (Sample.clock 1705315200) (gossip Sample.met) eq_refl)
    as (memory & H1 & _ & H3 & H4 & _).
  exists memory. auto.
Defined.

Lemma draw_symbols_spec (n : nat) (r : Rand) :
  length (draw_symbols n r).1 = n
  /\ Forall (fun s => In s dreamSymbols) (draw_symbols n r).1
  /\ rnd_pos (draw_symbols n r).2 = (n + rnd_pos r)%nat.
Proof.
  revert r. induction n as [| n IH]; intros r; [cbn; auto |].
  cbn [draw_symbols].
  destruct (Intn r (Z.of_nat (length dreamSymbols))) as [i r1] eqn:E.
  destruct (Intn_range r (Z.of_nat (length dreamSymbols)) ltac:(cbn; lia))
    as [R P].
  rewrite E in R, P. cbn [fst snd] in R, P.
  destruct (IH r1) as (I1 & I2 & I3).
  destruct (draw_symbols n r1) as [l r2]. cbn [fst snd length] in *.
  split; [lia |]. split; [| lia].
  constructor; [apply nth_table, R | exact I2].
Qed.

Lemma generateDream_shared (sharedWith : string) (r : Rand) :
  SharedWith (generateDream sharedWith r).1 = sharedWith.
Proof.
  unfold generateDream. destruct (Intn r 3) as [n r1].
  destruct (draw_symbols _ r1) as [symbols r2].
  destruct (Float32 r2). reflexivity.
Qed.

(** X19: a dream made by [generateDream] has two, three or four
    symbols, each one of the fifteen of the table; its text names the
    first of them; it carries the given short ID; and it can always be
    sent: when that ID is valid UTF-8, every field is.  Making it
    takes two draws and one for every symbol. *)
Theorem generateDream_spec (sharedWith : string) (r : Rand) :
  (2 <= length (Symbols (generateDream sharedWith r).1) <= 4)%nat
  /\ Forall (fun s => In s dreamSymbols) (Symbols (generateDream sharedWith r).1)
  /\ (exists s rest,
        Symbols (generateDream sharedWith r).1 = s :: rest
        /\ DreamText (generateDream sharedWith r).1
           = "I dreamed of " +:+ s +:+ "...")
  /\ SharedWith (generateDream sharedWith r).1 = sharedWith
  /\ rnd_pos (generateDream sharedWith r).2
     = (2 + length (Symbols (generateDream sharedWith r).1) + rnd_pos r)%nat
  /\ (utf8_valid 0 sharedWith = true ->
      wf_payload (OfDream (generateDream sharedWith r).1) = true).
Proof.
  unfold generateDream.
  destruct (Intn r 3) as [n r1] eqn:E.
  destruct (Intn_range r 3 ltac:(lia)) as [R P].
  rewrite E in R, P. cbn [fst snd] in R, P.
  destruct (draw_symbols_spec (Z.to_nat (2 + n)) r1) as (D1 & D2 & D3).
  destruct (draw_symbols (Z.to_nat (2 + n)) r1) as [symbols r2].
  cbn [fst snd] in *.
  destruct (Float32 r2) as [x r3] eqn:EF.
  assert (P3 : rnd_pos r3 = S (rnd_pos r2))
    by (unfold Float32 in EF; injection EF as _ <-; reflexivity).
  cbn [fst snd Symbols DreamText SharedWith].
  split; [lia |]. split; [exact D2 |]. split.
  - destruct symbols as [| s rest]; [cbn in D1; lia |].
    exists s, rest. split; reflexivity.
  - split; [reflexivity |]. split; [lia |].
    intros Hs. cbn [wf_payload DreamText Symbols SharedWith]. rewrite Hs.
    destruct tables_valid as (_ & _ & V).
    assert (Hsym : forallb (utf8_valid 0) symbols = true).
    { apply forallb_forall. intros s Hin.
      rewrite Forall_forall in D2.
      apply (forallb_In _ _ _ V), D2, list_elem_of_In, Hin. }
    rewrite Hsym, !andb_true_r.
    destruct symbols as [| s rest]; [cbn in D1; lia |].
    cbn [nth]. apply ascii_utf8_valid.
    rewrite !all_chars_app.
    assert (Hp : all_chars plain s = true).
    { apply (forallb_In _ _ _ dreamSymbols_plain).
      rewrite Forall_forall in D2. apply D2. left. }
    unfold plain in Hp. rewrite Hp. reflexivity.
Qed.

End GossipSends.

Section GossipRounds.

Lemma same_but_source_refl gs : same_but_source gs gs.
Proof. unfold same_but_source. repeat split; auto. Qed.

Lemma same_but_source_random r gs : same_but_source gs (with_randomSource r gs).
Proof. unfold same_but_source. cbn. repeat split; auto. Qed.

Lemma same_but_source_trans_random r gs gs' :
  same_but_source (with_randomSource r gs) gs' -> same_but_source gs gs'.
Proof. unfold same_but_source. cbn. tauto. Qed.

Lemma shareRandomMemory_frame ds clk gs :
  same_but_source gs (shareRandomMemory ds clk gs).1.
Proof.
  unfold shareRandomMemory.
  destruct (Intn _ _) as [i1 r1]. destruct (Intn r1 _) as [i2 r2].
  destruct (Intn r2 70) as [i3 r3].
  destruct (NewMessage _ _ _ _ _ _); unfold same_but_source; cbn;
    repeat split; auto.
Qed.

Lemma shareMood_frame ds clk gs :
  same_but_source gs (shareMood ds clk gs).1
  /\ messagesOriginated (shareMood ds clk gs).1 = messagesOriginated gs.
Proof.
  unfold shareMood. destruct (Float32 _) as [x r].
  destruct (NewMessage _ _ _ _ _ _); unfold same_but_source; cbn;
    repeat split; auto.
Qed.

(** The loop of [tryShareDream]: it sends at most one dream, made for
    an online peer with the fingerprint of the own name. *)
Lemma tryShareDream_loop_spec ds clk (l : list Peer) :
  forall gs,
    (same_but_source gs (tryShareDream_loop ds clk gs l).1
     /\ messagesOriginated (tryShareDream_loop ds clk gs l).1
        = messagesOriginated gs)
    /\ (forallb (fun p => negb (CanShareDreamsWith (gs_identity gs)
                                                   (Identity p))) l = true ->
        tryShareDream_loop ds clk gs l = (gs, []))
    /\ ((tryShareDream_loop ds clk gs l).2 = []
        \/ exists p dream msg,
             In p l
             /\ CanShareDreamsWith (gs_identity gs) (Identity p) = true
             /\ SharedWith dream = ShortID (Identity p)
             /\ Type_ msg = MsgTypeDream /\ From msg = gs_identity gs
             /\ Codec.Marshal_payload (OfDream dream) = Some (Payload msg)
             /\ (tryShareDream_loop ds clk gs l).2 = SendMessage ds msg).
Proof.
  induction l as [| p l IH]; intros gs.
  { cbn. split; [split; [apply same_but_source_refl | reflexivity] |]. auto. }
  cbn [tryShareDream_loop forallb].
  destruct (CanShareDreamsWith (gs_identity gs) (Identity p)) eqn:EC.
  - destruct (generateDream (ShortID (Identity p)) (randomSource gs))
      as [dream r] eqn:EG.
    assert (HS : SharedWith dream = ShortID (Identity p)).
    { pose proof (generateDream_shared (ShortID (Identity p)) (randomSource gs))
        as H. rewrite EG in H. exact H. }
    destruct (NewMessage _ _ _ _ _ (OfDream dream)) as [msg |] eqn:EN.
    + cbn [fst snd]. split; [split; [apply same_but_source_random | reflexivity] |].
      split; [discriminate |]. right. exists p, dream, msg.
      unfold NewMessage in EN.
      destruct (Codec.Marshal_payload (OfDream dream)) as [b |] eqn:EM;
        [| discriminate].
      apply (inj Some) in EN. subst msg. cbn.
      repeat split; auto; left; reflexivity.
    + destruct (IH (with_randomSource r gs)) as ((I1 & I1') & _ & I3).
      split; [split; [exact (same_but_source_trans_random _ _ _ I1) | exact I1'] |].
      split; [discriminate |].
      destruct I3 as [I3 | (p' & d' & m' & H1 & H2 & H3 & H4 & H5 & H6 & H7)];
        [left; exact I3 |].
      right. exists p', d', m'. cbn in H2, H5.
      repeat split; auto; right; exact H1.
  - destruct (IH gs) as (I1 & I2 & I3).
    split; [exact I1 |]. split; [exact I2 |].
    destruct I3 as [I3 | (p' & d' & m' & H1 & H2 & H3 & H4 & H5 & H6 & H7)];
      [left; exact I3 |].
    right. exists p', d', m'. repeat split; auto; right; exact H1.
Qed.

(** X20: [tryShareDream] sends at most one dream in a round, and only
    when a peer that is online has the name fingerprint of the own
    pet: it is made for the first such peer for which a message can be
    made, and carries that peer's short ID.  With no such peer online
    nothing is sent and not even a draw is taken.  Dreams are not
    counted as originated messages. *)
Theorem tryShareDream_spec (ds : DiscoveryService) (clk : Clock)
    (gs : GossipService) :
  (forallb (fun p => negb (CanShareDreamsWith (gs_identity gs) (Identity p)))
           (GetOnlinePeers ds) = true ->
   tryShareDream ds clk gs = (gs, []))
  /\ ((tryShareDream ds clk gs).2 = []
      \/ exists p dream msg,
           In p (GetOnlinePeers ds)
           /\ CanShareDreamsWith (gs_identity gs) (Identity p) = true
           /\ SharedWith dream = ShortID (Identity p)
           /\ Type_ msg = MsgTypeDream /\ From msg = gs_identity gs
           /\ Codec.Marshal_payload (OfDream dream) = Some (Payload msg)
           /\ (tryShareDream ds clk gs).2 = SendMessage ds msg)
  /\ messagesOriginated (tryShareDream ds clk gs).1 = messagesOriginated gs.
Proof.
  unfold tryShareDream.
  destruct (tryShareDream_loop_spec ds clk (GetOnlinePeers ds) gs)
    as ((_ & H1) & H2 & H3).
  auto.
Qed.

(** X21: a round of the gossip loop, whatever it draws, touches
    nothing that was received (memories, dreams, deaths), not the
    mood, not the counts of propagated messages and of peers reached:
    it moves the random source on and counts at most one more
    originated message. *)
Theorem gossipTick_frame (ds : DiscoveryService) (clk : Clock)
    (gs : GossipService) :
  same_but_source gs (gossipTick ds clk gs).1.
Proof.
  unfold gossipTick. destruct (Intn (randomSource gs) 10) as [action r].
  apply (same_but_source_trans_random r).
  destruct (action <? 4); [apply shareRandomMemory_frame |].
  destruct (action <? 6); [apply shareMood_frame |].
  destruct (action <? 8); [| apply same_but_source_refl].
  apply (tryShareDream_loop_spec ds clk (GetOnlinePeers ds)).
Qed.

(** X22: a peer that is lost.  When its pet was not alive nothing
    happens and no draw is taken.  When it was alive one draw is
    taken, and either nothing else changes or one death is put behind
    the deaths witnessed: of the name of the peer, at the reading of
    the clock, of age 0 and cause unknown.  Memories, dreams, mood and
    counts stay as they are. *)
Theorem onPeerLost_spec (ds : DiscoveryService) (clk : Clock)
    (gs : GossipService) (peer : Peer) :
  (IsAlive (Identity peer) = false -> onPeerLost ds clk gs peer = (gs, []))
  /\ (IsAlive (Identity peer) = true ->
      rnd_pos (randomSource (onPeerLost ds clk gs peer).1)
      = S (rnd_pos (randomSource gs))
      /\ (deathsWitnessed (onPeerLost ds clk gs peer).1 = deathsWitnessed gs
          \/ deathsWitnessed (onPeerLost ds clk gs peer).1
             = (deathsWitnessed gs
                ++ [mkDeathPayload (DisplayName (Identity peer)) (clk 0%nat)
                                   0 "Connection lost..." "unknown"])%list))
  /\ receivedMemories (onPeerLost ds clk gs peer).1 = receivedMemories gs
  /\ sharedDreams (onPeerLost ds clk gs peer).1 = sharedDreams gs
  /\ GetCurrentMood (onPeerLost ds clk gs peer).1 = GetCurrentMood gs
  /\ GetNetworkInfluence (onPeerLost ds clk gs peer).1
     = GetNetworkInfluence gs.
Proof.
  unfold onPeerLost.
  destruct (IsAlive (Identity peer)); [| repeat split; auto; discriminate].
  unfold Float32, recordPossibleDeath.
  destruct (Qltb _ _); cbn; repeat split; auto; discriminate.
Qed.

End GossipRounds.

Section DeathNews.
Import JSON.

(** X23: the facade's [AnnounceDeath].  A facade that is not enabled
    sends nothing.  An enabled one makes one death message, of cause
    neglect, with the given name, age and last words and the reading
    of the clock, and hands it to [SendMessage]; the message may
    propagate, and a gossip service that receives it puts exactly that
    death behind the deaths it has witnessed. *)
Theorem AnnounceDeath_spec (clk : Clock) (n : Network) (petName : string)
    (age : Z) (lastWords : string) :
  (enabled n = false -> AnnounceDeath clk n petName age lastWords = [])
  /\ (enabled n = true ->
      wf_payload (OfDeath (mkDeathPayload petName (clk 0%nat) age lastWords
                                          "neglect")) = true ->
      match NewMessage (clk 1%nat) (clk 2%nat) (clk 3%nat) MsgTypeDeath
                       (gs_identity (gossip n))
                       (OfDeath (mkDeathPayload petName (clk 0%nat) age
                                                lastWords "neglect")) with
      | Some msg =>
          AnnounceDeath clk n petName age lastWords
          = SendMessage (discovery n) msg
          /\ ShouldPropagate msg = true
          /\ (forall ds gs,
                deathsWitnessed (onMessageReceived ds gs msg).1.1
                = append_capped 100 (deathsWitnessed gs)
                    (mkDeathPayload petName (clk 0%nat) age lastWords
                                    "neglect"))
      | None => AnnounceDeath clk n petName age lastWords = []
      end).
Proof.
  unfold AnnounceDeath, GossipService_AnnounceDeath. split.
  - intros ->. reflexivity.
  - intros -> Hwf. cbn [negb].
    destruct (NewMessage _ _ _ _ _ _) as [msg |] eqn:EN; [| reflexivity].
    pose proof (NewMessage_decodes _ _ _ _ _ _ _ Hwf EN) as HD.
    cbn [decodes_to] in HD.
    assert (HT : Type_ msg = MsgTypeDeath /\ TTL msg = 5).
    { unfold NewMessage in EN. destruct (Codec.Marshal_payload _);
        [| discriminate].
      apply (inj Some) in EN. subst msg. split; reflexivity. }
    destruct HT as [HT HL].
    split; [reflexivity |]. split.
    + unfold ShouldPropagate. rewrite HT, HL. reflexivity.
    + intros ds gs. unfold onMessageReceived, applyMessage.
      rewrite HT, HD. cbn [Z.eqb MsgTypeDeath MsgTypeMemory MsgTypeDream
                           MsgTypeMoodUpdate].
      destruct (ShouldPropagate msg); reflexivity.
Qed.

End DeathNews.

(** * The rest of gossip.go, protocol.go and network.go *)

Section Recent.

Lemma pick_spec {A} (l : list A) (r : Rand) :
  ((pick l r).1 = None <-> l = [])
  /\ (forall x, (pick l r).1 = Some x -> In x l)
  /\ rnd_pos (pick l r).2
     = (match l with [] => rnd_pos r | _ => S (rnd_pos r) end)
  /\ rnd_float (pick l r).2 = rnd_float r
  /\ rnd_int (pick l r).2 = rnd_int r.
Proof.
  destruct l as [| a l]; [cbn; repeat split; auto; discriminate |].
  unfold pick.
  destruct (Intn_range r (Z.of_nat (length (a :: l))) ltac:(cbn; lia))
    as [R P].
  destruct (Intn r (Z.of_nat (length (a :: l)))) as [i r'] eqn:E.
  cbn [fst snd] in *.
  assert (Hlt : (Z.to_nat i < length (a :: l))%nat) by lia.
  split; [| split; [| split; [exact P |]]].
  - split; [| discriminate]. intros H.
    apply nth_error_None in H. lia.
  - intros x H. apply nth_error_In in H. exact H.
  - unfold Intn in E. injection E as _ <-. split; reflexivity.
Qed.

(** X24: [GetRecentMemory], [GetRecentDream] and [GetRecentDeath]
    answer [nil] exactly when their buffer is empty, and then take no
    draw and leave the gossip state as it is; otherwise they answer
    an entry of the buffer, the index being always within it, with
    exactly one draw.  They change nothing else of the gossip state.
    So after a memory whose payload decodes has been received,
    [GetRecentMemory] does not answer [nil]. *)
Theorem GetRecent_spec (gs : GossipService) :
  ((GetRecentMemory gs).1 = None <-> receivedMemories gs = [])
  /\ (forall x, (GetRecentMemory gs).1 = Some x -> In x (receivedMemories gs))
  /\ ((GetRecentDream gs).1 = None <-> sharedDreams gs = [])
  /\ (forall x, (GetRecentDream gs).1 = Some x -> In x (sharedDreams gs))
  /\ ((GetRecentDeath gs).1 = None <-> deathsWitnessed gs = [])
  /\ (forall x, (GetRecentDeath gs).1 = Some x -> In x (deathsWitnessed gs))
  /\ (GetRecentMemory gs).2
     = with_randomSource (randomSource (GetRecentMemory gs).2) gs
  /\ (GetRecentDream gs).2
     = with_randomSource (randomSource (GetRecentDream gs).2) gs
  /\ (GetRecentDeath gs).2
     = with_randomSource (randomSource (GetRecentDeath gs).2) gs
  /\ (receivedMemories gs = [] -> GetRecentMemory gs = (None, gs))
  /\ (sharedDreams gs = [] -> GetRecentDream gs = (None, gs))
  /\ (deathsWitnessed gs = [] -> GetRecentDeath gs = (None, gs))
  /\ (receivedMemories gs <> [] ->
      rnd_pos (randomSource (GetRecentMemory gs).2)
      = S (rnd_pos (randomSource gs)))
  /\ (sharedDreams gs <> [] ->
      rnd_pos (randomSource (GetRecentDream gs).2)
      = S (rnd_pos (randomSource gs)))
  /\ (deathsWitnessed gs <> [] ->
      rnd_pos (randomSource (GetRecentDeath gs).2)
      = S (rnd_pos (randomSource gs)))
  /\ (forall ds msg p,
        Type_ msg = MsgTypeMemory -> DecodePayload_Memory msg = Some p ->
        (GetRecentMemory (onMessageReceived ds gs msg).1.1).1 <> None).
Proof.
  assert (Hnil : forall A (l : list A),
             l = [] -> pick l (randomSource gs) = (None, randomSource gs))
    by (intros A l ->; reflexivity).
  assert (Hsame : with_randomSource (randomSource gs) gs = gs)
    by (destruct gs; reflexivity).
  unfold GetRecentMemory, GetRecentDream, GetRecentDeath.
  pose proof (pick_spec (receivedMemories gs) (randomSource gs))
    as (M1 & M2 & M3 & _).
  pose proof (pick_spec (sharedDreams gs) (randomSource gs))
    as (D1 & D2 & D3 & _).
  pose proof (pick_spec (deathsWitnessed gs) (randomSource gs))
    as (X1 & X2 & X3 & _).
  pose proof (Hnil _ (receivedMemories gs)) as M4.
  pose proof (Hnil _ (sharedDreams gs)) as D4.
  pose proof (Hnil _ (deathsWitnessed gs)) as X4.
  destruct (pick (receivedMemories gs) (randomSource gs)) as [m rm].
  destruct (pick (sharedDreams gs) (randomSource gs)) as [d rd].
  destruct (pick (deathsWitnessed gs) (randomSource gs)) as [x rx].
  cbn [fst snd] in *.
  repeat (split; [assumption || reflexivity |]).
  split; [intros E; injection (M4 E) as -> ->; rewrite Hsame; reflexivity |].
  split; [intros E; injection (D4 E) as -> ->; rewrite Hsame; reflexivity |].
  split; [intros E; injection (X4 E) as -> ->; rewrite Hsame; reflexivity |].
  split; [intros E; destruct (receivedMemories gs); [contradiction |];
          destruct gs; exact M3 |].
  split; [intros E; destruct (sharedDreams gs); [contradiction |];
          destruct gs; exact D3 |].
  split; [intros E; destruct (deathsWitnessed gs); [contradiction |];
          destruct gs; exact X3 |].
  intros ds msg p HT HD.
  set (gs' := (onMessageReceived ds gs msg).1.1).
  pose proof (pick_spec (receivedMemories gs') (randomSource gs'))
    as (N1 & _).
  destruct (pick (receivedMemories gs') (randomSource gs')) as [m' rm'].
  cbn [fst] in *. rewrite N1. unfold gs', onMessageReceived, applyMessage.
  rewrite HT, HD. cbn [Z.eqb MsgTypeMemory].
  assert (HN : forall l, append_capped 50 l p <> []).
  { intros l. unfold append_capped.
    destruct (Nat.ltb_spec 50 (length (l ++ [p]))) as [Hlt | _].
    - destruct l as [| a [| b l]]; cbn in *; try lia; discriminate.
    - destruct l; discriminate. }
  destruct (ShouldPropagate msg); cbn; apply HN.
Qed.

(** [String] names each of the ten message types of the
    protocol, no two alike, and panics for every other number (the
    type of a message comes off the wire as any integer). *)
Theorem MessageType_String_spec (mt mt' : MessageType) :
  (is_Some (MessageType_String mt) <-> 0 <= mt <= 9)
  /\ (is_Some (MessageType_String mt) ->
      MessageType_String mt = MessageType_String mt' -> mt = mt')
  /\ MessageType_String MsgTypeDiscover = Some "DISCOVER"
  /\ MessageType_String MsgTypeMemory = Some "MEMORY"
  /\ MessageType_String MsgTypeMoodUpdate = Some "MOOD"
  /\ MessageType_String MsgTypePulse = Some "PULSE".
Proof.
  assert (HR : forall m, is_Some (MessageType_String m) <-> 0 <= m <= 9).
  { intros m. unfold MessageType_String.
    destruct (Z.leb_spec 0 m), (Z.ltb_spec m 10); cbn [andb];
      try (split; [intros [? [=]] | lia]).
    split; [lia | intros _].
    assert (Hm : m = 0 \/ m = 1 \/ m = 2 \/ m = 3 \/ m = 4 \/ m = 5 \/ m = 6
                 \/ m = 7 \/ m = 8 \/ m = 9) by lia.
    repeat (destruct Hm as [-> | Hm]; [cbn; eauto |]). subst m. cbn. eauto. }
  split; [apply HR |].
  split; [| repeat split; reflexivity].
  intros H1 H2.
  assert (H3 : is_Some (MessageType_String mt')) by (rewrite <- H2; exact H1).
  apply HR in H1, H3.
  assert (Hm : mt = 0 \/ mt = 1 \/ mt = 2 \/ mt = 3 \/ mt = 4 \/ mt = 5
               \/ mt = 6 \/ mt = 7 \/ mt = 8 \/ mt = 9) by lia.
  assert (Hm' : mt' = 0 \/ mt' = 1 \/ mt' = 2 \/ mt' = 3 \/ mt' = 4
                \/ mt' = 5 \/ mt' = 6 \/ mt' = 7 \/ mt' = 8 \/ mt' = 9)
    by lia.
  clear H1 H3.
  repeat (destruct Hm as [-> | Hm]);
    repeat (destruct Hm' as [-> | Hm']); subst;
    first [reflexivity | discriminate H2].
Qed.

End Recent.

(** ** Spooky messages and network thoughts *)

Section SpookyQueue.

Lemma maybe_line_spec p table message r :
  table <> [] ->
  (maybe_line p table message r).1 = message
  \/ In (maybe_line p table message r).1 table.
Proof.
  intros Hne. unfold maybe_line. destruct (Float32 r) as [x r1].
  destruct (Qltb x p); [| left; reflexivity].
  destruct (Intn_range r1 (Z.of_nat (length table))) as [R _].
  { destruct table; [contradiction | cbn; lia]. }
  destruct (Intn r1 (Z.of_nat (length table))) as [i r2].
  right. apply nth_table. exact R.
Qed.

Lemma spooky_lines_nonempty m : In m spooky_lines -> m <> "".
Proof.
  intros H ->. revert H. vm_compute. intuition discriminate.
Qed.

Lemma generateSpookyMessage_queue n sp :
  spookyMessages (generateSpookyMessage n sp).2 = spookyMessages sp
  \/ (length (spookyMessages sp) < 5)%nat
     /\ exists m, In m spooky_lines
                  /\ spookyMessages (generateSpookyMessage n sp).2
                     = (spookyMessages sp ++ [m])%list.
Proof.
  unfold generateSpookyMessage.
  destruct (Nat.leb_spec 5 (length (spookyMessages sp))) as [Hge | Hlt];
    [left; reflexivity |].
  set (first := if GetOnlinePeerCount (discovery n) =? 0 then _ else _).
  assert (H1 : first.1 = "" \/ In first.1 spooky_lines).
  { unfold first, spooky_lines.
    destruct (GetOnlinePeerCount (discovery n) =? 0).
    - destruct (maybe_line_spec (3 # 10) spookyLonelyMessages ""
                  (net_randomSource sp) ltac:(discriminate)) as [H | H];
        [left; exact H | right].
      apply in_or_app. left. exact H.
    - destruct (GetOnlinePeerCount (discovery n) >? 0); [| left; reflexivity].
      destruct (maybe_line_spec (2 # 10) spookyEncounterMessages ""
                  (net_randomSource sp) ltac:(discriminate)) as [H | H];
        [left; exact H | right].
      apply in_or_app. right. apply in_or_app. left. exact H. }
  destruct first as [message r1]. cbn [fst] in H1.
  destruct (GetRecentDeath (gossip n)) as [death gs].
  set (second := match death with Some _ => _ | None => _ end).
  assert (H2 : second.1 = "" \/ In second.1 spooky_lines).
  { unfold second. destruct death; [| exact H1].
    destruct (maybe_line_spec (4 # 10) spookyDeathMessages message r1
                ltac:(discriminate)) as [H | H].
    - rewrite H. exact H1.
    - right. unfold spooky_lines. apply in_or_app. right.
      apply in_or_app. right. exact H. }
  destruct second as [message' r2]. cbn [fst snd spookyMessages] in *.
  destruct (String.eqb_spec message' ""); [left; reflexivity |].
  right. split; [exact Hlt |]. exists message'.
  destruct H2 as [H2 | H2]; [contradiction |]. auto.
Qed.

Lemma spooky_step_ok sp op : spooky_ok sp -> spooky_ok (spooky_step sp op).
Proof.
  intros [HL HF]. destruct op as [n |]; cbn [spooky_step].
  - unfold spookyTick. destruct (negb (enabled n)); [split; assumption |].
    unfold spooky_ok.
    destruct (generateSpookyMessage_queue n sp)
      as [-> | (Hlt & m & Hm & ->)]; [split; assumption |].
    split; [rewrite length_app; cbn; lia |].
    apply Forall_app. split; [exact HF |].
    apply Forall_cons. split; [exact Hm | apply Forall_nil_2].
  - unfold GetSpookyMessage, spooky_ok.
    destruct (spookyMessages sp) as [| m rest] eqn:E; cbn [snd spookyMessages].
    + rewrite E. split; [cbn; lia | constructor].
    + cbn in HL. apply Forall_cons in HF as [_ HF]. split; [lia | exact HF].
Qed.

(** X25: the queue of spooky messages.  Whatever rounds of
    [spookyLoop] and calls of [GetSpookyMessage] follow one another
    from an empty queue, the queue never holds more than five lines
    and every line is one of the three tables.  A round adds at most
    one line, at the back, and none to a queue of five;
    [GetSpookyMessage] hands out the line at the front and removes
    it, and answers the empty text exactly when nothing is queued. *)
Theorem spooky_queue_bounded (r : Rand) (ops : list SpookyOp) :
  spooky_ok (fold_left spooky_step ops (mkSpooky [] r))
  /\ (forall n sp,
        spookyMessages (spookyTick n sp).2 = spookyMessages sp
        \/ (length (spookyMessages sp) < 5)%nat
           /\ exists m, In m spooky_lines
                        /\ spookyMessages (spookyTick n sp).2
                           = (spookyMessages sp ++ [m])%list)
  /\ (forall sp,
        spooky_ok sp ->
        ((GetSpookyMessage sp).1 = "" <-> spookyMessages sp = [])
        /\ (forall m rest,
              spookyMessages sp = m :: rest ->
              GetSpookyMessage sp = (m, mkSpooky rest (net_randomSource sp)))).
Proof.
  split; [| split].
  - assert (H : forall sp, spooky_ok sp -> spooky_ok (fold_left spooky_step ops sp)).
    { induction ops as [| op ops IH]; intros sp Hs; [exact Hs |].
      cbn [fold_left]. apply IH, spooky_step_ok, Hs. }
    apply H. split; [cbn; lia | constructor].
  - intros n sp. unfold spookyTick.
    destruct (negb (enabled n)); [left; reflexivity |].
    apply generateSpookyMessage_queue.
  - intros sp [_ HF]. unfold GetSpookyMessage.
    destruct (spookyMessages sp) as [| m rest]; split;
      try (split; [reflexivity | reflexivity]); try discriminate.
    + cbn [fst]. split; [| discriminate].
      intros ->. apply Forall_cons in HF as [HF _].
      exfalso. exact (spooky_lines_nonempty "" HF eq_refl).
    + intros m' rest' [= <- <-]. reflexivity.
Qed.

End SpookyQueue.

Section Thoughts.

Lemma GetRecentMemory_spec gs :
  (forall x, (GetRecentMemory gs).1 = Some x -> In x (receivedMemories gs))
  /\ same_but_source gs (GetRecentMemory gs).2.
Proof.
  unfold GetRecentMemory.
  pose proof (pick_spec (receivedMemories gs) (randomSource gs)) as (_ & H & _).
  destruct (pick _ _) as [x r]. split; [exact H |].
  apply same_but_source_random.
Qed.

Lemma GetRecentDream_spec gs :
  (forall x, (GetRecentDream gs).1 = Some x -> In x (sharedDreams gs))
  /\ same_but_source gs (GetRecentDream gs).2.
Proof.
  unfold GetRecentDream.
  pose proof (pick_spec (sharedDreams gs) (randomSource gs)) as (_ & H & _).
  destruct (pick _ _) as [x r]. split; [exact H |].
  apply same_but_source_random.
Qed.

Lemma same_but_source_buffers gs gs' :
  same_but_source gs gs' ->
  receivedMemories gs' = receivedMemories gs
  /\ sharedDreams gs' = sharedDreams gs
  /\ deathsWitnessed gs' = deathsWitnessed gs
  /\ GetCurrentMood gs' = GetCurrentMood gs.
Proof. unfold same_but_source. tauto. Qed.

(** X26: [GetNetworkThought] answers the empty text, with no draw, on
    a facade that is not enabled.  Otherwise the thought is empty, or
    the fragment of a memory that was received, or the text of a
    dream that was shared, or regards from a peer of the table under
    its obfuscated name.  The call changes no buffer and no mood,
    nothing of the discovery service or the persisted state, and
    leaves the queue of spooky messages alone. *)
Theorem GetNetworkThought_spec (n : Network) (sp : Spooky) :
  (enabled n = false -> GetNetworkThought n sp = ("", n, sp))
  /\ ((GetNetworkThought n sp).1.1 = ""
      \/ (exists m, In m (receivedMemories (gossip n))
                    /\ (GetNetworkThought n sp).1.1 = Fragment m)
      \/ (exists d, In d (sharedDreams (gossip n))
                    /\ (GetNetworkThought n sp).1.1 = DreamText d)
      \/ (exists p, In p (GetPeers (discovery n))
                    /\ (GetNetworkThought n sp).1.1
                       = "Your pet's friend "
                         +:+ ObfuscatedName (Identity p)
                         +:+ " sends regards."))
  /\ discovery (GetNetworkThought n sp).1.2 = discovery n
  /\ state (GetNetworkThought n sp).1.2 = state n
  /\ enabled (GetNetworkThought n sp).1.2 = enabled n
  /\ receivedMemories (gossip (GetNetworkThought n sp).1.2)
     = receivedMemories (gossip n)
  /\ sharedDreams (gossip (GetNetworkThought n sp).1.2)
     = sharedDreams (gossip n)
  /\ deathsWitnessed (gossip (GetNetworkThought n sp).1.2)
     = deathsWitnessed (gossip n)
  /\ GetCurrentMood (gossip (GetNetworkThought n sp).1.2)
     = GetCurrentMood (gossip n)
  /\ spookyMessages (GetNetworkThought n sp).2 = spookyMessages sp.
Proof.
  split; [intros E; unfold GetNetworkThought; rewrite E; reflexivity |].
  unfold GetNetworkThought.
  destruct (enabled n) eqn:E; cbn [negb];
    [| cbn; repeat split; auto].
  destruct (GetRecentMemory_spec (gossip n)) as [M1 M2].
  destruct (GetRecentMemory (gossip n)) as [memory gs1]. cbn [fst snd] in *.
  destruct (same_but_source_buffers _ _ M2) as (B1 & B2 & B3 & B4).
  destruct (GetRecentDream_spec gs1) as [D1 D2].
  destruct (GetRecentDream gs1) as [dream gs2]. cbn [fst snd] in *.
  destruct (same_but_source_buffers _ _ D2) as (C1 & C2 & C3 & C4).
  rewrite B1 in C1. rewrite B2 in C2, D1. rewrite B3 in C3. rewrite B4 in C4.
  assert (Hfirst :
            forall t r, (match memory with
                         | Some m =>
                             let (x, r) := Float32 (net_randomSource sp) in
                             (if Qltb x (3 # 10) then Some (Fragment m)
                              else None, r)
                         | None => (None, net_randomSource sp)
                         end) = (Some t, r) ->
                        exists m, In m (receivedMemories (gossip n))
                                  /\ t = Fragment m).
  { intros t r H. destruct memory as [m |]; [| discriminate].
    destruct (Float32 _) as [x r']. destruct (Qltb x _); [| discriminate].
    injection H as <- _. exists m. split; [apply M1; reflexivity | reflexivity]. }
  destruct (match memory with Some _ => _ | None => _ end) as [[t |] r1].
  { cbn. split; [right; left; apply (Hfirst t r1 eq_refl) |].
    repeat split; auto. }
  clear Hfirst.
  assert (Hsecond :
            forall t r, (match dream with
                         | Some d =>
                             let (x, r) := Float32 r1 in
                             (if Qltb x (4 # 10) then Some (DreamText d)
                              else None, r)
                         | None => (None, r1)
                         end) = (Some t, r) ->
                        exists d, In d (sharedDreams (gossip n))
                                  /\ t = DreamText d).
  { intros t r H. destruct dream as [d |]; [| discriminate].
    destruct (Float32 _) as [x r']. destruct (Qltb x _); [| discriminate].
    injection H as <- _. exists d. split; [apply D1; reflexivity | reflexivity]. }
  destruct (match dream with Some _ => _ | None => _ end) as [[t |] r2].
  { cbn. split; [right; right; left; apply (Hsecond t r2 eq_refl) |].
    repeat split; auto. }
  clear Hsecond.
  destruct (GetPeers (discovery n)) as [| p0 ps] eqn:EP.
  { cbn. repeat split; auto. }
  destruct (Intn r2 _) as [i r3]. destruct (Float32 r3) as [x r4].
  destruct (Qltb x (2 # 10)); [| cbn; repeat split; auto].
  destruct (nth_error (p0 :: ps) (Z.to_nat i)) as [peer |] eqn:EN;
    [| cbn; repeat split; auto].
  cbn. split; [| repeat split; auto].
  right. right. right. exists peer.
  split; [exact (nth_error_In _ _ EN) | reflexivity].
Qed.

End Thoughts.

(** * The host: how the pet program uses the facade *)

Section Host.

Lemma step_lonely_and_empty n op :
  keeps_lonely op = true -> lonely_and_empty n ->
  lonely_and_empty (step n op).1.
Proof.
  intros Hk (HL & HE & HS). unfold lonely_and_empty.
  destruct op as [env clk | clk | clk lonely | clk | clk | data | mood k
                 | clk pn age lw | clk msg a | clk | clk];
    try discriminate Hk; cbn [step fst].
  - rewrite (Start_lonely env clk n HL). auto.
  - rewrite (Stop_disabled clk n HE). auto.
  - cbn in Hk. subst lonely. unfold SetLonelyMode. cbn. rewrite HE. cbn. auto.
  - rewrite (UpdateState_disabled clk n HE). auto.
  - unfold ExportState. cbn [fst]. rewrite (UpdateState_disabled clk n HE). auto.
  - auto.
  - auto.
  - destruct (running (discovery n)); [| auto].
    unfold deliver.
    destruct (listenStep clk (discovery n) msg a) as [[ds evs] cbs].
    destruct (runCallbacks ds clk (gossip n) cbs). auto.
  - destruct (running (discovery n)); [| auto].
    unfold sweep. destruct (cleanupPeers clk (discovery n)) as [ds cbs].
    destruct (runCallbacks ds clk (gossip n) cbs). auto.
  - destruct (callbacks (discovery n)); [| auto].
    unfold tick. destruct (gossipTick (discovery n) clk (gossip n)). auto.
Qed.

Lemma run_lonely_and_empty n ops :
  forallb keeps_lonely ops = true -> lonely_and_empty n ->
  lonely_and_empty (run n ops).1.
Proof.
  induction ops as [| op ops IH] using rev_ind; intros Hops Hn; [exact Hn |].
  rewrite forallb_app in Hops. apply andb_prop in Hops as [H1 H2].
  cbn [forallb] in H2. rewrite andb_true_r in H2.
  rewrite run_snoc. apply step_lonely_and_empty; [exact H2 | auto].
Qed.

Lemma Marshal_zero :
  exists blob, StateCodec.Marshal zeroNetworkState = Some blob
               /\ StateCodec.Unmarshal blob = Some zeroNetworkState.
Proof.
  destruct (StateCodec.Marshal zeroNetworkState) as [blob |] eqn:E;
    [| vm_compute in E; discriminate].
  exists blob. split; [reflexivity |].
  apply (Unmarshal_Marshal zeroNetworkState blob); [reflexivity | exact E].
Qed.

(** X27: a session in lonely mode forgets the friends.  With the
    flag of the command line set, [initNetwork] makes a facade that
    is not enabled, sends nothing and does not import what the save
    file holds; whatever the host then does with it (short of an
    import or leaving lonely mode, which it never does),
    [saveNetworkState] succeeds and replaces the saved friends by a
    blob of the empty state: no friend, all counts zero. *)
Theorem lonely_session_forgets_friends (seed : Rand) (env : NetEnv)
    (clk clk' : Clock) (petName : string) (birthTime : Time)
    (stageStr : string) (isAlive : bool) (friends : string)
    (ops : list Op) :
  forallb keeps_lonely ops = true ->
  initNetwork true seed env clk petName birthTime stageStr isAlive friends
  = (mkNetwork (NewPetIdentity petName birthTime stageStr isAlive)
               (NewDiscoveryService
                  (NewPetIdentity petName birthTime stageStr isAlive))
               (NewGossipService
                  (NewPetIdentity petName birthTime stageStr isAlive) seed)
               zeroNetworkState false true, [])
  /\ StateCodec.Unmarshal
       (saveNetworkState clk'
          (Some (run (initNetwork true seed env clk petName birthTime
                        stageStr isAlive friends).1 ops).1) friends).2
     = Some zeroNetworkState.
Proof.
  intros Hops. split; [reflexivity |].
  assert (Hinit : lonely_and_empty
                    (initNetwork true seed env clk petName birthTime stageStr
                       isAlive friends).1)
    by (repeat split; reflexivity).
  destruct (run_lonely_and_empty _ ops Hops Hinit) as (HL & HE & HS).
  unfold saveNetworkState, ExportState.
  rewrite (UpdateState_disabled clk' _ HE), HS.
  destruct Marshal_zero as (blob & -> & HU). exact HU.
Qed.

Lemma lonely_session_forgets_friends_witness :
  StateCodec.Unmarshal Sample.saved <> Some zeroNetworkState
  /\ StateCodec.Unmarshal
       (saveNetworkState (Sample.clock 1705400000)
          (Some (run (initNetwork true Sample.seed Sample.env
                        (Sample.clock 1705390000) "Nibbles"
                        (Unix 1705314600 0) "Baby" true Sample.saved).1
                     [ OpStart Sample.env (Sample.clock 1705390001);
                       OpUpdateState (Sample.clock 1705390100) ]).1)
          Sample.saved).2
     = Some zeroNetworkState.
Proof.
  split; [vm_compute; discriminate |].
  exact (proj2 (lonely_session_forgets_friends Sample.seed Sample.env
                  (Sample.clock 1705390000) (Sample.clock 1705400000)
                  "Nibbles" (Unix 1705314600 0) "Baby" true Sample.saved
                  [ OpStart Sample.env (Sample.clock 1705390001);
                    OpUpdateState (Sample.clock 1705390100) ] eq_refl)).
Defined.

Lemma Marshal_nonempty (s : NetworkState) (blob : string) :
  StateCodec.Marshal s = Some blob -> (0 <? String.length blob)%nat = true.
Proof.
  unfold StateCodec.Marshal, StateCodec.enc_NetworkState.
  destruct (JSON.enc_slice _ _); [| discriminate].
  destruct (JSON.enc_time _); [| discriminate].
  destruct (JSON.enc_time _); [| discriminate].
  intros H. apply (inj Some) in H. subst blob. reflexivity.
Qed.

(** X28: the friends survive a restart.  When [saveNetworkState] has
    written a blob (the export succeeded, and the state holds
    integers that are [int]s, times with nanoseconds below one second
    and strings of valid UTF-8), [initNetwork] of the next session,
    not in lonely mode, starts from a facade whose ledger, counts,
    time of the last merge and influence are the saved ones; the join
    time too, unless none was set, in which case it is set when a
    socket is bound. *)
Theorem friends_survive_restart (seed : Rand) (env : NetEnv)
    (clk clk' : Clock) (n : Network) (old : string) (petName : string)
    (birthTime : Time) (stageStr : string) (isAlive : bool) :
  (ExportState clk n).2 <> None ->
  wf_state (state (ExportState clk n).1) = true ->
  Friends (state (initNetwork false seed env clk' petName birthTime stageStr
                    isAlive (saveNetworkState clk (Some n) old).2).1)
  = Friends (state (ExportState clk n).1)
  /\ GetInfluence (initNetwork false seed env clk' petName birthTime stageStr
                     isAlive (saveNetworkState clk (Some n) old).2).1
     = GetInfluence (ExportState clk n).1
  /\ MemoriesShared
       (state (initNetwork false seed env clk' petName birthTime stageStr
                 isAlive (saveNetworkState clk (Some n) old).2).1)
     = MemoriesShared (state (ExportState clk n).1)
  /\ DeathsWitnessed
       (state (initNetwork false seed env clk' petName birthTime stageStr
                 isAlive (saveNetworkState clk (Some n) old).2).1)
     = DeathsWitnessed (state (ExportState clk n).1)
  /\ LastNetworkSync
       (state (initNetwork false seed env clk' petName birthTime stageStr
                 isAlive (saveNetworkState clk (Some n) old).2).1)
     = LastNetworkSync (state (ExportState clk n).1)
  /\ (IsZero (NetworkJoinTime (state (ExportState clk n).1)) = false ->
      state (initNetwork false seed env clk' petName birthTime stageStr
               isAlive (saveNetworkState clk (Some n) old).2).1
      = state (ExportState clk n).1).
Proof.
  intros Hex Hwf. unfold saveNetworkState.
  destruct (ExportState clk n) as [n1 data] eqn:EE. cbn [fst snd] in *.
  destruct data as [blob |]; [| contradiction].
  assert (HM : StateCodec.Marshal (state n1) = Some blob).
  { unfold ExportState in EE. injection EE as <- <-. reflexivity. }
  unfold initNetwork. rewrite (Marshal_nonempty _ _ HM).
  rewrite (ImportState_Marshal _ _ _ Hwf HM). cbn [fst].
  unfold Start, DiscoveryService_Start. cbn [isLonely NewNetwork].
  destruct (listen_fixed env); [| destruct (listen_any env)]; cbn;
    destruct (IsZero (NetworkJoinTime (state n1)));
    repeat split; auto; discriminate.
Qed.

Lemma friends_survive_restart_witness :
  length
    (Friends
       (state (initNetwork false Sample.seed Sample.env
                 (Sample.clock 1705400000) "Nibbles" (Unix 1705314600 0)
                 "Child" true
                 (saveNetworkState (Sample.clock 1705315100)
                                   (Some Sample.met) "").2).1))
  = 1%nat.
Proof.
  rewrite (proj1 (friends_survive_restart Sample.seed Sample.env
                    (Sample.clock 1705315100) (Sample.clock 1705400000)
                    Sample.met "" "Nibbles" (Unix 1705314600 0) "Child" true
                    ltac:(vm_compute; discriminate) eq_refl)).
  vm_compute. reflexivity.
Defined.

End Host.

(** ** base64, there and back *)

Section Base64Facts.
Import JSON Base64.

Lemma code_range (c : ascii) : 0 <= code c < 256.
Proof.
  unfold code, byte_of_ascii. pose proof (N_ascii_bounded c). lia.
Qed.

Lemma value64_digit64 (n : Z) :
  0 <= n < 64 ->
  value64 (digit64 n) = Some n /\ plain (digit64 n) = true.
Proof.
  intros H.
  assert (Hn : exists k : nat, (k < 64)%nat /\ n = Z.of_nat k)
    by (exists (Z.to_nat n); lia).
  destruct Hn as (k & Hk & ->).
  do 64 (destruct k as [| k]; [split; reflexivity |]). lia.
Qed.

Lemma quantum_bytes (a b c : Z) :
  0 <= a < 256 -> 0 <= b < 256 -> 0 <= c < 256 ->
  a / 4 * 262144 + (a mod 4 * 16 + b / 16) * 4096
  + (b mod 16 * 4 + c / 64) * 64 + c mod 64
  = a * 65536 + b * 256 + c.
Proof.
  intros Ha Hb Hc.
  pose proof (Z.div_mod a 4 ltac:(lia)).
  pose proof (Z.div_mod b 16 ltac:(lia)).
  pose proof (Z.div_mod c 64 ltac:(lia)). lia.
Qed.

Lemma byte_of_val (a b c : Z) :
  0 <= a < 256 -> 0 <= b < 256 -> 0 <= c < 256 ->
  ((a * 65536 + b * 256 + c) / 65536) mod 256 = a
  /\ ((a * 65536 + b * 256 + c) / 256) mod 256 = b
  /\ ((a * 65536 + b * 256 + c) / 1) mod 256 = c.
Proof.
  intros Ha Hb Hc.
  assert (E1 : (a * 65536 + b * 256 + c) / 65536 = a)
    by (symmetry; apply Z.div_unique with (b * 256 + c); lia).
  assert (E2 : (a * 65536 + b * 256 + c) / 256 = a * 256 + b)
    by (symmetry; apply Z.div_unique with c; lia).
  rewrite E1, E2, Z.div_1_r. split; [| split].
  - apply Z.mod_small. lia.
  - symmetry. apply Z.mod_unique with a; lia.
  - symmetry. apply Z.mod_unique with (a * 256 + b); lia.
Qed.

Lemma ranges (a b : Z) :
  0 <= a < 256 -> 0 <= b < 256 ->
  0 <= a / 4 < 64 /\ 0 <= a mod 4 * 16 + b / 16 < 64
  /\ 0 <= a mod 16 * 4 + b / 64 < 64 /\ 0 <= a mod 64 < 64
  /\ 0 <= a mod 4 * 16 < 64 /\ 0 <= a mod 16 * 4 < 64.
Proof.
  intros Ha Hb.
  pose proof (Z.div_mod a 4 ltac:(lia)). pose proof (Z.mod_pos_bound a 4).
  pose proof (Z.div_mod b 16 ltac:(lia)). pose proof (Z.mod_pos_bound b 16).
  pose proof (Z.div_mod b 64 ltac:(lia)). pose proof (Z.mod_pos_bound b 64).
  pose proof (Z.mod_pos_bound a 16). pose proof (Z.mod_pos_bound a 64).
  lia.
Qed.

(** A full quantum of the encoder is read back as its three bytes. *)
Lemma decode_quantum (a b c : ascii) (X : string) :
  decode (String (digit64 (code a / 4))
            (String (digit64 (code a mod 4 * 16 + code b / 16))
               (String (digit64 (code b mod 16 * 4 + code c / 64))
                  (String (digit64 (code c mod 64)) X)))) []
  = match decode X [] with
    | Some rest => Some (String a (String b (String c rest)))
    | None => None
    end.
Proof.
  pose proof (code_range a) as Ha. pose proof (code_range b) as Hb.
  pose proof (code_range c) as Hc.
  destruct (ranges (code a) (code b) Ha Hb) as (R1 & R2 & _).
  destruct (ranges (code b) (code c) Hb Hc) as (_ & _ & R3 & _).
  destruct (ranges (code c) (code c) Hc Hc) as (_ & _ & _ & R4 & _).
  cbn [decode].
  rewrite (proj1 (value64_digit64 _ R1)). cbn [app].
  rewrite (proj1 (value64_digit64 _ R2)). cbn [app].
  rewrite (proj1 (value64_digit64 _ R3)). cbn [app].
  rewrite (proj1 (value64_digit64 _ R4)).
  destruct (decode X []) as [rest |]; [| reflexivity].
  unfold byte_of. rewrite quantum_bytes by assumption.
  destruct (byte_of_val _ _ _ Ha Hb Hc) as (-> & -> & ->).
  rewrite !chr_code. reflexivity.
Qed.

Lemma decode_two (a b : ascii) :
  decode (String (digit64 (code a / 4))
            (String (digit64 (code a mod 4 * 16 + code b / 16))
               (String (digit64 (code b mod 16 * 4)) "="))) []
  = Some (String a (String b "")).
Proof.
  pose proof (code_range a) as Ha. pose proof (code_range b) as Hb.
  destruct (ranges (code a) (code b) Ha Hb) as (R1 & R2 & _).
  destruct (ranges (code b) (code b) Hb Hb) as (_ & _ & _ & _ & _ & R3).
  cbn [decode].
  rewrite (proj1 (value64_digit64 _ R1)). cbn [app].
  rewrite (proj1 (value64_digit64 _ R2)). cbn [app].
  rewrite (proj1 (value64_digit64 _ R3)). cbn [app].
  change (value64 "=") with (@None Z). change (is_newline "=") with false.
  change (isb "=" 61) with true. cbv iota.
  change (is_empty (skip_newlines "")) with true. cbv iota.
  unfold byte_of.
  pose proof (quantum_bytes (code a) (code b) 0 Ha Hb ltac:(lia)) as Hq.
  change (0 / 64) with 0 in Hq. change (0 mod 64) with 0 in Hq.
  rewrite !Z.add_0_r in Hq. rewrite Hq.
  destruct (byte_of_val (code a) (code b) 0 Ha Hb ltac:(lia)) as (E1 & E2 & _).
  rewrite !Z.add_0_r in E1, E2. rewrite E1, E2, !chr_code. reflexivity.
Qed.

Lemma decode_one (a : ascii) :
  decode (String (digit64 (code a / 4))
            (String (digit64 (code a mod 4 * 16)) "==")) []
  = Some (String a "").
Proof.
  pose proof (code_range a) as Ha.
  destruct (ranges (code a) (code a) Ha Ha) as (R1 & _ & _ & _ & R2 & _).
  cbn [decode].
  rewrite (proj1 (value64_digit64 _ R1)). cbn [app].
  rewrite (proj1 (value64_digit64 _ R2)). cbn [app].
  change (value64 "=") with (@None Z). change (is_newline "=") with false.
  change (isb "=" 61) with true. cbv iota.
  change (skip_newlines "=") with "=". cbv iota.
  change (isb "=" 61 && is_empty (skip_newlines "")) with true. cbv iota.
  unfold byte_of.
  pose proof (quantum_bytes (code a) 0 0 Ha ltac:(lia) ltac:(lia)) as Hq.
  change (0 / 16) with 0 in Hq. change (0 mod 16 * 4 + 0 / 64) with 0 in Hq.
  change (0 mod 64) with 0 in Hq. change (0 * 64) with 0 in Hq.
  rewrite !Z.add_0_r in Hq. rewrite Hq.
  destruct (byte_of_val (code a) 0 0 Ha ltac:(lia) ltac:(lia)) as (E1 & _).
  change (0 * 256) with 0 in E1. rewrite !Z.add_0_r in E1.
  rewrite E1, chr_code. reflexivity.
Qed.

(** What [encode] wrote, [decode] reads; and it wrote plain text. *)
Lemma base64_decode_encode (n : nat) :
  forall s, (String.length s <= n)%nat ->
            decode (encode s) [] = Some s
            /\ all_chars plain (encode s) = true.
Proof.
  induction n as [n IH] using lt_wf_ind. intros s Hs.
  destruct s as [| a [| b [| c r]]].
  - split; reflexivity.
  - split; [apply decode_one |].
    pose proof (code_range a) as Ha.
    destruct (ranges (code a) (code a) Ha Ha) as (R1 & _ & _ & _ & R2 & _).
    cbn [encode all_chars].
    rewrite (proj2 (value64_digit64 _ R1)), (proj2 (value64_digit64 _ R2)).
    reflexivity.
  - split; [apply decode_two |].
    pose proof (code_range a) as Ha. pose proof (code_range b) as Hb.
    destruct (ranges (code a) (code b) Ha Hb) as (R1 & R2 & _).
    destruct (ranges (code b) (code b) Hb Hb) as (_ & _ & _ & _ & _ & R3).
    cbn [encode all_chars].
    rewrite (proj2 (value64_digit64 _ R1)), (proj2 (value64_digit64 _ R2)),
      (proj2 (value64_digit64 _ R3)).
    reflexivity.
  - cbn [String.length] in Hs.
    destruct (IH (String.length r) ltac:(lia) r (le_n _)) as [I1 I2].
    cbn [encode]. rewrite decode_quantum, I1. split; [reflexivity |].
    pose proof (code_range a) as Ha. pose proof (code_range b) as Hb.
    pose proof (code_range c) as Hc.
    destruct (ranges (code a) (code b) Ha Hb) as (R1 & R2 & _).
    destruct (ranges (code b) (code c) Hb Hc) as (_ & _ & R3 & _).
    destruct (ranges (code c) (code c) Hc Hc) as (_ & _ & _ & R4 & _).
    cbn [all_chars].
    rewrite (proj2 (value64_digit64 _ R1)), (proj2 (value64_digit64 _ R2)),
      (proj2 (value64_digit64 _ R3)), (proj2 (value64_digit64 _ R4)), I2.
    reflexivity.
Qed.

End Base64Facts.

(** ** Messages over the wire *)

Section Wire.
Import JSON JSONSpec Codec WireCodec.

Ltac decide_keys :=
  repeat match goal with
         | |- context [key_matches ?a ?b] =>
             let r := eval vm_compute in (key_matches a b) in
             change (key_matches a b) with r
         | |- context [utf8_valid 0 (String ?c ?s)] =>
             let r := eval vm_compute in (utf8_valid 0 (String c s)) in
             change (utf8_valid 0 (String c s)) with r
         end;
  cbv iota.

Lemma substring_all (s : string) (n : nat) :
  (String.length s <= n)%nat -> String.substring 0 n s = s.
Proof.
  revert n. induction s as [| c s IH]; intros n H.
  - destruct n; reflexivity.
  - destruct n as [| n]; cbn [String.length] in H; [lia |].
    cbn [String.substring]. rewrite IH by lia. reflexivity.
Qed.

Lemma enc_bytes_spec (b : string) (cur : option string) :
  wf_value (enc_bytes (Some b)) = true
  /\ dec_bytes (enc_bytes (Some b)) cur = Some (Some b).
Proof.
  destruct (base64_decode_encode (String.length b) b (le_n _)) as [D P].
  cbn [enc_bytes wf_value dec_bytes]. rewrite D. split; [| reflexivity].
  apply ascii_utf8_valid. exact P.
Qed.

Lemma enc_PetIdentity_spec (p : PetIdentity) (v : value) :
  wf_identity p = true -> enc_PetIdentity p = Some v ->
  wf_value v = true /\ dec_identity v None = Some (Some p).
Proof.
  unfold wf_identity.
  intros [[[[Hi Hn]%andb_prop Ht]%andb_prop Hk]%andb_prop Hs]%andb_prop.
  unfold enc_PetIdentity.
  destruct (enc_time (BirthTime p)) as [t |] eqn:E; [| discriminate].
  intros H. apply (inj Some) in H. subst v.
  destruct (enc_time_spec _ zeroTime _ Ht E) as [W D].
  split.
  - cbn [wf_value forallb fst snd]. decide_keys. cbn [andb].
    rewrite Hi, Hn, W, Hk, Hs. reflexivity.
  - unfold dec_identity. cbn [dec_members]. unfold PetIdentity_field.
    decide_keys.
    cbn [dec_string dec_bool zeroPetIdentity PetID DisplayName BirthTime
           PublicKey Stage IsAlive].
    rewrite D. destruct p; reflexivity.
Qed.

Lemma enc_WireMessage_spec (m : Message) (v : value) :
  wf_message m = true -> enc_WireMessage (to_wire m) = Some v ->
  wf_value v = true
  /\ dec_struct WireMessage_field v zeroWireMessage = Some (to_wire m).
Proof.
  unfold wf_message.
  intros [[[[[Hy Hf]%andb_prop Ht]%andb_prop Hs]%andb_prop Hn]%andb_prop
            Hl]%andb_prop.
  unfold enc_WireMessage, to_wire.
  cbn [w_Type w_From w_Timestamp w_Payload w_Signature w_Nonce w_TTL].
  destruct (enc_PetIdentity (From m)) as [from |] eqn:Ef; [| discriminate].
  destruct (enc_time (Timestamp m)) as [t |] eqn:E; [| discriminate].
  intros H. apply (inj Some) in H. subst v.
  destruct (enc_PetIdentity_spec _ _ Hf Ef) as [Wf Df].
  destruct (enc_time_spec _ zeroTime _ Ht E) as [W D].
  destruct (enc_int_spec (Type_ m) 0 Hy) as [Wy Dy].
  destruct (enc_int_spec (TTL m) 0 Hl) as [Wl Dl].
  destruct (enc_bytes_spec (Payload m) None) as [Wp Dp].
  split.
  - cbn [wf_value forallb fst snd]. decide_keys. cbn [andb].
    cbn [wf_value] in Wp. rewrite Wy, Wf, W, Wp, Hs, Hn, Wl. reflexivity.
  - unfold dec_struct. cbn [dec_members]. unfold WireMessage_field.
    decide_keys.
    cbn [zeroWireMessage w_Type w_From w_Timestamp w_Payload w_Signature
           w_Nonce w_TTL].
    rewrite Dy.
    cbn [w_Type w_From w_Timestamp w_Payload w_Signature w_Nonce w_TTL].
    rewrite Df.
    cbn [w_Type w_From w_Timestamp w_Payload w_Signature w_Nonce w_TTL].
    rewrite D.
    cbn [w_Type w_From w_Timestamp w_Payload w_Signature w_Nonce w_TTL].
    rewrite Dp.
    cbn [dec_string w_Type w_From w_Timestamp w_Payload w_Signature w_Nonce
           w_TTL].
    rewrite Dl. reflexivity.
Qed.

Lemma of_wire_to_wire (m : Message) : of_wire (to_wire m) = Some m.
Proof. destruct m; reflexivity. Qed.

Lemma Encode_decodes (m : Message) (data : string) :
  wf_message m = true -> Encode m = Some data ->
  DecodeMessage data = Some (to_wire m).
Proof.
  intros Hwf. unfold Encode, DecodeMessage.
  destruct (enc_WireMessage (to_wire m)) as [v |] eqn:E; [| discriminate].
  intros H. apply (inj Some) in H. subst data.
  destruct (enc_WireMessage_spec m v Hwf E) as [W D].
  unfold Unmarshal. rewrite (parse_render v W). exact D.
Qed.

(** [Encode] fails for the messages for which [Encode_ok] says so. *)
Lemma Encode_ok_spec (m : Message) :
  Encode_ok m = true <-> exists data, Encode m = Some data.
Proof.
  unfold Encode_ok, Encode, enc_WireMessage, to_wire, enc_PetIdentity,
    enc_time.
  cbn [w_Type w_From w_Timestamp w_Payload w_Signature w_Nonce w_TTL].
  destruct (format_time (Timestamp m)), (format_time (BirthTime (From m)));
    split; intros H; try discriminate; try reflexivity;
    try (eexists; reflexivity); destruct H as [d H]; discriminate.
Qed.

(** X29: a message whose fields hold what Go can hold there (strings
    of valid UTF-8, [int]s, times with nanoseconds below one second; any
    bytes as the payload, not nil) and that [Encode] could write is read
    back by [DecodeMessage] field by field, the payload through base64;
    when the text fits a datagram, [listenLoop] hands that message to
    [handleMessage] unless it is the service's own.  [Encode] can write
    a message exactly when its two times, the timestamp and the birth
    time of the sender, have an RFC 3339 form. *)
Theorem Encode_DecodeMessage (m : Message) :
  ((exists data, Encode m = Some data) <->
   JSON.format_time (Timestamp m) <> None
   /\ JSON.format_time (BirthTime (From m)) <> None)
  /\ ((exists data, Encode m = Some data) <-> Encode_ok m = true)
  /\ (forall data,
        wf_message m = true ->
        Encode m = Some data ->
        DecodeMessage data = Some (to_wire m)
        /\ of_wire (to_wire m) = Some m
        /\ ((String.length data <= MaxMessageSize)%nat ->
            forall clk ds addr,
              listenLoop_body clk ds data addr
              = Continues (listenStep clk ds m addr))).
Proof.
  split; [| split; [symmetry; apply Encode_ok_spec |]].
  - rewrite <- Encode_ok_spec. unfold Encode_ok.
    destruct (format_time (Timestamp m)),
      (format_time (BirthTime (From m)));
      (split; [intros H; try discriminate H; split; discriminate
              | intros [H1 H2]; try reflexivity; congruence]).
  - intros data Hwf E. pose proof (Encode_decodes m data Hwf E) as D.
    split; [exact D |]. split; [apply of_wire_to_wire |].
    intros Hlen clk ds addr. unfold listenLoop_body.
    rewrite (substring_all _ _ Hlen), D, of_wire_to_wire. reflexivity.
Qed.

Lemma Encode_DecodeMessage_witness :
  DecodeMessage sample_datagram = Some (to_wire Sample.quiet_mood)
  /\ (String.length sample_datagram <= MaxMessageSize)%nat.
Proof.
  split.
  - exact (proj1 (proj2 (proj2 (Encode_DecodeMessage Sample.quiet_mood))
                    sample_datagram eq_refl eq_refl)).
  - vm_compute. repeat constructor.
Defined.

(** Without a member for it, [From] stays nil. *)
Lemma dec_members_no_sender (mem : list (string * value)) :
  forall w w',
    existsb (fun kv => key_matches "from" kv.1
                       && match kv.2 with Null => false | _ => true end)
            mem = false ->
    w_From w = None ->
    dec_members WireMessage_field mem w = Some w' ->
    w_From w' = None.
Proof.
  induction mem as [| [k v] mem IH]; intros w w' Hno Hw H.
  - cbn [dec_members] in H. apply (inj Some) in H. subst w'. exact Hw.
  - cbn [existsb fst snd] in Hno. apply orb_false_elim in Hno as [Hk Hno].
    cbn [dec_members] in H.
    destruct (WireMessage_field k v w) as [w1 |] eqn:E; [| discriminate].
    apply (IH w1 w' Hno); [| exact H].
    unfold WireMessage_field in E.
    destruct (key_matches "type" k);
      [destruct (dec_int v (w_Type w)); [| discriminate];
       apply (inj Some) in E; subst w1; exact Hw |].
    destruct (key_matches "from" k).
    { destruct v; try discriminate Hk.
      cbn [dec_identity] in E. apply (inj Some) in E. subst w1. reflexivity. }
    destruct (key_matches "timestamp" k);
      [destruct (dec_time v (w_Timestamp w)); [| discriminate];
       apply (inj Some) in E; subst w1; exact Hw |].
    destruct (key_matches "payload" k);
      [destruct (dec_bytes v (w_Payload w)); [| discriminate];
       apply (inj Some) in E; subst w1; exact Hw |].
    destruct (key_matches "signature" k);
      [destruct (dec_string v (w_Signature w)); [| discriminate];
       apply (inj Some) in E; subst w1; exact Hw |].
    destruct (key_matches "nonce" k);
      [destruct (dec_string v (w_Nonce w)); [| discriminate];
       apply (inj Some) in E; subst w1; exact Hw |].
    destruct (key_matches "ttl" k);
      [destruct (dec_int v (w_TTL w)); [| discriminate];
       apply (inj Some) in E; subst w1; exact Hw |].
    apply (inj Some) in E. subst w1. exact Hw.
Qed.

(** X30: a datagram whose text is JSON but names no sender (no member
    for [From], or [null] there) never reaches [handleMessage]: when
    [DecodeMessage] takes the text, and it takes [{}] and [null],
    [From] is nil and [msg.From.PetID] stops the program; otherwise the
    datagram is ignored. *)
Theorem datagram_without_sender (clk : Clock) (ds : DiscoveryService)
    (datagram : string) (addr : UDPAddr) (v : value) :
  parse (String.substring 0 MaxMessageSize datagram) = Some v ->
  names_sender v = false ->
  listenLoop_body clk ds datagram addr
  = match DecodeMessage (String.substring 0 MaxMessageSize datagram) with
    | Some _ => Panics
    | None => Continues (ds, [], [])
    end.
Proof.
  intros P Hno. unfold listenLoop_body.
  destruct (DecodeMessage _) as [w |] eqn:E; [| reflexivity].
  unfold DecodeMessage, Unmarshal in E. rewrite P in E.
  assert (Hw : w_From w = None).
  { destruct v; try discriminate E.
    - cbn [dec_struct] in E. apply (inj Some) in E. subst w. reflexivity.
    - cbn [dec_struct] in E.
      exact (dec_members_no_sender _ zeroWireMessage w Hno eq_refl E). }
  unfold of_wire. rewrite Hw. reflexivity.
Qed.

Lemma datagram_without_sender_witness :
  listenLoop_body (Sample.clock 1705315000) (NewDiscoveryService Sample.fluffy) "{}"
    Sample.addr = Panics.
Proof.
  exact (datagram_without_sender (Sample.clock 1705315000)
           (NewDiscoveryService Sample.fluffy) "{}" Sample.addr (Obj [])
           eq_refl eq_refl).
Defined.

End Wire.
